(** * Bybit client: order manager, portfolio manager and ticker stream

    A shallow embedding of [order_manager.py], [portfolio.py],
    [orderbook_stream.py] and [trading_types.py].

    Python values that travel on the wire (decoded JSON) are the type
    [pyval]; exceptions are values of [exn] carried by [result].  A Python
    [str] is represented by the Rocq string of its UTF-8 encoding.  Library
    functions whose CPython behaviour depends on the Unicode character
    database ([str.upper], digits and blanks accepted by [Decimal] and
    [int], [repr]) are modelled exactly on ASCII text; other characters are
    left unchanged by [upper] and [repr] and are rejected as digits.  JSON
    numbers with a fraction or an exponent (Python floats) are outside
    [pyval]: the exchange sends decimal quantities as strings.  Log lines
    are not modelled. *)

From Stdlib Require Import ZArith List String Ascii Bool Lia.
From Stdlib Require Import DecimalString.
Import ListNotations.
Local Open Scope string_scope.
Local Open Scope Z_scope.
Local Set Warnings "-register-all".

(** ** Exceptions and results *)

(** The exception classes the code can meet; all derive from [Exception]. *)
Inductive exn : Type :=
| TypeError
| ValueError
| AttributeError
| KeyError
| IndexError
| InvalidOperation      (* decimal.InvalidOperation *)
| OverflowError
| OSError
| RequestException.     (* requests.exceptions.RequestException and subclasses *)

Inductive result (A : Type) : Type :=
| Ok (a : A)
| Raise (e : exn).

Arguments Ok {A} a.
Arguments Raise {A} e.

Definition bind {A B : Type} (r : result A) (k : A -> result B) : result B :=
  match r with
  | Ok a => k a
  | Raise e => Raise e
  end.

Notation "x <- e ;; k" := (bind e (fun x => k))
  (at level 61, e at next level, right associativity).

(** [try: body / except Exception: handler]. *)
Definition try_except {A : Type} (body : result A) (handler : exn -> result A)
  : result A :=
  match body with
  | Ok a => Ok a
  | Raise e => handler e
  end.

Fixpoint mapM {A B : Type} (f : A -> result B) (l : list A) : result (list B) :=
  match l with
  | [] => Ok []
  | x :: xs => y <- f x ;; ys <- mapM f xs ;; Ok (y :: ys)
  end.

(** ** Wire values *)

Inductive pyval : Type :=
| PyNone
| PyBool (b : bool)
| PyInt (n : Z)
| PyStr (s : string)
| PyList (l : list pyval)
| PyDict (d : list (string * pyval)).

(** A dict is an association list in insertion order. *)
Definition dict : Type := list (string * pyval).

Fixpoint dict_lookup (d : dict) (k : string) : option pyval :=
  match d with
  | [] => None
  | (k', v) :: rest => if String.eqb k' k then Some v else dict_lookup rest k
  end.

(** [d.get(k, default)] on a dict. *)
Definition dict_get (d : dict) (k : string) (default : pyval) : pyval :=
  match dict_lookup d k with
  | Some v => v
  | None => default
  end.

(** [v.get(k, default)] on an arbitrary value: only dicts have [get]. *)
Definition py_get (v : pyval) (k : string) (default : pyval) : result pyval :=
  match v with
  | PyDict d => Ok (dict_get d k default)
  | _ => Raise AttributeError
  end.

(** Truth value of an object, as tested by [if x], [x and y], [x if c else y]. *)
Definition py_truthy (v : pyval) : bool :=
  match v with
  | PyNone => false
  | PyBool b => b
  | PyInt n => negb (n =? 0)
  | PyStr s => negb (String.eqb s EmptyString)
  | PyList l => match l with [] => false | _ => true end
  | PyDict d => match d with [] => false | _ => true end
  end.

(** [v == n] for an int literal [n]; [bool] is a subclass of [int]. *)
Definition py_eq_int (v : pyval) (n : Z) : bool :=
  match v with
  | PyInt m => m =? n
  | PyBool b => (if b then 1 else 0) =? n
  | _ => false
  end.

(** [x + y]: concatenation of strings, sum of ints, [TypeError] for a
    string and an int. *)
Definition py_add (x y : pyval) : result pyval :=
  match x, y with
  | PyStr a, PyStr b => Ok (PyStr (a ++ b))
  | PyInt a, PyInt b => Ok (PyInt (a + b))
  | PyInt a, PyBool b => Ok (PyInt (a + (if b then 1 else 0)))
  | PyBool a, PyInt b => Ok (PyInt ((if a then 1 else 0) + b))
  | PyBool a, PyBool b => Ok (PyInt ((if a then 1 else 0) + (if b then 1 else 0)))
  | PyList a, PyList b => Ok (PyList (a ++ b))
  | _, _ => Raise TypeError
  end.

(** The values a [for] loop visits. *)
Definition py_iter (v : pyval) : result (list pyval) :=
  match v with
  | PyList l => Ok l
  | PyDict d => Ok (map (fun kv => PyStr (fst kv)) d)
  | PyStr s => Ok (map (fun c => PyStr (String c EmptyString)) (list_ascii_of_string s))
  | _ => Raise TypeError
  end.

(** [v[0]]: the first element of a list or string; a dict decoded from
    JSON has string keys only, so the key [0] is never found. *)
Definition py_first (v : pyval) : result pyval :=
  match v with
  | PyList (x :: _) => Ok x
  | PyList [] => Raise IndexError
  | PyStr (String c _) => Ok (PyStr (String c EmptyString))
  | PyStr EmptyString => Raise IndexError
  | PyDict _ => Raise KeyError
  | _ => Raise TypeError
  end.

(** ** Text helpers *)

Definition dquote : string := String (ascii_of_nat 34) EmptyString.
Definition squote : string := String (ascii_of_nat 39) EmptyString.
Definition backslash : string := String (ascii_of_nat 92) EmptyString.

(** [str(n)] for an int. *)
Definition str_of_Z (n : Z) : string := NilZero.string_of_int (Z.to_int n).

Definition byte_of_ascii (c : ascii) : Z := Z.of_N (N_of_ascii c).
Definition ascii_of_byte (b : Z) : ascii := ascii_of_N (Z.to_N b).

(** [sep.join(parts)]. *)
Fixpoint join (sep : string) (parts : list string) : string :=
  match parts with
  | [] => EmptyString
  | [p] => p
  | p :: rest => p ++ sep ++ join sep rest
  end.

Fixpoint starts_with (prefix s : string) : bool :=
  match prefix, s with
  | EmptyString, _ => true
  | String a p', String b s' => Ascii.eqb a b && starts_with p' s'
  | String _ _, EmptyString => false
  end.

(** [v.startswith(prefix)]: a method of [str] only. *)
Definition py_startswith (v : pyval) (prefix : string) : result bool :=
  match v with
  | PyStr s => Ok (starts_with prefix s)
  | _ => Raise AttributeError
  end.

Definition upper_ascii (c : ascii) : ascii :=
  let n := byte_of_ascii c in
  if (97 <=? n) && (n <=? 122) then ascii_of_byte (n - 32) else c.

(** [s.upper()]. *)
Fixpoint upper (s : string) : string :=
  match s with
  | EmptyString => EmptyString
  | String c rest => String (upper_ascii c) (upper rest)
  end.

Definition hex_digit (n : Z) : ascii :=
  if n <? 10 then ascii_of_byte (48 + n) else ascii_of_byte (87 + n).

(** Two lowercase hexadecimal digits of a byte. *)
Definition hex_byte (b : Z) : string :=
  String (hex_digit (b / 16)) (String (hex_digit (b mod 16)) EmptyString).

(** Four lowercase hexadecimal digits of a 16-bit code unit. *)
Definition hex4 (n : Z) : string := hex_byte (n / 256) ++ hex_byte (n mod 256).

(** [s.encode("utf-8")]: the bytes of the string. *)
Definition utf8_encode (s : string) : list Z := map byte_of_ascii (list_ascii_of_string s).

(** ** SHA-256 and HMAC

    [hashlib.sha256] and [hmac.new(key, msg, hashlib.sha256)] of the Python
    standard library, after FIPS 180-4 and RFC 2104.  Words are integers
    below 2^32, bytes integers below 256. *)

Module SHA256.
Local Open Scope list_scope.

Definition w32 (x : Z) : Z := x mod 4294967296.
Definition add32 (x y : Z) : Z := w32 (x + y).
Definition rotr (n x : Z) : Z := Z.lor (Z.shiftr x n) (w32 (Z.shiftl x (32 - n))).
Definition not32 (x : Z) : Z := Z.lxor x 4294967295.
Definition xor3 (x y z : Z) : Z := Z.lxor (Z.lxor x y) z.

Definition Ch (x y z : Z) : Z := Z.lxor (Z.land x y) (Z.land (not32 x) z).
Definition Maj (x y z : Z) : Z := xor3 (Z.land x y) (Z.land x z) (Z.land y z).
Definition Sigma0 (x : Z) : Z := xor3 (rotr 2 x) (rotr 13 x) (rotr 22 x).
Definition Sigma1 (x : Z) : Z := xor3 (rotr 6 x) (rotr 11 x) (rotr 25 x).
Definition sigma0 (x : Z) : Z := xor3 (rotr 7 x) (rotr 18 x) (Z.shiftr x 3).
Definition sigma1 (x : Z) : Z := xor3 (rotr 17 x) (rotr 19 x) (Z.shiftr x 10).

(** The first 64 primes. *)
Definition primes : list Z :=
  [ 2; 3; 5; 7; 11; 13; 17; 19; 23; 29; 31; 37; 41; 43; 47; 53; 59; 61; 67; 71; 73; 79;
    83; 89; 97; 101; 103; 107; 109; 113; 127; 131; 137; 139; 149; 151; 157; 163; 167;
    173; 179; 181; 191; 193; 197; 199; 211; 223; 227; 229; 233; 239; 241; 251; 257; 263;
    269; 271; 277; 281; 283; 293; 307; 311 ].

(** The largest integer below 2^bits, above [r] by lower bits only, whose
    [k]-th power does not exceed [n]. *)
Fixpoint root_bits (k n : Z) (bits : nat) (r : Z) : Z :=
  match bits with
  | O => r
  | S b =>
      let c := r + 2 ^ Z.of_nat b in
      root_bits k n b (if c ^ k <=? n then c else r)
  end.

(** The first 32 bits of the fractional part of the [k]-th root of [p]. *)
Definition frac_root (k p : Z) : Z := w32 (root_bits k (p * 2 ^ (32 * k)) 36 0).

(** The round constants: from the cube roots of the first 64 primes. *)
Definition K : list Z := Eval vm_compute in map (frac_root 3) primes.

(** The eight working variables, also the chaining value. *)
Record hash : Type := mkHash { ha : Z; hb : Z; hc : Z; hd : Z; he : Z; hf : Z; hg : Z; hh : Z }.

(** The initial value: from the square roots of the first 8 primes. *)
Definition H0 : hash :=
  Eval vm_compute in
    match map (frac_root 2) (firstn 8 primes) with
    | [a; b; c; d; e; f; g; h] => mkHash a b c d e f g h
    | _ => mkHash 0 0 0 0 0 0 0 0
    end.

(** Padding: a 1 bit, zeros up to 56 modulo 64 bytes, the bit List.length on 8 bytes. *)
Definition be_bytes (n : nat) (x : Z) : list Z :=
  map (fun i => (x / 256 ^ Z.of_nat i) mod 256) (rev (seq 0 n)).

Definition pad (msg : list Z) : list Z :=
  let len := Z.of_nat (List.length msg) in
  msg ++ [128] ++ repeat 0 (Z.to_nat ((55 - len) mod 64)) ++ be_bytes 8 (8 * len).

Fixpoint words_of_bytes (bs : list Z) : list Z :=
  match bs with
  | b0 :: b1 :: b2 :: b3 :: rest =>
      (b0 * 16777216 + b1 * 65536 + b2 * 256 + b3) :: words_of_bytes rest
  | _ => []
  end.

Fixpoint blocks (fuel : nat) (bs : list Z) : list (list Z) :=
  match fuel with
  | O => []
  | S fuel' =>
      match bs with
      | [] => []
      | _ => firstn 64 bs :: blocks fuel' (skipn 64 bs)
      end
  end.

(** Message schedule, most recent word first while it is extended. *)
Fixpoint extend (n : nat) (rw : list Z) : list Z :=
  match n with
  | O => rw
  | S n' =>
      let w := add32 (add32 (sigma1 (nth 1 rw 0)) (nth 6 rw 0))
                     (add32 (sigma0 (nth 14 rw 0)) (nth 15 rw 0)) in
      extend n' (w :: rw)
  end.

Definition schedule (block : list Z) : list Z :=
  rev (extend 48 (rev (words_of_bytes block))).

Definition round (s : hash) (kw : Z * Z) : hash :=
  let t1 := add32 (add32 (add32 (hh s) (Sigma1 (he s))) (Ch (he s) (hf s) (hg s)))
                  (add32 (fst kw) (snd kw)) in
  let t2 := add32 (Sigma0 (ha s)) (Maj (ha s) (hb s) (hc s)) in
  mkHash (add32 t1 t2) (ha s) (hb s) (hc s) (add32 (hd s) t1) (he s) (hf s) (hg s).

Definition compress (h : hash) (block : list Z) : hash :=
  let s := fold_left round (combine K (schedule block)) h in
  mkHash (add32 (ha h) (ha s)) (add32 (hb h) (hb s)) (add32 (hc h) (hc s))
         (add32 (hd h) (hd s)) (add32 (he h) (he s)) (add32 (hf h) (hf s))
         (add32 (hg h) (hg s)) (add32 (hh h) (hh s)).

Definition digest_bytes (h : hash) : list Z :=
  be_bytes 4 (ha h) ++ be_bytes 4 (hb h) ++ be_bytes 4 (hc h) ++ be_bytes 4 (hd h) ++
  be_bytes 4 (he h) ++ be_bytes 4 (hf h) ++ be_bytes 4 (hg h) ++ be_bytes 4 (hh h).

Definition sha256 (msg : list Z) : list Z :=
  let padded := pad msg in
  digest_bytes (fold_left compress (blocks (List.length padded) padded) H0).

End SHA256.

Module HMAC.
Local Open Scope list_scope.

Definition block_size : nat := 64.

Definition xor_with (c : Z) (bs : list Z) : list Z := map (fun b => Z.lxor b c) bs.

(** [hmac.new(key, msg, hashlib.sha256).digest()]. *)
Definition hmac_sha256 (key msg : list Z) : list Z :=
  let key0 := if (block_size <? List.length key)%nat then SHA256.sha256 key else key in
  let key1 := key0 ++ repeat 0 (block_size - List.length key0) in
  SHA256.sha256 (xor_with 92 key1 ++ SHA256.sha256 (xor_with 54 key1 ++ msg)).

(** [.hexdigest()]. *)
Definition hexdigest (bs : list Z) : string := concat EmptyString (map hex_byte bs).

End HMAC.

(** ** [json.dumps], [repr] and [str] on wire values *)

Definition json_escape_unit (n : Z) : string := backslash ++ "u" ++ hex4 n.

(** A code point as one UTF-16 code unit or a surrogate pair. *)
Definition json_escape_cp (cp : Z) : string :=
  if cp <? 65536 then json_escape_unit cp
  else json_escape_unit (55296 + (cp - 65536) / 1024)
       ++ json_escape_unit (56320 + (cp - 65536) mod 1024).

Definition json_escape_ascii (c : ascii) : string :=
  let b := byte_of_ascii c in
  if b =? 34 then backslash ++ dquote
  else if b =? 92 then backslash ++ backslash
  else if b =? 10 then backslash ++ "n"
  else if b =? 13 then backslash ++ "r"
  else if b =? 9 then backslash ++ "t"
  else if b =? 8 then backslash ++ "b"
  else if b =? 12 then backslash ++ "f"
  else if (b <? 32) || (b =? 127) then json_escape_unit b
  else String c EmptyString.

(** The body of a JSON string with [ensure_ascii=True] (the default): every
    character outside the printable ASCII range is written as an escape. *)
Fixpoint json_escape (s : string) : string :=
  match s with
  | EmptyString => EmptyString
  | String c rest =>
      let b := byte_of_ascii c in
      if b <? 128 then json_escape_ascii c ++ json_escape rest
      else if b <? 224 then
        match rest with
        | String c1 rest1 =>
            json_escape_cp ((b - 192) * 64 + (byte_of_ascii c1 - 128)) ++ json_escape rest1
        | _ => json_escape_cp b ++ json_escape rest
        end
      else if b <? 240 then
        match rest with
        | String c1 (String c2 rest2) =>
            json_escape_cp ((b - 224) * 4096 + (byte_of_ascii c1 - 128) * 64
                            + (byte_of_ascii c2 - 128)) ++ json_escape rest2
        | _ => json_escape_cp b ++ json_escape rest
        end
      else
        match rest with
        | String c1 (String c2 (String c3 rest3)) =>
            json_escape_cp ((b - 240) * 262144 + (byte_of_ascii c1 - 128) * 4096
                            + (byte_of_ascii c2 - 128) * 64 + (byte_of_ascii c3 - 128))
            ++ json_escape rest3
        | _ => json_escape_cp b ++ json_escape rest
        end
  end.

Definition json_string (s : string) : string := dquote ++ json_escape s ++ dquote.

(** [json.dumps(v)] with the default separators. *)
Fixpoint json_dumps (v : pyval) : string :=
  match v with
  | PyNone => "null"
  | PyBool true => "true"
  | PyBool false => "false"
  | PyInt n => str_of_Z n
  | PyStr s => json_string s
  | PyList l => "[" ++ join ", " (map json_dumps l) ++ "]"
  | PyDict d =>
      "{" ++ join ", " (map (fun kv => match kv with
                                       | (k, x) => json_string k ++ ": " ++ json_dumps x
                                       end) d) ++ "}"
  end.

Fixpoint str_contains (c : ascii) (s : string) : bool :=
  match s with
  | EmptyString => false
  | String c' rest => Ascii.eqb c c' || str_contains c rest
  end.

Definition repr_escape_ascii (quote : Z) (c : ascii) : string :=
  let b := byte_of_ascii c in
  if b =? 92 then backslash ++ backslash
  else if b =? quote then backslash ++ String c EmptyString
  else if b =? 10 then backslash ++ "n"
  else if b =? 13 then backslash ++ "r"
  else if b =? 9 then backslash ++ "t"
  else if (b <? 32) || (b =? 127) then backslash ++ "x" ++ hex_byte b
  else String c EmptyString.

Fixpoint repr_escape (quote : Z) (s : string) : string :=
  match s with
  | EmptyString => EmptyString
  | String c rest => repr_escape_ascii quote c ++ repr_escape quote rest
  end.

(** [repr(s)] for a string: single quotes, unless the text holds a single
    quote and no double quote. *)
Definition repr_str (s : string) : string :=
  if str_contains (ascii_of_nat 39) s && negb (str_contains (ascii_of_nat 34) s)
  then dquote ++ repr_escape 34 s ++ dquote
  else squote ++ repr_escape 39 s ++ squote.

Fixpoint py_repr (v : pyval) : string :=
  match v with
  | PyNone => "None"
  | PyBool true => "True"
  | PyBool false => "False"
  | PyInt n => str_of_Z n
  | PyStr s => repr_str s
  | PyList l => "[" ++ join ", " (map py_repr l) ++ "]"
  | PyDict d =>
      "{" ++ join ", " (map (fun kv => match kv with
                                       | (k, x) => repr_str k ++ ": " ++ py_repr x
                                       end) d) ++ "}"
  end.

(** [str(v)], which is also what an f-string field [{v}] inserts. *)
Definition py_str (v : pyval) : string :=
  match v with
  | PyStr s => s
  | _ => py_repr v
  end.

(** ** [decimal.Decimal] and [int] *)

(** A decimal is a sign, a non-negative coefficient and an exponent, or an
    infinity, or a quiet or signalling NaN with a payload. *)
Inductive Decimal : Type :=
| DFinite (neg : bool) (coeff : Z) (exp : Z)
| DInfinity (neg : bool)
| DNaN (neg : bool) (signaling : bool) (payload : Z).

(** [Decimal("0")]. *)
Definition Decimal_zero : Decimal := DFinite false 0 0.

Module DecimalParse.
Local Open Scope list_scope.

Definition is_space (c : ascii) : bool :=
  let b := byte_of_ascii c in
  ((9 <=? b) && (b <=? 13)) || ((28 <=? b) && (b <=? 32)).

Definition is_digit (c : ascii) : bool :=
  let b := byte_of_ascii c in (48 <=? b) && (b <=? 57).

Definition lower_ascii (c : ascii) : ascii :=
  let b := byte_of_ascii c in
  if (65 <=? b) && (b <=? 90) then ascii_of_byte (b + 32) else c.

Fixpoint lstrip (l : list ascii) : list ascii :=
  match l with
  | c :: rest => if is_space c then lstrip rest else l
  | [] => []
  end.

(** [s.strip()]. *)
Definition strip (l : list ascii) : list ascii := rev (lstrip (rev (lstrip l))).

(** The longest prefix of digits, and what follows it. *)
Fixpoint span_digits (l : list ascii) : list ascii * list ascii :=
  match l with
  | c :: rest =>
      if is_digit c then let (ds, r) := span_digits rest in (c :: ds, r) else ([], l)
  | [] => ([], [])
  end.

Definition digits_value (ds : list ascii) : Z :=
  fold_left (fun acc c => acc * 10 + (byte_of_ascii c - 48)) ds 0.

(** An optional sign: whether it is a minus, and what follows it. *)
Definition take_sign (l : list ascii) : bool * list ascii :=
  match l with
  | c :: rest =>
      if byte_of_ascii c =? 45 then (true, rest)
      else if byte_of_ascii c =? 43 then (false, rest)
      else (false, l)
  | [] => (false, [])
  end.

Definition is_nil {A : Type} (l : list A) : bool :=
  match l with [] => true | _ => false end.

(** The exponent part: nothing, or [E], an optional sign and digits. *)
Definition parse_exponent (l : list ascii) : option Z :=
  match l with
  | [] => Some 0
  | c :: rest =>
      if byte_of_ascii (lower_ascii c) =? 101 then
        let (neg, r1) := take_sign rest in
        let (ds, r2) := span_digits r1 in
        if is_nil ds || negb (is_nil r2) then None
        else Some (if neg then - digits_value ds else digits_value ds)
      else None
  end.

Definition lower_string (l : list ascii) : string :=
  string_of_list_ascii (map lower_ascii l).

(** A numeric string after its sign: digits with an optional point and
    exponent, or an infinity, or a NaN with optional payload digits. *)
Definition parse_unsigned (neg : bool) (l : list ascii) : option Decimal :=
  let (ip, r1) := span_digits l in
  let (fp, r2) :=
    match r1 with
    | c :: r => if byte_of_ascii c =? 46 then span_digits r else ([], r1)
    | [] => ([], r1)
    end in
  if negb (is_nil ip && is_nil fp) then
    match parse_exponent r2 with
    | Some e => Some (DFinite neg (digits_value (ip ++ fp)) (e - Z.of_nat (List.length fp)))
    | None => None
    end
  else
    let low := lower_string l in
    if String.eqb low "inf" || String.eqb low "infinity" then Some (DInfinity neg)
    else if starts_with "snan" low then
      let (ds, r) := span_digits (skipn 4 l) in
      if is_nil r then Some (DNaN neg true (digits_value ds)) else None
    else if starts_with "nan" low then
      let (ds, r) := span_digits (skipn 3 l) in
      if is_nil r then Some (DNaN neg false (digits_value ds)) else None
    else None.

(** [Decimal(s)] for a string: blanks around the text and underscores
    anywhere are dropped first. *)
Definition of_string (s : string) : option Decimal :=
  let l := filter (fun c => negb (byte_of_ascii c =? 95)) (strip (list_ascii_of_string s)) in
  let (neg, r) := take_sign l in
  parse_unsigned neg r.

(** A digit of the sequence form: an int from 0 to 9. *)
Definition seq_digit (v : pyval) : option Z :=
  match v with
  | PyInt n => if (0 <=? n) && (n <=? 9) then Some n else None
  | PyBool b => Some (if b then 1 else 0)
  | _ => None
  end.

Fixpoint seq_digits (l : list pyval) (acc : Z) : option Z :=
  match l with
  | [] => Some acc
  | v :: rest =>
      match seq_digit v with
      | Some n => seq_digits rest (acc * 10 + n)
      | None => None
      end
  end.

(** [Decimal([sign, digits, exponent])]: the third component is an int, or
    one of the letters F, n and N for an infinity and the two NaNs. *)
Definition of_sequence (l : list pyval) : option Decimal :=
  match l with
  | [s; PyList ds; e] =>
      match (match s with
             | PyInt n => if n =? 0 then Some false else if n =? 1 then Some true else None
             | PyBool b => Some b
             | _ => None
             end), seq_digits ds 0 with
      | Some neg, Some c =>
          match e with
          | PyInt n => Some (DFinite neg c n)
          | PyBool b => Some (DFinite neg c (if b then 1 else 0))
          | PyStr k =>
              if String.eqb k "F" then Some (DInfinity neg)
              else if String.eqb k "n" then Some (DNaN neg false c)
              else if String.eqb k "N" then Some (DNaN neg true c)
              else None
          | _ => None
          end
      | _, _ => None
      end
  | _ => None
  end.

End DecimalParse.

(** [Decimal(v)]. *)
Definition Decimal_new (v : pyval) : result Decimal :=
  match v with
  | PyStr s =>
      match DecimalParse.of_string s with
      | Some d => Ok d
      | None => Raise InvalidOperation
      end
  | PyInt n => Ok (DFinite (n <? 0) (Z.abs n) 0)
  | PyBool b => Ok (DFinite false (if b then 1 else 0) 0)
  | PyList l =>
      match DecimalParse.of_sequence l with
      | Some d => Ok d
      | None => Raise ValueError
      end
  | PyNone | PyDict _ => Raise TypeError
  end.

(** [a == b] on decimals: numerical equality; a quiet NaN equals nothing,
    a signalling NaN raises. *)
Definition Decimal_eq (a b : Decimal) : result bool :=
  match a, b with
  | DNaN _ true _, _ => Raise InvalidOperation
  | _, DNaN _ true _ => Raise InvalidOperation
  | DNaN _ false _, _ => Ok false
  | _, DNaN _ false _ => Ok false
  | DInfinity s1, DInfinity s2 => Ok (Bool.eqb s1 s2)
  | DInfinity _, DFinite _ _ _ => Ok false
  | DFinite _ _ _, DInfinity _ => Ok false
  | DFinite s1 c1 e1, DFinite s2 c2 e2 =>
      if (c1 =? 0) && (c2 =? 0) then Ok true
      else if (c1 =? 0) || (c2 =? 0) then Ok false
      else
        let m := Z.min e1 e2 in
        Ok (Bool.eqb s1 s2 && (c1 * 10 ^ (e1 - m) =? c2 * 10 ^ (e2 - m)))
  end.

(** [a != b]. *)
Definition Decimal_ne (a b : Decimal) : result bool :=
  r <- Decimal_eq a b ;; Ok (negb r).

Fixpoint zeros (n : nat) : string :=
  match n with
  | O => EmptyString
  | S n' => String "0" (zeros n')
  end.

(** [str(d)]: the scientific string of the decimal. *)
Definition Decimal_str (d : Decimal) : string :=
  match d with
  | DInfinity neg => (if neg then "-" else EmptyString) ++ "Infinity"
  | DNaN neg sig p =>
      (if neg then "-" else EmptyString) ++ (if sig then "sNaN" else "NaN")
      ++ (if p =? 0 then EmptyString else str_of_Z p)
  | DFinite neg c e =>
      let ds := str_of_Z c in
      let n := Z.of_nat (String.length ds) in
      let leftdigits := e + n in
      let dotplace := if (e <=? 0) && (-6 <? leftdigits) then leftdigits else 1 in
      let intpart :=
        if dotplace <=? 0 then "0"
        else if n <=? dotplace then ds ++ zeros (Z.to_nat (dotplace - n))
        else substring 0 (Z.to_nat dotplace) ds in
      let fracpart :=
        if dotplace <=? 0 then "." ++ zeros (Z.to_nat (- dotplace)) ++ ds
        else if n <=? dotplace then EmptyString
        else "." ++ substring (Z.to_nat dotplace) (Z.to_nat (n - dotplace)) ds in
      let exp :=
        if leftdigits =? dotplace then EmptyString
        else "E" ++ (if 0 <=? leftdigits - dotplace then "+" else EmptyString)
                 ++ str_of_Z (leftdigits - dotplace) in
      (if neg then "-" else EmptyString) ++ intpart ++ fracpart ++ exp
  end.

Module IntParse.
Local Open Scope list_scope.

(** Digits, single underscores allowed between two digits. *)
Fixpoint digits (l : list ascii) (acc : Z) : option Z :=
  match l with
  | [] => Some acc
  | c :: rest =>
      if DecimalParse.is_digit c then digits rest (acc * 10 + (byte_of_ascii c - 48))
      else if byte_of_ascii c =? 95 then
        match rest with
        | c' :: _ => if DecimalParse.is_digit c' then digits rest acc else None
        | [] => None
        end
      else None
  end.

Definition of_string (s : string) : option Z :=
  let (neg, r) := DecimalParse.take_sign (DecimalParse.strip (list_ascii_of_string s)) in
  match r with
  | c :: _ =>
      if DecimalParse.is_digit c then
        match digits r 0 with
        | Some n => Some (if neg then - n else n)
        | None => None
        end
      else None
  | [] => None
  end.

End IntParse.

(** [int(v)]. *)
Definition py_int (v : pyval) : result Z :=
  match v with
  | PyInt n => Ok n
  | PyBool b => Ok (if b then 1 else 0)
  | PyStr s =>
      match IntParse.of_string s with
      | Some n => Ok n
      | None => Raise ValueError
      end
  | PyNone | PyList _ | PyDict _ => Raise TypeError
  end.

(** ** trading_types.py *)

Inductive OrderSide : Type := BUY | SELL.
Inductive OrderType : Type := MARKET | LIMIT.
Inductive OrderStatus : Type := NEW | PARTIALLY_FILLED | FILLED | CANCELLED | REJECTED.
Inductive PositionSide : Type := LONG | SHORT | NONE.

(** [member.value]. *)
Definition OrderSide_value (s : OrderSide) : string :=
  match s with BUY => "Buy" | SELL => "Sell" end.

Definition OrderType_value (t : OrderType) : string :=
  match t with MARKET => "Market" | LIMIT => "Limit" end.

Definition OrderStatus_value (s : OrderStatus) : string :=
  match s with
  | NEW => "New"
  | PARTIALLY_FILLED => "PartiallyFilled"
  | FILLED => "Filled"
  | CANCELLED => "Cancelled"
  | REJECTED => "Rejected"
  end.

Definition PositionSide_value (s : PositionSide) : string :=
  match s with LONG => "Buy" | SHORT => "Sell" | NONE => "None" end.

(** [Enum(value)]: the member with that value; [ValueError] when there is
    none. *)
Definition lookup_member {A : Type} (members : list A) (value : A -> string) (v : pyval)
  : result A :=
  match v with
  | PyStr s =>
      match find (fun m => String.eqb (value m) s) members with
      | Some m => Ok m
      | None => Raise ValueError
      end
  | _ => Raise ValueError
  end.

Definition OrderSide_new : pyval -> result OrderSide :=
  lookup_member [BUY; SELL] OrderSide_value.
Definition OrderType_new : pyval -> result OrderType :=
  lookup_member [MARKET; LIMIT] OrderType_value.
Definition OrderStatus_new : pyval -> result OrderStatus :=
  lookup_member [NEW; PARTIALLY_FILLED; FILLED; CANCELLED; REJECTED] OrderStatus_value.
Definition PositionSide_new : pyval -> result PositionSide :=
  lookup_member [LONG; SHORT; NONE] PositionSide_value.

(** What the host platform decides: the type of naive local [datetime]
    values and [datetime.datetime.fromtimestamp(ms / 1000)] for an int
    [ms], which depends on the local time zone and raises outside the
    platform's range. *)
Class Platform : Type := {
  datetime : Type;
  fromtimestamp_ms : Z -> result datetime
}.

Record OrderBookLevel : Type := mkOrderBookLevel {
  level_price : Decimal;
  level_size : Decimal
}.

(** [symbol] and [timestamp] hold whatever the message carried. *)
Record OrderBook : Type := mkOrderBook {
  book_symbol : pyval;
  bids : list OrderBookLevel;
  asks : list OrderBookLevel;
  timestamp : pyval
}.

Record Order `{Platform} : Type := mkOrder {
  order_id : pyval;
  order_symbol : pyval;
  order_side : OrderSide;
  order_type : OrderType;
  quantity : Decimal;
  price : option Decimal;
  status : OrderStatus;
  filled_quantity : Decimal;
  average_price : option Decimal;
  created_time : datetime;
  updated_time : datetime;
  time_in_force : pyval
}.

Arguments mkOrder {_} _ _ _ _ _ _ _ _ _ _ _ _.

Record Position : Type := mkPosition {
  position_symbol : pyval;
  position_side : PositionSide;
  size : Decimal;
  entry_price : option Decimal;
  mark_price : option Decimal;
  unrealized_pnl : option Decimal;
  realized_pnl : option Decimal;
  leverage : option Decimal;
  margin : option Decimal
}.

Record Balance : Type := mkBalance {
  coin : pyval;
  wallet_balance : Decimal;
  available_balance : Decimal;
  used_balance : Decimal
}.

Record AccountInfo : Type := mkAccountInfo {
  balances : list Balance;
  positions : list Position;
  total_wallet_balance : Decimal;
  total_unrealized_pnl : Decimal
}.

(** ** The outside world of the REST managers *)

Inductive HttpMethod : Type := GET | POST.

(** A request handed to [requests.Session]: for GET the parameters become
    the query string, for POST the JSON body. *)
Record Request : Type := mkRequest {
  req_method : HttpMethod;
  req_url : string;
  req_headers : list (string * string);
  req_params : option dict
}.

(** One call of a manager sees: the clock read by [time.time()] in
    milliseconds, the two readings of [datetime.datetime.now()], and the
    exchange, which answers a request with the decoded JSON body or makes
    [requests] raise. *)
Record Env `{Platform} : Type := mkEnv {
  time_ms : Z;
  now_created : datetime;
  now_updated : datetime;
  send : Request -> result pyval
}.

Arguments mkEnv {_} _ _ _ _.

(** [x if cond else None] around [Decimal], as the parsers write it for
    optional fields. *)
Definition optional_decimal (data : pyval) (key : string) : result (option Decimal) :=
  cond <- py_get data key PyNone ;;
  if py_truthy cond then
    v <- py_get data key (PyStr "0") ;;
    d <- Decimal_new v ;;
    Ok (Some d)
  else Ok None.

(** [if params] for an optional dict. *)
Definition params_truthy (params : option dict) : bool :=
  match params with
  | Some d => py_truthy (PyDict d)
  | None => false
  end.

Definition params_value (params : option dict) : pyval :=
  match params with
  | Some d => PyDict d
  | None => PyNone
  end.

(** ** order_manager.py *)

Module OrderManager.

Record BybitOrderManager : Type := mkManager {
  api_key : string;
  api_secret : string;
  testnet : bool;
  base_url : string;
  recv_window : Z
}.

Definition __init__ (api_key api_secret : string) (testnet : bool) : BybitOrderManager :=
  mkManager api_key api_secret testnet
    (if testnet then "https://api-testnet.bybit.com" else "https://api.bybit.com")
    5000.

(** [timestamp + self.api_key + self.recv_window + params], then the
    HMAC of its encoding.  [recv_window] is the int set by [__init__]. *)
Definition _generate_signature (self : BybitOrderManager) (timestamp params : string)
  : result string :=
  s1 <- py_add (PyStr timestamp) (PyStr (api_key self)) ;;
  s2 <- py_add s1 (PyInt (recv_window self)) ;;
  param_str <- py_add s2 (PyStr params) ;;
  match param_str with
  | PyStr p =>
      Ok (HMAC.hexdigest (HMAC.hmac_sha256 (utf8_encode (api_secret self)) (utf8_encode p)))
  | _ => Raise AttributeError
  end.

Definition _get_headers `{Platform} (env : Env) (self : BybitOrderManager) (params : string)
  : result (list (string * string)) :=
  let timestamp := str_of_Z (time_ms env) in
  signature <- _generate_signature self timestamp params ;;
  Ok [ ("X-BAPI-API-KEY", api_key self);
       ("X-BAPI-SIGN", signature);
       ("X-BAPI-SIGN-TYPE", "2");
       ("X-BAPI-TIMESTAMP", timestamp);
       ("X-BAPI-RECV-WINDOW", str_of_Z (recv_window self));
       ("Content-Type", "application/json") ].

(** The local [params_str] of [_make_request]:
    [json.dumps(params) if params else ""]. *)
Definition _make_request_params_str (method : string) (params : option dict) : string :=
  if params_truthy params then json_dumps (params_value params) else EmptyString.

Definition _make_request `{Platform} (env : Env) (self : BybitOrderManager)
    (method endpoint : string) (params : option dict) : result pyval :=
  let url := base_url self ++ endpoint in
  let params_str := _make_request_params_str method params in
  headers <- _get_headers env self params_str ;;
  if String.eqb (upper method) "GET" then send env (mkRequest GET url headers params)
  else if String.eqb (upper method) "POST" then send env (mkRequest POST url headers params)
  else Raise ValueError.

Definition _parse_order `{Platform} (self : BybitOrderManager) (order_data : pyval)
  : result Order :=
  order_id <- py_get order_data "orderId" (PyStr EmptyString) ;;
  symbol <- py_get order_data "symbol" (PyStr EmptyString) ;;
  side_v <- py_get order_data "side" (PyStr EmptyString) ;;
  side <- OrderSide_new side_v ;;
  type_v <- py_get order_data "orderType" (PyStr EmptyString) ;;
  order_type <- OrderType_new type_v ;;
  qty_v <- py_get order_data "qty" (PyStr "0") ;;
  quantity <- Decimal_new qty_v ;;
  price <- optional_decimal order_data "price" ;;
  status_v <- py_get order_data "orderStatus" (PyStr EmptyString) ;;
  status <- OrderStatus_new status_v ;;
  filled_v <- py_get order_data "cumExecQty" (PyStr "0") ;;
  filled_quantity <- Decimal_new filled_v ;;
  average_price <- optional_decimal order_data "avgPrice" ;;
  created_v <- py_get order_data "createdTime" (PyStr "0") ;;
  created_ms <- py_int created_v ;;
  created_time <- fromtimestamp_ms created_ms ;;
  updated_v <- py_get order_data "updatedTime" (PyStr "0") ;;
  updated_ms <- py_int updated_v ;;
  updated_time <- fromtimestamp_ms updated_ms ;;
  time_in_force <- py_get order_data "timeInForce" (PyStr "GTC") ;;
  Ok (mkOrder order_id symbol side order_type quantity price status filled_quantity
              average_price created_time updated_time time_in_force).

(** The statements of [place_market_order] that follow the request, run on
    the response it returned. *)
Definition place_market_order_response `{Platform} (env : Env) (symbol : string)
    (side : OrderSide) (quantity : Decimal) (response : pyval) : result (option Order) :=
  ret_code <- py_get response "retCode" PyNone ;;
  if py_eq_int ret_code 0 then
    result <- py_get response "result" (PyDict []) ;;
    logged_id <- py_get result "orderId" PyNone ;;
    order_id <- py_get result "orderId" (PyStr EmptyString) ;;
    Ok (Some (mkOrder order_id (PyStr symbol) side MARKET quantity None NEW
                      Decimal_zero None (now_created env) (now_updated env) (PyStr "GTC")))
  else Ok None.

Definition place_market_order `{Platform} (env : Env) (self : BybitOrderManager)
    (symbol : string) (side : OrderSide) (quantity : Decimal) (reduce_only : bool)
  : result (option Order) :=
  let params :=
    [ ("category", PyStr "linear");
      ("symbol", PyStr symbol);
      ("side", PyStr (OrderSide_value side));
      ("orderType", PyStr (OrderType_value MARKET));
      ("qty", PyStr (Decimal_str quantity));
      ("reduceOnly", PyBool reduce_only) ] in
  try_except
    (response <- _make_request env self "POST" "/v5/order/create" (Some params) ;;
     place_market_order_response env symbol side quantity response)
    (fun e => Ok None).

Definition place_limit_order_response `{Platform} (env : Env) (symbol : string)
    (side : OrderSide) (quantity price : Decimal) (time_in_force : string)
    (response : pyval) : result (option Order) :=
  ret_code <- py_get response "retCode" PyNone ;;
  if py_eq_int ret_code 0 then
    result <- py_get response "result" (PyDict []) ;;
    logged_id <- py_get result "orderId" PyNone ;;
    order_id <- py_get result "orderId" (PyStr EmptyString) ;;
    Ok (Some (mkOrder order_id (PyStr symbol) side LIMIT quantity (Some price) NEW
                      Decimal_zero None (now_created env) (now_updated env)
                      (PyStr time_in_force)))
  else Ok None.

Definition place_limit_order `{Platform} (env : Env) (self : BybitOrderManager)
    (symbol : string) (side : OrderSide) (quantity price : Decimal)
    (time_in_force : string) (reduce_only : bool) : result (option Order) :=
  let params :=
    [ ("category", PyStr "linear");
      ("symbol", PyStr symbol);
      ("side", PyStr (OrderSide_value side));
      ("orderType", PyStr (OrderType_value LIMIT));
      ("qty", PyStr (Decimal_str quantity));
      ("price", PyStr (Decimal_str price));
      ("timeInForce", PyStr time_in_force);
      ("reduceOnly", PyBool reduce_only) ] in
  try_except
    (response <- _make_request env self "POST" "/v5/order/create" (Some params) ;;
     place_limit_order_response env symbol side quantity price time_in_force response)
    (fun e => Ok None).

Definition cancel_order_response (response : pyval) : result bool :=
  ret_code <- py_get response "retCode" PyNone ;;
  if py_eq_int ret_code 0 then Ok true else Ok false.

Definition cancel_order `{Platform} (env : Env) (self : BybitOrderManager)
    (symbol order_id : string) : result bool :=
  let params :=
    [ ("category", PyStr "linear");
      ("symbol", PyStr symbol);
      ("orderId", PyStr order_id) ] in
  try_except
    (response <- _make_request env self "POST" "/v5/order/cancel" (Some params) ;;
     cancel_order_response response)
    (fun e => Ok false).

Definition get_order_status_response `{Platform} (self : BybitOrderManager)
    (response : pyval) : result (option Order) :=
  ret_code <- py_get response "retCode" PyNone ;;
  if py_eq_int ret_code 0 then
    result <- py_get response "result" (PyDict []) ;;
    orders <- py_get result "list" (PyList []) ;;
    if py_truthy orders then
      order_data <- py_first orders ;;
      order <- _parse_order self order_data ;;
      Ok (Some order)
    else Ok None
  else Ok None.

Definition get_order_status `{Platform} (env : Env) (self : BybitOrderManager)
    (symbol order_id : string) : result (option Order) :=
  let params :=
    [ ("category", PyStr "linear");
      ("symbol", PyStr symbol);
      ("orderId", PyStr order_id) ] in
  try_except
    (response <- _make_request env self "GET" "/v5/order/realtime" (Some params) ;;
     get_order_status_response self response)
    (fun e => Ok None).

End OrderManager.

(** ** portfolio.py *)

Module Portfolio.
Local Open Scope list_scope.

Record BybitPortfolioManager : Type := mkManager {
  api_key : string;
  api_secret : string;
  testnet : bool;
  base_url : string;
  recv_window : Z
}.

Definition __init__ (api_key api_secret : string) (testnet : bool) : BybitPortfolioManager :=
  mkManager api_key api_secret testnet
    (if testnet then "https://api-testnet.bybit.com" else "https://api.bybit.com")
    5000.

(** [timestamp + self.api_key + str(self.recv_window) + params], then the
    HMAC of its encoding. *)
Definition _generate_signature (self : BybitPortfolioManager) (timestamp params : string)
  : result string :=
  s1 <- py_add (PyStr timestamp) (PyStr (api_key self)) ;;
  s2 <- py_add s1 (PyStr (str_of_Z (recv_window self))) ;;
  param_str <- py_add s2 (PyStr params) ;;
  match param_str with
  | PyStr p =>
      Ok (HMAC.hexdigest (HMAC.hmac_sha256 (utf8_encode (api_secret self)) (utf8_encode p)))
  | _ => Raise AttributeError
  end.

Definition _get_headers `{Platform} (env : Env) (self : BybitPortfolioManager)
    (params : string) : result (list (string * string)) :=
  let timestamp := str_of_Z (time_ms env) in
  signature <- _generate_signature self timestamp params ;;
  Ok [ ("X-BAPI-API-KEY", api_key self);
       ("X-BAPI-SIGN", signature);
       ("X-BAPI-SIGN-TYPE", "2"%string);
       ("X-BAPI-TIMESTAMP", timestamp);
       ("X-BAPI-RECV-WINDOW", str_of_Z (recv_window self));
       ("Content-Type", "application/json"%string) ].

(** The [k=v] pairs of the GET branch. *)
Definition query_pairs (d : dict) : list string :=
  map (fun kv => (fst kv ++ "=" ++ py_str (snd kv))%string) d.

(** The local [params_str] of [_make_request]. *)
Definition _make_request_params_str (method : string) (params : option dict) : string :=
  if String.eqb (upper method) "GET" && params_truthy params then
    match params with
    | Some d => join "&" (query_pairs d)
    | None => EmptyString
    end
  else if String.eqb (upper method) "POST" && params_truthy params then
    json_dumps (params_value params)
  else EmptyString.

Definition _make_request `{Platform} (env : Env) (self : BybitPortfolioManager)
    (method endpoint : string) (params : option dict) : result pyval :=
  let url := (base_url self ++ endpoint)%string in
  let params_str := _make_request_params_str method params in
  headers <- _get_headers env self params_str ;;
  if String.eqb (upper method) "GET" then send env (mkRequest GET url headers params)
  else if String.eqb (upper method) "POST" then send env (mkRequest POST url headers params)
  else Raise ValueError.

Definition _parse_position (self : BybitPortfolioManager) (pos_data : pyval)
  : result Position :=
  size_v <- py_get pos_data "size" (PyStr "0") ;;
  size <- Decimal_new size_v ;;
  side_str <- py_get pos_data "side" (PyStr "None") ;;
  is_zero <- Decimal_eq size Decimal_zero ;;
  side <- (if is_zero then Ok NONE else PositionSide_new side_str) ;;
  symbol <- py_get pos_data "symbol" (PyStr EmptyString) ;;
  entry_price <- optional_decimal pos_data "avgPrice" ;;
  mark_price <- optional_decimal pos_data "markPrice" ;;
  unrealized_pnl <- optional_decimal pos_data "unrealisedPnl" ;;
  realized_pnl <- optional_decimal pos_data "cumRealisedPnl" ;;
  leverage <- optional_decimal pos_data "leverage" ;;
  margin <- optional_decimal pos_data "positionIM" ;;
  Ok (mkPosition symbol side size entry_price mark_price unrealized_pnl realized_pnl
                 leverage margin).

Definition _parse_order `{Platform} (self : BybitPortfolioManager) (order_data : pyval)
  : result Order :=
  order_id <- py_get order_data "orderId" (PyStr EmptyString) ;;
  symbol <- py_get order_data "symbol" (PyStr EmptyString) ;;
  side_v <- py_get order_data "side" (PyStr EmptyString) ;;
  side <- OrderSide_new side_v ;;
  type_v <- py_get order_data "orderType" (PyStr EmptyString) ;;
  order_type <- OrderType_new type_v ;;
  qty_v <- py_get order_data "qty" (PyStr "0") ;;
  quantity <- Decimal_new qty_v ;;
  price <- optional_decimal order_data "price" ;;
  status_v <- py_get order_data "orderStatus" (PyStr EmptyString) ;;
  status <- OrderStatus_new status_v ;;
  filled_v <- py_get order_data "cumExecQty" (PyStr "0") ;;
  filled_quantity <- Decimal_new filled_v ;;
  average_price <- optional_decimal order_data "avgPrice" ;;
  created_v <- py_get order_data "createdTime" (PyStr "0") ;;
  created_ms <- py_int created_v ;;
  created_time <- fromtimestamp_ms created_ms ;;
  updated_v <- py_get order_data "updatedTime" (PyStr "0") ;;
  updated_ms <- py_int updated_v ;;
  updated_time <- fromtimestamp_ms updated_ms ;;
  time_in_force <- py_get order_data "timeInForce" (PyStr "GTC") ;;
  Ok (mkOrder order_id symbol side order_type quantity price status filled_quantity
              average_price created_time updated_time time_in_force).

(** The [for] loop of [get_positions]; [positions] is the list built so far. *)
Fixpoint get_positions_loop (self : BybitPortfolioManager) (positions_data : list pyval)
    (positions : list Position) : result (list Position) :=
  match positions_data with
  | [] => Ok positions
  | pos_data :: rest =>
      position <- _parse_position self pos_data ;;
      keep <- Decimal_ne (size position) Decimal_zero ;;
      get_positions_loop self rest (if keep then positions ++ [position] else positions)
  end.

(** The statements of [get_positions] that follow the request. *)
Definition get_positions_response (self : BybitPortfolioManager) (response : pyval)
  : result (list Position) :=
  ret_code <- py_get response "retCode" PyNone ;;
  if py_eq_int ret_code 0 then
    result <- py_get response "result" (PyDict []) ;;
    positions_data <- py_get result "list" (PyList []) ;;
    items <- py_iter positions_data ;;
    get_positions_loop self items []
  else Ok [].

(** [params["symbol"] = symbol] when the optional argument is truthy. *)
Definition with_symbol (params : dict) (symbol : option string) : dict :=
  match symbol with
  | Some s => if py_truthy (PyStr s) then params ++ [("symbol"%string, PyStr s)] else params
  | None => params
  end.

Definition get_positions `{Platform} (env : Env) (self : BybitPortfolioManager)
    (symbol : option string) : result (list Position) :=
  let params := with_symbol [("category"%string, PyStr "linear")] symbol in
  try_except
    (response <- _make_request env self "GET" "/v5/position/list" (Some params) ;;
     get_positions_response self response)
    (fun e => Ok []).

(** The [for] loop of [get_orders] and [get_order_history]. *)
Fixpoint get_orders_loop `{Platform} (self : BybitPortfolioManager)
    (orders_data : list pyval) (orders : list Order) : result (list Order) :=
  match orders_data with
  | [] => Ok orders
  | order_data :: rest =>
      order <- _parse_order self order_data ;;
      get_orders_loop self rest (orders ++ [order])
  end.

Definition get_orders_response `{Platform} (self : BybitPortfolioManager)
    (response : pyval) : result (list Order) :=
  ret_code <- py_get response "retCode" PyNone ;;
  if py_eq_int ret_code 0 then
    result <- py_get response "result" (PyDict []) ;;
    orders_data <- py_get result "list" (PyList []) ;;
    items <- py_iter orders_data ;;
    get_orders_loop self items []
  else Ok [].

Definition get_orders `{Platform} (env : Env) (self : BybitPortfolioManager)
    (symbol order_status : option string) (limit : Z) : result (list Order) :=
  let params :=
    with_symbol [("category"%string, PyStr "linear"); ("limit"%string, PyInt limit)] symbol in
  let params :=
    match order_status with
    | Some s =>
        if py_truthy (PyStr s) then params ++ [("orderStatus"%string, PyStr s)] else params
    | None => params
    end in
  try_except
    (response <- _make_request env self "GET" "/v5/order/realtime" (Some params) ;;
     get_orders_response self response)
    (fun e => Ok []).

Definition get_order_history `{Platform} (env : Env) (self : BybitPortfolioManager)
    (symbol : option string) (limit : Z) : result (list Order) :=
  let params :=
    with_symbol [("category"%string, PyStr "linear"); ("limit"%string, PyInt limit)] symbol in
  try_except
    (response <- _make_request env self "GET" "/v5/order/history" (Some params) ;;
     get_orders_response self response)
    (fun e => Ok []).

(** The [for] loop of [get_account_info] over the coin entries;
    [balances] is the list built so far. *)
Fixpoint get_account_info_loop (coins : list pyval) (balances : list Balance)
  : result (list Balance) :=
  match coins with
  | [] => Ok balances
  | coin_data :: rest =>
      coin <- py_get coin_data "coin" (PyStr EmptyString) ;;
      wallet_v <- py_get coin_data "walletBalance" (PyStr "0") ;;
      wallet_balance <- Decimal_new wallet_v ;;
      available_v <- py_get coin_data "availableToWithdraw" (PyStr "0") ;;
      available_balance <- Decimal_new available_v ;;
      locked_v <- py_get coin_data "locked" (PyStr "0") ;;
      used_balance <- Decimal_new locked_v ;;
      get_account_info_loop rest
        (balances ++ [mkBalance coin wallet_balance available_balance used_balance])
  end.

(** The statements of [get_account_info] that follow the request; they
    call [get_positions] for a second request, in the world [later] of
    that moment. *)
Definition get_account_info_response `{Platform} (later : Env)
    (self : BybitPortfolioManager) (response : pyval) : result (option AccountInfo) :=
  ret_code <- py_get response "retCode" PyNone ;;
  if py_eq_int ret_code 0 then
    result <- py_get response "result" (PyDict []) ;;
    account_data <- py_get result "list" (PyList []) ;;
    if py_truthy account_data then
      wallet_data <- py_first account_data ;;
      coins_v <- py_get wallet_data "coin" (PyList []) ;;
      coins <- py_iter coins_v ;;
      balances <- get_account_info_loop coins [] ;;
      positions <- get_positions later self None ;;
      total_v <- py_get wallet_data "totalWalletBalance" (PyStr "0") ;;
      total_wallet_balance <- Decimal_new total_v ;;
      pnl_v <- py_get wallet_data "totalUnrealisedPnl" (PyStr "0") ;;
      total_unrealized_pnl <- Decimal_new pnl_v ;;
      Ok (Some (mkAccountInfo balances positions total_wallet_balance total_unrealized_pnl))
    else Ok None
  else Ok None.

(** [env] is the world of the wallet-balance request, [later] the world
    of the position request that follows it. *)
Definition get_account_info `{Platform} (env later : Env) (self : BybitPortfolioManager)
  : result (option AccountInfo) :=
  try_except
    (response <- _make_request env self "GET" "/v5/account/wallet-balance"
                   (Some [("accountType"%string, PyStr "UNIFIED")]) ;;
     get_account_info_response later self response)
    (fun e => Ok None).

End Portfolio.

(** ** orderbook_stream.py *)

Module OrderBookStream.
Local Open Scope list_scope.

(** A registered observer: it receives a snapshot and returns or raises. *)
Definition Callback : Type := OrderBook -> result unit.

Record BybitOrderBookStream : Type := mkStream {
  symbol : string;
  ws_url : string;
  websocket : bool;                       (* a connection handle is held *)
  orderbook : option OrderBook;
  callback : option Callback;
  best_bid_price : option Decimal;
  best_bid_size : option Decimal;
  best_ask_price : option Decimal;
  best_ask_size : option Decimal
}.

Definition __init__ (symbol : string) : BybitOrderBookStream :=
  mkStream symbol "wss://stream.bybit.com/v5/public/linear" false None None
           None None None None.

Definition set_callback (self : BybitOrderBookStream) (cb : Callback) : BybitOrderBookStream :=
  mkStream (symbol self) (ws_url self) (websocket self) (orderbook self) (Some cb)
           (best_bid_price self) (best_bid_size self) (best_ask_price self)
           (best_ask_size self).

Definition get_latest_orderbook (self : BybitOrderBookStream) : option OrderBook :=
  orderbook self.

(** The stream object together with the snapshots handed to the callback
    so far, oldest first. *)
Record World : Type := mkWorld {
  stream : BybitOrderBookStream;
  delivered : list OrderBook
}.

(** Statements that read and assign the fields of [self] and may raise:
    the assignments made before an exception stay. *)
Definition M (A : Type) : Type := World -> World * result A.

Definition ret {A : Type} (a : A) : M A := fun w => (w, Ok a).

Definition bindM {A B : Type} (m : M A) (k : A -> M B) : M B :=
  fun w =>
    match m w with
    | (w', Ok a) => k a w'
    | (w', Raise e) => (w', Raise e)
    end.

Definition lift {A : Type} (r : result A) : M A := fun w => (w, r).

Definition self_ : M BybitOrderBookStream := fun w => (w, Ok (stream w)).

Definition assign (f : BybitOrderBookStream -> BybitOrderBookStream) : M unit :=
  fun w => (mkWorld (f (stream w)) (delivered w), Ok tt).

Notation "x <~ e ;; k" := (bindM e (fun x => k))
  (at level 61, e at next level, right associativity).
Notation "e ;;; k" := (bindM e (fun _ => k))
  (at level 61, right associativity).

Definition set_best_bid_price (d : Decimal) (s : BybitOrderBookStream) :=
  mkStream (symbol s) (ws_url s) (websocket s) (orderbook s) (callback s)
           (Some d) (best_bid_size s) (best_ask_price s) (best_ask_size s).
Definition set_best_bid_size (d : Decimal) (s : BybitOrderBookStream) :=
  mkStream (symbol s) (ws_url s) (websocket s) (orderbook s) (callback s)
           (best_bid_price s) (Some d) (best_ask_price s) (best_ask_size s).
Definition set_best_ask_price (d : Decimal) (s : BybitOrderBookStream) :=
  mkStream (symbol s) (ws_url s) (websocket s) (orderbook s) (callback s)
           (best_bid_price s) (best_bid_size s) (Some d) (best_ask_size s).
Definition set_best_ask_size (d : Decimal) (s : BybitOrderBookStream) :=
  mkStream (symbol s) (ws_url s) (websocket s) (orderbook s) (callback s)
           (best_bid_price s) (best_bid_size s) (best_ask_price s) (Some d).
Definition set_orderbook (ob : OrderBook) (s : BybitOrderBookStream) :=
  mkStream (symbol s) (ws_url s) (websocket s) (Some ob) (callback s)
           (best_bid_price s) (best_bid_size s) (best_ask_price s) (best_ask_size s).

(** [self.callback(self.orderbook)]: the call is recorded, its outcome is
    the outcome of the statement. *)
Definition call_callback (cb : Callback) (ob : OrderBook) : M unit :=
  fun w => (mkWorld (stream w) (delivered w ++ [ob]), cb ob).

(** [a and b] on two looked-up fields, as a condition. *)
Definition both_truthy (data : pyval) (k1 k2 : string) : result bool :=
  v1 <- py_get data k1 PyNone ;;
  if py_truthy v1 then
    v2 <- py_get data k2 PyNone ;;
    Ok (py_truthy v2)
  else Ok false.

(** [data[k]] on a value whose [get] has just found [k]. *)
Definition py_item (data : pyval) (k : string) : result pyval :=
  match data with
  | PyDict d =>
      match dict_lookup d k with
      | Some v => Ok v
      | None => Raise KeyError
      end
  | _ => Raise TypeError
  end.

(** One level when both the price and the size are known, none otherwise. *)
Definition level_of (price size : option Decimal) : list OrderBookLevel :=
  match price, size with
  | Some p, Some s => [mkOrderBookLevel p s]
  | _, _ => []
  end.

Definition _process_message (data : pyval) : M unit :=
  topic <~ lift (py_get data "topic" (PyStr EmptyString)) ;;
  is_ticker <~ lift (py_startswith topic "tickers") ;;
  if is_ticker then
    ticker_data <~ lift (py_get data "data" (PyDict [])) ;;
    if py_truthy ticker_data then
      timestamp <~ lift (py_get data "ts" (PyInt 0)) ;;
      has_bid <~ lift (both_truthy ticker_data "bid1Price" "bid1Size") ;;
      (if has_bid then
         pv <~ lift (py_item ticker_data "bid1Price") ;;
         p <~ lift (Decimal_new pv) ;;
         assign (set_best_bid_price p) ;;;
         sv <~ lift (py_item ticker_data "bid1Size") ;;
         s <~ lift (Decimal_new sv) ;;
         assign (set_best_bid_size s)
       else ret tt) ;;;
      has_ask <~ lift (both_truthy ticker_data "ask1Price" "ask1Size") ;;
      (if has_ask then
         pv <~ lift (py_item ticker_data "ask1Price") ;;
         p <~ lift (Decimal_new pv) ;;
         assign (set_best_ask_price p) ;;;
         sv <~ lift (py_item ticker_data "ask1Size") ;;
         s <~ lift (Decimal_new sv) ;;
         assign (set_best_ask_size s)
       else ret tt) ;;;
      self <~ self_ ;;
      let bids := level_of (best_bid_price self) (best_bid_size self) in
      let asks := level_of (best_ask_price self) (best_ask_size self) in
      book_symbol <~ lift (py_get ticker_data "symbol" (PyStr (symbol self))) ;;
      let ob := mkOrderBook book_symbol bids asks timestamp in
      assign (set_orderbook ob) ;;;
      match callback self with
      | Some cb => call_callback cb ob
      | None => ret tt
      end
    else ret tt
  else ret tt.

(** The body of [listen] once connected: the decoded messages are handled
    in arrival order; an exception ends the loop and is logged there. *)
Fixpoint listen_loop (messages : list pyval) : M unit :=
  match messages with
  | [] => ret tt
  | data :: rest => _process_message data ;;; listen_loop rest
  end.

Definition listen (messages : list pyval) : M unit :=
  fun w =>
    match listen_loop messages w with
    | (w', _) => (w', Ok tt)
    end.

(** A call made to the WebSocket library. *)
Inductive wire_event : Type :=
| Connect (url : string)
| Send (text : string)
| Close.

(** How the WebSocket library answers: opening a connection to a URL,
    sending a text on the connection, closing it. *)
Record Network : Type := mkNetwork {
  net_connect : string -> result unit;
  net_send : string -> result unit;
  net_close : result unit
}.

Definition set_websocket (held : bool) (s : BybitOrderBookStream) :=
  mkStream (symbol s) (ws_url s) held (orderbook s) (callback s)
           (best_bid_price s) (best_bid_size s) (best_ask_price s) (best_ask_size s).

(** The subscribe frame of [connect]. *)
Definition subscribe_msg (self : BybitOrderBookStream) : pyval :=
  PyDict [ ("op"%string, PyStr "subscribe");
           ("args"%string, PyList [PyStr ("tickers." ++ symbol self)%string]) ].

(** [connect]: the stream after it, the calls it made, and its outcome;
    an exception is logged and raised again. *)
Definition connect (net : Network) (self : BybitOrderBookStream)
  : BybitOrderBookStream * list wire_event * result unit :=
  match net_connect net (ws_url self) with
  | Raise e => (self, [Connect (ws_url self)], Raise e)
  | Ok _ =>
      let text := json_dumps (subscribe_msg self) in
      (set_websocket true self, [Connect (ws_url self); Send text], net_send net text)
  end.

(** [disconnect]: the connection is closed when a handle is held; the
    handle is kept. *)
Definition disconnect (net : Network) (self : BybitOrderBookStream)
  : BybitOrderBookStream * list wire_event * result unit :=
  if websocket self then (self, [Close], net_close net) else (self, [], Ok tt).

(** [listen] from its first line: [connect] runs when no handle is held,
    outside the [try], then the messages received are handled. *)
Definition listen_from_start (net : Network) (messages : list pyval) (w : World)
  : World * list wire_event * result unit :=
  if websocket (stream w) then
    match listen messages w with
    | (w', r) => (w', [], r)
    end
  else
    match connect net (stream w) with
    | (s, events, Ok _) =>
        match listen messages (mkWorld s (delivered w)) with
        | (w', r) => (w', events, r)
        end
    | (s, events, Raise e) => (mkWorld s (delivered w), events, Raise e)
    end.

End OrderBookStream.

(** ** Vocabulary of the statements *)



(** [d != Decimal("0")] as a test that cannot raise: a signalling NaN,
    which no parsed position carries, counts as zero here. *)
Definition Decimal_nonzero (d : Decimal) : bool :=
  match Decimal_ne d Decimal_zero with
  | Ok b => b
  | Raise _ => false
  end.

(** The value under [key] lies outside the values of an enumeration. *)
Definition outside {A : Type} (value : A -> string) (v : pyval) : Prop :=
  forall m : A, v <> PyStr (value m).

(** The payload carries [key] with a truthy value that [Decimal] reads as [x]. *)
Definition carries (d : dict) (key : string) (x : Decimal) : Prop :=
  exists v, dict_lookup d key = Some v /\ py_truthy v = true /\ Decimal_new v = Ok x.

Definition lacks (d : dict) (key : string) : Prop := dict_lookup d key = None.

(** [m] is a ticker message with the non-empty payload [d] and the time
    stamp [ts]. *)
Definition ticker_message (m : pyval) (d : dict) (ts : pyval) : Prop :=
  exists md topic,
    m = PyDict md
    /\ dict_get md "topic" (PyStr EmptyString) = PyStr topic
    /\ starts_with "tickers" topic = true
    /\ dict_get md "data" (PyDict []) = PyDict d
    /\ d <> []
    /\ dict_get md "ts" (PyInt 0) = ts.

(** The value names a member of the enumeration. *)
Definition names_member {A : Type} (value : A -> string) (v : pyval) : Prop :=
  exists m : A, v = PyStr (value m).

(** An order payload whose parse meets an enumeration string outside the
    fixed values: the side; or, the side being valid, the type; or, both
    being valid and the quantity and price being readable, the status. *)
Definition bad_order_enumeration (d : dict) : Prop :=
  outside OrderSide_value (dict_get d "side" (PyStr EmptyString))
  \/ (names_member OrderSide_value (dict_get d "side" (PyStr EmptyString))
      /\ outside OrderType_value (dict_get d "orderType" (PyStr EmptyString)))
  \/ (names_member OrderSide_value (dict_get d "side" (PyStr EmptyString))
      /\ names_member OrderType_value (dict_get d "orderType" (PyStr EmptyString))
      /\ (exists q, Decimal_new (dict_get d "qty" (PyStr "0")) = Ok q)
      /\ (exists p, optional_decimal (PyDict d) "price" = Ok p)
      /\ outside OrderStatus_value (dict_get d "orderStatus" (PyStr EmptyString))).

(** A position payload of non-zero size whose side string is outside the
    fixed values. *)
Definition bad_position_side (d : dict) : Prop :=
  (exists sz, Decimal_new (dict_get d "size" (PyStr "0")) = Ok sz
              /\ Decimal_eq sz Decimal_zero = Ok false)
  /\ outside PositionSide_value (dict_get d "side" (PyStr "None")).

(** What a tick says about one side of the book: a price and a size that
    [Decimal] reads, or nothing that passes the test of the handler. *)
Definition tick_side (d : dict) (price_key size_key : string)
    (side : option (Decimal * Decimal)) : Prop :=
  match side with
  | Some (p, s) => carries d price_key p /\ carries d size_key s
  | None => OrderBookStream.both_truthy (PyDict d) price_key size_key = Ok false
  end.

(** The tracked pair after such a tick: overwritten, or left as it was. *)
Definition apply_side
    (set_price set_size : Decimal -> OrderBookStream.BybitOrderBookStream
                          -> OrderBookStream.BybitOrderBookStream)
    (side : option (Decimal * Decimal)) (s : OrderBookStream.BybitOrderBookStream)
  : OrderBookStream.BybitOrderBookStream :=
  match side with
  | Some (p, sz) => set_size sz (set_price p s)
  | None => s
  end.

(** The stream after [n] messages of a list have been handled in order. *)
Definition after (messages : list pyval) (w : OrderBookStream.World) : OrderBookStream.World :=
  fold_left (fun w' m => fst (OrderBookStream._process_message m w')) messages w.

(** Every message of the list is handled without an exception. *)
Fixpoint handled (messages : list pyval) (w : OrderBookStream.World) : Prop :=
  match messages with
  | [] => True
  | m :: rest =>
      snd (OrderBookStream._process_message m w) = Ok tt
      /\ handled rest (fst (OrderBookStream._process_message m w))
  end.

(** The snapshot a stream holds. *)
Definition snapshot (w : OrderBookStream.World) : option OrderBook :=
  OrderBookStream.get_latest_orderbook (OrderBookStream.stream w).

(** A stream just constructed, with or without an observer. *)
Definition fresh (symbol : string) (cb : option OrderBookStream.Callback)
  : OrderBookStream.World :=
  OrderBookStream.mkWorld
    (match cb with
     | Some f => OrderBookStream.set_callback (OrderBookStream.__init__ symbol) f
     | None => OrderBookStream.__init__ symbol
     end) [].

(** The value of a header in the list [_get_headers] builds. *)
Fixpoint header (name : string) (headers : list (string * string)) : option string :=
  match headers with
  | [] => None
  | (k, v) :: rest => if String.eqb k name then Some v else header name rest
  end.

(** The outcome of a request that a public operation reports as a
    failure: an exception, a response that is not an object, or a
    response whose [retCode] is not 0. *)
Definition failed (outcome : result pyval) : Prop :=
  match outcome with
  | Raise _ => True
  | Ok response =>
      match py_get response "retCode" PyNone with
      | Ok ret_code => py_eq_int ret_code 0 = false
      | Raise _ => True
      end
  end.

(** The payload carries [key] with a truthy value that [Decimal] refuses. *)
Definition refused (d : dict) (key : string) (e : exn) : Prop :=
  exists v, dict_lookup d key = Some v /\ py_truthy v = true /\ Decimal_new v = Raise e.

(** A property of the stream object that a computation keeps. *)
Definition preserves {A : Type} (P : OrderBookStream.BybitOrderBookStream -> Prop)
    (m : OrderBookStream.M A) : Prop :=
  forall w, P (OrderBookStream.stream w) -> P (OrderBookStream.stream (fst (m w))).

(** A property kept by the five assignments of [_process_message]. *)
Definition kept_by_assignments (P : OrderBookStream.BybitOrderBookStream -> Prop) : Prop :=
  (forall d s, P s -> P (OrderBookStream.set_best_bid_price d s))
  /\ (forall d s, P s -> P (OrderBookStream.set_best_bid_size d s))
  /\ (forall d s, P s -> P (OrderBookStream.set_best_ask_price d s))
  /\ (forall d s, P s -> P (OrderBookStream.set_best_ask_size d s))
  /\ (forall sym p q p' q' ts s,
        P s -> P (OrderBookStream.set_orderbook
                    (mkOrderBook sym (OrderBookStream.level_of p q)
                                 (OrderBookStream.level_of p' q') ts) s)).

(** The WebSocket library opens every connection asked for. *)
Definition net_connect_ok (net : OrderBookStream.Network) : Prop :=
  forall url, OrderBookStream.net_connect net url = Ok tt.

(** The stored snapshot, when there is one, has at most one level a side. *)
Definition top_of_book_only (s : OrderBookStream.BybitOrderBookStream) : Prop :=
  forall ob, OrderBookStream.orderbook s = Some ob ->
             (List.length (bids ob) <= 1)%nat /\ (List.length (asks ob) <= 1)%nat.

(** The balance [get_account_info] builds from one coin entry. *)
Definition balance_of (coin_data : pyval) : result Balance :=
  coin <- py_get coin_data "coin" (PyStr EmptyString) ;;
  wallet_v <- py_get coin_data "walletBalance" (PyStr "0") ;;
  wallet_balance <- Decimal_new wallet_v ;;
  available_v <- py_get coin_data "availableToWithdraw" (PyStr "0") ;;
  available_balance <- Decimal_new available_v ;;
  locked_v <- py_get coin_data "locked" (PyStr "0") ;;
  used_balance <- Decimal_new locked_v ;;
  Ok (mkBalance coin wallet_balance available_balance used_balance).

(** A success response to the wallet-balance request whose first account
    reads as the given balances, one for each coin entry, and totals. *)
Definition wallet_reads (response : pyval) (balances : list Balance)
    (total pnl : Decimal) : Prop :=
  exists ret_code result rest wallet coins,
    py_get response "retCode" PyNone = Ok ret_code
    /\ py_eq_int ret_code 0 = true
    /\ py_get response "result" (PyDict []) = Ok result
    /\ py_get result "list" (PyList []) = Ok (PyList (PyDict wallet :: rest))
    /\ dict_get wallet "coin" (PyList []) = PyList coins
    /\ mapM balance_of coins = Ok balances
    /\ Decimal_new (dict_get wallet "totalWalletBalance" (PyStr "0")) = Ok total
    /\ Decimal_new (dict_get wallet "totalUnrealisedPnl" (PyStr "0")) = Ok pnl.

(** ** Sample data *)

(** A platform on which a local time is written as its millisecond count. *)
Definition sample_platform : Platform :=
  {| datetime := Z; fromtimestamp_ms := fun ms => Ok ms |}.

(** A world whose exchange gives the same answer to every request. *)
Definition sample_env (answer : result pyval) : @Env sample_platform :=
  @mkEnv sample_platform 1700000000000 1700000000001 1700000000002 (fun _ => answer).

Definition sample_order_manager : OrderManager.BybitOrderManager :=
  OrderManager.__init__ "key" "secret" true.

Definition sample_portfolio : Portfolio.BybitPortfolioManager :=
  Portfolio.__init__ "key" "secret" true.

Definition created_response : pyval :=
  PyDict [ ("retCode", PyInt 0); ("retMsg", PyStr "OK");
           ("result", PyDict [("orderId", PyStr "abc-123")]) ].

Definition failure_response : pyval :=
  PyDict [ ("retCode", PyInt 10001); ("retMsg", PyStr "params error");
           ("result", PyDict []) ].

Definition list_response (records : list pyval) : pyval :=
  PyDict [ ("retCode", PyInt 0); ("result", PyDict [("list", PyList records)]) ].

Definition sample_position (size side : string) : pyval :=
  PyDict [ ("symbol", PyStr "BTCUSDT"); ("side", PyStr side); ("size", PyStr size);
           ("avgPrice", PyStr "30000"); ("markPrice", PyStr "30010.5") ].

Definition sample_order (price : string) : pyval :=
  PyDict [ ("orderId", PyStr "abc-123"); ("symbol", PyStr "BTCUSDT");
           ("side", PyStr "Buy"); ("orderType", PyStr "Limit");
           ("qty", PyStr "0.001"); ("price", PyStr price);
           ("orderStatus", PyStr "New"); ("cumExecQty", PyStr "0");
           ("avgPrice", PyStr EmptyString);
           ("createdTime", PyStr "1700000000000");
           ("updatedTime", PyStr "1700000000500");
           ("timeInForce", PyStr "GTC") ].

Definition sample_tick (ts : Z) (fields : dict) : pyval :=
  PyDict [ ("topic", PyStr "tickers.BTCUSDT"); ("type", PyStr "delta");
           ("data", PyDict (("symbol", PyStr "BTCUSDT") :: fields));
           ("ts", PyInt ts) ].

Definition bid_fields : dict := [("bid1Price", PyStr "30000.5"); ("bid1Size", PyStr "1.2")].
Definition ask_fields : dict := [("ask1Price", PyStr "30001"); ("ask1Size", PyStr "0.7")].

Definition wallet_response : pyval :=
  PyDict [ ("retCode", PyInt 0);
           ("result", PyDict [("list", PyList [
              PyDict [ ("totalWalletBalance", PyStr "1050.5");
                       ("totalUnrealisedPnl", PyStr "-3.25");
                       ("coin", PyList [
                          PyDict [ ("coin", PyStr "USDT"); ("walletBalance", PyStr "1000");
                                   ("availableToWithdraw", PyStr "900");
                                   ("locked", PyStr "0") ];
                          PyDict [ ("coin", PyStr "BTC"); ("walletBalance", PyStr "0.001") ]
                        ]) ] ])]) ].

(** A WebSocket library that answers every call as told. *)
Definition sample_network (opening sending : result unit) : OrderBookStream.Network :=
  OrderBookStream.mkNetwork (fun _ => opening) (fun _ => sending) (Ok tt).

(** * Properties *)

(** ** The library model on known values *)

Example sha256_abc :
  HMAC.hexdigest (SHA256.sha256 (utf8_encode "abc"))
  = "ba7816bf8f01cfea414140de5dae2223b00361a396177a9cb410ff61f20015ad".
Proof. vm_compute. reflexivity. Qed.

Example hmac_fox :
  HMAC.hexdigest (HMAC.hmac_sha256 (utf8_encode "key")
      (utf8_encode "The quick brown fox jumps over the lazy dog"))
  = "f7bc83f430538424b13298e6aa6fb143ef4d59a14946175997479dbc2d1a3cd8".
Proof. vm_compute. reflexivity. Qed.

Example json_dumps_order_params :
  json_dumps (PyDict [("category", PyStr "linear"); ("qty", PyStr "0.001");
                      ("reduceOnly", PyBool false); ("limit", PyInt 50)])
  = "{" ++ dquote ++ "category" ++ dquote ++ ": " ++ dquote ++ "linear" ++ dquote ++ ", "
        ++ dquote ++ "qty" ++ dquote ++ ": " ++ dquote ++ "0.001" ++ dquote ++ ", "
        ++ dquote ++ "reduceOnly" ++ dquote ++ ": false, "
        ++ dquote ++ "limit" ++ dquote ++ ": 50}".
Proof. vm_compute. reflexivity. Qed.

Example str_of_negative : str_of_Z (-12) = "-12" /\ str_of_Z 0 = "0".
Proof. vm_compute. split; reflexivity. Qed.

Example Decimal_examples :
  Decimal_new (PyStr "0") = Ok Decimal_zero
  /\ Decimal_new (PyStr "0.001") = Ok (DFinite false 1 (-3))
  /\ Decimal_new (PyStr " -1_0.50E+2 ") = Ok (DFinite true 1050 0)
  /\ Decimal_new (PyStr EmptyString) = Raise InvalidOperation
  /\ Decimal_new (PyStr ".") = Raise InvalidOperation
  /\ Decimal_new (PyStr "-sNaN12") = Ok (DNaN true true 12)
  /\ Decimal_new (PyStr "Infinity") = Ok (DInfinity false)
  /\ Decimal_eq (DFinite false 100 (-2)) (DFinite false 1 0) = Ok true
  /\ Decimal_eq (DFinite true 0 5) Decimal_zero = Ok true
  /\ Decimal_str (DFinite false 1 (-3)) = "0.001"
  /\ Decimal_str (DFinite false 30000 0) = "30000"
  /\ Decimal_str (DFinite true 12345 (-2)) = "-123.45"
  /\ Decimal_str (DFinite false 1 (-9)) = "1E-9"
  /\ Decimal_str (DFinite false 12 3) = "1.2E+4"
  /\ py_int (PyStr " 1_700 ") = Ok 1700
  /\ py_int (PyStr "1__0") = Raise ValueError.
Proof. vm_compute. repeat split; reflexivity. Qed.

Example json_string_escapes :
  json_string (String (ascii_of_nat 195) (String (ascii_of_nat 169) "!"))
  = dquote ++ backslash ++ "u00e9!" ++ dquote
  /\ json_string (String (ascii_of_nat 240) (String (ascii_of_nat 159)
                    (String (ascii_of_nat 152) (String (ascii_of_nat 128) EmptyString))))
     = dquote ++ backslash ++ "ud83d" ++ backslash ++ "ude00" ++ dquote
  /\ json_string (String (ascii_of_nat 10) (String (ascii_of_nat 127) EmptyString))
     = dquote ++ backslash ++ "n" ++ backslash ++ "u007f" ++ dquote.
Proof. vm_compute. repeat split; reflexivity. Qed.

Example py_str_values :
  py_str (PyList [PyInt 1; PyStr "a"; PyNone; PyBool true;
                  PyDict [("k", PyStr ("it" ++ squote ++ "s"))]])
  = "[1, " ++ squote ++ "a" ++ squote ++ ", None, True, {" ++ squote ++ "k" ++ squote
    ++ ": " ++ dquote ++ "it" ++ squote ++ "s" ++ dquote ++ "}]"
  /\ py_str (PyStr "BTCUSDT") = "BTCUSDT"
  /\ py_str (PyInt 50) = "50".
Proof. vm_compute. repeat split; reflexivity. Qed.

(** ** The error monad *)

Lemma bind_ok {A B : Type} (r : result A) (k : A -> result B) (a : A) :
  r = Ok a -> bind r k = k a.
Proof. intros ->. reflexivity. Qed.

Lemma bind_raise {A B : Type} (r : result A) (k : A -> result B) (e : exn) :
  r = Raise e -> bind r k = Raise e.
Proof. intros ->. reflexivity. Qed.

Lemma try_except_const {A : Type} (body : result A) (a : A) :
  (forall x, body = Ok x -> x = a) -> try_except body (fun _ => Ok a) = Ok a.
Proof.
  intros Hbody. destruct body as [x | e]; simpl.
  - f_equal. apply Hbody. reflexivity.
  - reflexivity.
Qed.

(** ** Signing *)














Lemma portfolio_recv_window (k s : string) (t : bool) :
  str_of_Z (Portfolio.recv_window (Portfolio.__init__ k s t)) = "5000".
Proof. reflexivity. Qed.

Example portfolio_signature_value :
  Portfolio._generate_signature (Portfolio.__init__ "k" "s" true)
      "1700000000000" "category=linear"
  = Ok "b214f2cf5e535d2dcd7bd7ce90b9983f54c5deadac5a21fdae3bb0c286926f2d".
Proof. vm_compute. reflexivity. Qed.

Lemma order_manager_signature_raises (self : OrderManager.BybitOrderManager)
    (timestamp params : string) :
  OrderManager._generate_signature self timestamp params = Raise TypeError.
Proof. reflexivity. Qed.

Lemma order_manager_request_raises `{Platform} (env : Env)
    (self : OrderManager.BybitOrderManager) (method endpoint : string)
    (params : option dict) :
  OrderManager._make_request env self method endpoint params = Raise TypeError.
Proof. reflexivity. Qed.

(** C1: the signature is specified as the lowercase hexadecimal
    HMAC-SHA256 of timestamp + api_key + recv_window + parameter string in
    both managers.  The order manager concatenates the int [recv_window]
    to a string and raises [TypeError] on every input; the portfolio
    manager, which converts it with [str], returns the digest. *)
Theorem C1_order_manager_signature_fails :
  OrderManager._generate_signature (OrderManager.__init__ "k" "s" true)
      "1700000000000" EmptyString = Raise TypeError
  /\ (forall self timestamp params,
        OrderManager._generate_signature self timestamp params = Raise TypeError)
  /\ Portfolio._generate_signature (Portfolio.__init__ "k" "s" true)
       "1700000000000" EmptyString
     = Ok (HMAC.hexdigest (HMAC.hmac_sha256 (utf8_encode "s")
                             (utf8_encode "1700000000000k5000"))).
Proof.
  split; [reflexivity | split].
  - intros self timestamp params. apply order_manager_signature_raises.
  - reflexivity.
Qed.

(** ** The signed parameter string *)

Lemma params_truthy_some (d : dict) : d <> [] -> params_truthy (Some d) = true.
Proof. destruct d; [congruence | reflexivity]. Qed.

(** C2, as stated, fails: for a GET request with a non-empty dictionary
    the order manager's parameter string is the JSON text, not the empty
    string; and for a POST request with an empty dictionary neither
    manager produces the JSON text of the object. *)
Lemma C2_counterexample :
  OrderManager._make_request_params_str "GET" (Some [("category", PyStr "linear")])
    <> EmptyString
  /\ OrderManager._make_request_params_str "POST" (Some []) <> json_dumps (PyDict [])
  /\ Portfolio._make_request_params_str "POST" (Some []) <> json_dumps (PyDict []).
Proof. vm_compute. repeat split; discriminate. Qed.

(** C2, amended: for a GET request carrying a non-empty parameter
    dictionary the order manager computes the JSON serialization of the
    dictionary, as it does for POST, while the portfolio manager computes
    the key=value pairs joined with an ampersand; for a POST request
    carrying a non-empty dictionary both compute the JSON serialization;
    when the dictionary is empty or absent both compute the empty string,
    whatever the method. *)
Theorem C2_signed_parameter_string (method : string) (d : dict) :
  d <> [] ->
  (upper method = "GET" ->
     OrderManager._make_request_params_str method (Some d) = json_dumps (PyDict d)
     /\ Portfolio._make_request_params_str method (Some d)
        = join "&" (Portfolio.query_pairs d))
  /\ (upper method = "POST" ->
     OrderManager._make_request_params_str method (Some d) = json_dumps (PyDict d)
     /\ Portfolio._make_request_params_str method (Some d) = json_dumps (PyDict d))
  /\ (forall params, params_truthy params = false ->
     OrderManager._make_request_params_str method params = EmptyString
     /\ Portfolio._make_request_params_str method params = EmptyString).
Proof.
  intros Hd. pose proof (params_truthy_some d Hd) as Ht.
  unfold OrderManager._make_request_params_str, Portfolio._make_request_params_str.
  split; [| split].
  - intros Hget. rewrite Ht, Hget. split; reflexivity.
  - intros Hpost. rewrite Ht, Hpost. split; reflexivity.
  - intros params Hfalse. rewrite Hfalse, !andb_false_r. split; reflexivity.
Qed.

Lemma C2_signed_parameter_string_witness :
  OrderManager._make_request_params_str "get"
      (Some [("category", PyStr "linear"); ("limit", PyInt 50)])
  = json_dumps (PyDict [("category", PyStr "linear"); ("limit", PyInt 50)])
  /\ Portfolio._make_request_params_str "get"
      (Some [("category", PyStr "linear"); ("limit", PyInt 50)])
     = "category=linear&limit=50".
Proof.
  assert (Hd : [("category", PyStr "linear"); ("limit", PyInt 50)] <> @nil (string * pyval))
    by discriminate.
  destruct (C2_signed_parameter_string "get" _ Hd) as [Hget _].
  destruct (Hget eq_refl) as [Hom Hpf].
  split; [exact Hom | etransitivity; [exact Hpf | reflexivity]].
Defined.

(** ** The order manager *)

Lemma order_manager_place_market_order `{Platform} (env : Env)
    (self : OrderManager.BybitOrderManager) (symbol : string) (side : OrderSide)
    (quantity : Decimal) (reduce_only : bool) :
  OrderManager.place_market_order env self symbol side quantity reduce_only = Ok None.
Proof. reflexivity. Qed.

Lemma order_manager_place_limit_order `{Platform} (env : Env)
    (self : OrderManager.BybitOrderManager) (symbol : string) (side : OrderSide)
    (quantity price : Decimal) (time_in_force : string) (reduce_only : bool) :
  OrderManager.place_limit_order env self symbol side quantity price time_in_force
    reduce_only = Ok None.
Proof. reflexivity. Qed.

Lemma order_manager_cancel_order `{Platform} (env : Env)
    (self : OrderManager.BybitOrderManager) (symbol order_id : string) :
  OrderManager.cancel_order env self symbol order_id = Ok false.
Proof. reflexivity. Qed.

Lemma order_manager_get_order_status `{Platform} (env : Env)
    (self : OrderManager.BybitOrderManager) (symbol order_id : string) :
  OrderManager.get_order_status env self symbol order_id = Ok None.
Proof. reflexivity. Qed.

(** What the statements after the request do with a success response: the
    order of the specification. *)
Lemma place_market_order_response_success `{Platform} (env : Env) (symbol : string)
    (side : OrderSide) (quantity : Decimal) (response : dict) (result : dict) :
  py_eq_int (dict_get response "retCode" PyNone) 0 = true ->
  dict_get response "result" (PyDict []) = PyDict result ->
  OrderManager.place_market_order_response env symbol side quantity (PyDict response)
  = Ok (Some (mkOrder (dict_get result "orderId" (PyStr EmptyString)) (PyStr symbol) side
                      MARKET quantity None NEW Decimal_zero None
                      (now_created env) (now_updated env) (PyStr "GTC"))).
Proof.
  intros Hcode Hresult. unfold OrderManager.place_market_order_response. simpl.
  rewrite Hcode, Hresult. reflexivity.
Qed.

(** C3: on a success response [place_market_order] should return the
    order built from its arguments and the response's order id.  The call
    returns nothing instead: signing raises [TypeError] before the request
    is sent (the defect of C1), and the handler of the operation turns the
    exception into an absent result.  The statements that would build the
    order are shown on the same response. *)
Theorem C3_place_market_order_returns_nothing :
  @OrderManager.place_market_order sample_platform (sample_env (Ok created_response))
      sample_order_manager "BTCUSDT" BUY (DFinite false 1 (-3)) false
  = Ok None
  /\ @OrderManager.place_market_order_response sample_platform
       (sample_env (Ok created_response)) "BTCUSDT" BUY (DFinite false 1 (-3))
       created_response
     = Ok (Some (@mkOrder sample_platform (PyStr "abc-123") (PyStr "BTCUSDT") BUY MARKET
                   (DFinite false 1 (-3)) None NEW Decimal_zero None
                   1700000000001 1700000000002 (PyStr "GTC"))).
Proof. split; reflexivity. Qed.

(** C4: for every exchange response whose [retCode] is not 0, placing a
    market or limit order and looking up an order return an absent result,
    cancelling returns false, and none of them raises; the same holds of
    the statements each operation runs on such a response. *)
Theorem C4_failure_is_absent `{Platform} (env : Env)
    (self : OrderManager.BybitOrderManager) (symbol order_id time_in_force : string)
    (side : OrderSide) (quantity price : Decimal) (reduce_only : bool)
    (response ret_code : pyval) :
  (forall request, send env request = Ok response) ->
  py_get response "retCode" PyNone = Ok ret_code ->
  py_eq_int ret_code 0 = false ->
  (OrderManager.place_market_order env self symbol side quantity reduce_only = Ok None
   /\ OrderManager.place_limit_order env self symbol side quantity price time_in_force
        reduce_only = Ok None
   /\ OrderManager.get_order_status env self symbol order_id = Ok None
   /\ OrderManager.cancel_order env self symbol order_id = Ok false)
  /\ (OrderManager.place_market_order_response env symbol side quantity response = Ok None
      /\ OrderManager.place_limit_order_response env symbol side quantity price
           time_in_force response = Ok None
      /\ OrderManager.get_order_status_response self response = Ok None
      /\ OrderManager.cancel_order_response response = Ok false).
Proof.
  intros _ Hget Hcode. split.
  - repeat split.
  - unfold OrderManager.place_market_order_response,
      OrderManager.place_limit_order_response,
      OrderManager.get_order_status_response, OrderManager.cancel_order_response.
    rewrite Hget. simpl. rewrite Hcode. repeat split.
Qed.

Lemma C4_failure_is_absent_witness :
  @OrderManager.place_market_order sample_platform (sample_env (Ok failure_response))
      sample_order_manager "BTCUSDT" SELL (DFinite false 5 (-1)) false = Ok None
  /\ OrderManager.cancel_order_response failure_response = Ok false.
Proof.
  destruct (@C4_failure_is_absent sample_platform (sample_env (Ok failure_response))
              sample_order_manager "BTCUSDT" "abc-123" "GTC" SELL (DFinite false 5 (-1))
              (DFinite false 30000 0) false failure_response (PyInt 10001))
    as [[Hmarket _] [_ [_ [_ Hcancel]]]].
  - intros request. reflexivity.
  - reflexivity.
  - reflexivity.
  - split; [exact Hmarket | exact Hcancel].
Defined.

(** ** The ticker stream *)

Lemma both_truthy_carries (d : dict) (k1 k2 : string) (x y : Decimal) :
  carries d k1 x -> carries d k2 y ->
  OrderBookStream.both_truthy (PyDict d) k1 k2 = Ok true.
Proof.
  intros (v1 & H1 & T1 & _) (v2 & H2 & T2 & _).
  unfold OrderBookStream.both_truthy. simpl. unfold dict_get.
  rewrite H1, T1. simpl. rewrite H2, T2. reflexivity.
Qed.


Lemma truthy_nonempty (d : dict) : d <> [] -> py_truthy (PyDict d) = true.
Proof. destruct d; [congruence | reflexivity]. Qed.

Ltac stream_step :=
  unfold OrderBookStream.bindM, OrderBookStream.lift, OrderBookStream.ret,
    OrderBookStream.assign, OrderBookStream.self_, OrderBookStream.call_callback;
  cbn [OrderBookStream.stream OrderBookStream.delivered py_get py_startswith bind].

(** One ticker message: each side of the book is overwritten or kept, a
    snapshot is built from what is tracked, stored, and handed to the
    observer when there is one. *)
Lemma process_ticker (m : pyval) (d : dict) (ts : pyval) (w : OrderBookStream.World)
    (bid ask : option (Decimal * Decimal)) :
  ticker_message m d ts ->
  tick_side d "bid1Price" "bid1Size" bid ->
  tick_side d "ask1Price" "ask1Size" ask ->
  let s1 := apply_side OrderBookStream.set_best_bid_price OrderBookStream.set_best_bid_size
              bid (OrderBookStream.stream w) in
  let s2 := apply_side OrderBookStream.set_best_ask_price OrderBookStream.set_best_ask_size
              ask s1 in
  let ob := mkOrderBook (dict_get d "symbol" (PyStr (OrderBookStream.symbol s2)))
              (OrderBookStream.level_of (OrderBookStream.best_bid_price s2)
                                        (OrderBookStream.best_bid_size s2))
              (OrderBookStream.level_of (OrderBookStream.best_ask_price s2)
                                        (OrderBookStream.best_ask_size s2))
              ts in
  OrderBookStream._process_message m w
  = match OrderBookStream.callback s2 with
    | Some cb =>
        (OrderBookStream.mkWorld (OrderBookStream.set_orderbook ob s2)
           (OrderBookStream.delivered w ++ [ob]), cb ob)
    | None =>
        (OrderBookStream.mkWorld (OrderBookStream.set_orderbook ob s2)
           (OrderBookStream.delivered w), Ok tt)
    end.
Proof.
  intros (md & topic & -> & Htopic & Hstart & Hdata & Hne & Hts) Hbid Hask.
  unfold OrderBookStream._process_message. stream_step.
  rewrite Htopic. stream_step. rewrite Hstart. stream_step. rewrite Hdata. stream_step.
  rewrite (truthy_nonempty d Hne). stream_step. rewrite Hts.
  destruct w as [s0 calls]. stream_step.
  destruct bid as [[bp bs] |]; cbn [tick_side] in Hbid.
  - destruct Hbid as [Hp Hs].
    rewrite (both_truthy_carries _ _ _ _ _ Hp Hs).
    destruct Hp as (pv & Hpv & _ & Hpd), Hs as (sv & Hsv & _ & Hsd).
    cbn [OrderBookStream.py_item]. rewrite Hpv, Hsv. stream_step. rewrite Hpd, Hsd.
    stream_step.
    destruct ask as [[ap az] |]; cbn [tick_side] in Hask.
    + destruct Hask as [Hp Hs].
      rewrite (both_truthy_carries _ _ _ _ _ Hp Hs).
      destruct Hp as (pv' & Hpv' & _ & Hpd'), Hs as (sv' & Hsv' & _ & Hsd').
      cbn [OrderBookStream.py_item]. rewrite Hpv', Hsv'. stream_step. rewrite Hpd', Hsd'.
      stream_step. cbn. destruct (OrderBookStream.callback s0); reflexivity.
    + rewrite Hask. stream_step. cbn. destruct (OrderBookStream.callback s0); reflexivity.
  - rewrite Hbid. stream_step.
    destruct ask as [[ap az] |]; cbn [tick_side] in Hask.
    + destruct Hask as [Hp Hs].
      rewrite (both_truthy_carries _ _ _ _ _ Hp Hs).
      destruct Hp as (pv' & Hpv' & _ & Hpd'), Hs as (sv' & Hsv' & _ & Hsd').
      cbn [OrderBookStream.py_item]. rewrite Hpv', Hsv'. stream_step. rewrite Hpd', Hsd'.
      stream_step. cbn. destruct (OrderBookStream.callback s0); reflexivity.
    + rewrite Hask. stream_step. cbn. destruct (OrderBookStream.callback s0); reflexivity.
Qed.

(** The stream object after one ticker message. *)
Lemma stream_after_ticker (m : pyval) (d : dict) (ts : pyval) (w : OrderBookStream.World)
    (bid ask : option (Decimal * Decimal)) :
  ticker_message m d ts ->
  tick_side d "bid1Price" "bid1Size" bid ->
  tick_side d "ask1Price" "ask1Size" ask ->
  let s1 := apply_side OrderBookStream.set_best_bid_price OrderBookStream.set_best_bid_size
              bid (OrderBookStream.stream w) in
  let s2 := apply_side OrderBookStream.set_best_ask_price OrderBookStream.set_best_ask_size
              ask s1 in
  let ob := mkOrderBook (dict_get d "symbol" (PyStr (OrderBookStream.symbol s2)))
              (OrderBookStream.level_of (OrderBookStream.best_bid_price s2)
                                        (OrderBookStream.best_bid_size s2))
              (OrderBookStream.level_of (OrderBookStream.best_ask_price s2)
                                        (OrderBookStream.best_ask_size s2))
              ts in
  OrderBookStream.stream (fst (OrderBookStream._process_message m w))
  = OrderBookStream.set_orderbook ob s2.
Proof.
  intros Hm Hbid Hask. cbv zeta.
  rewrite (process_ticker m d ts w bid ask Hm Hbid Hask). cbv zeta.
  destruct (OrderBookStream.callback _); reflexivity.
Qed.


(** While no message raises, the receive loop leaves the stream where
    handling the messages one after the other leaves it. *)
Lemma listen_after (messages : list pyval) :
  forall w, handled messages w ->
            OrderBookStream.listen messages w = (after messages w, Ok tt).
Proof.
  unfold OrderBookStream.listen, after.
  induction messages as [| m rest IH]; intros w Hok.
  - reflexivity.
  - cbn [OrderBookStream.listen_loop fold_left handled] in *.
    unfold OrderBookStream.bindM.
    destruct (OrderBookStream._process_message m w) as [w' r].
    cbn [fst snd] in *. destruct Hok as [-> Hrest]. apply IH, Hrest.
Qed.

(** A ticker message raises only if the observer does. *)
Lemma ticker_handled (m : pyval) (d : dict) (ts : pyval) (w : OrderBookStream.World)
    (bid ask : option (Decimal * Decimal)) :
  ticker_message m d ts ->
  tick_side d "bid1Price" "bid1Size" bid ->
  tick_side d "ask1Price" "ask1Size" ask ->
  OrderBookStream.callback (OrderBookStream.stream w) = None ->
  snd (OrderBookStream._process_message m w) = Ok tt.
Proof.
  intros Hm Hbid Hask Hcb.
  rewrite (process_ticker m d ts w bid ask Hm Hbid Hask). cbv zeta.
  destruct bid as [[bp bs] |], ask as [[ap az] |]; cbn; rewrite Hcb; reflexivity.
Qed.

(** C10: a ticker message whose [data] is absent or an empty object
    leaves the stream as it was (the four tracked values, the stored
    snapshot and every other field) and hands nothing to the observer. *)
Theorem C10_empty_payload_changes_nothing (w : OrderBookStream.World) (md : dict)
    (topic : string) :
  dict_get md "topic" (PyStr EmptyString) = PyStr topic ->
  starts_with "tickers" topic = true ->
  dict_lookup md "data" = None \/ dict_lookup md "data" = Some (PyDict []) ->
  OrderBookStream._process_message (PyDict md) w = (w, Ok tt).
Proof.
  intros Htopic Hstart Hdata.
  unfold OrderBookStream._process_message. stream_step.
  rewrite Htopic. stream_step. rewrite Hstart.
  unfold dict_get. destruct Hdata as [-> | ->]; reflexivity.
Qed.

Lemma C10_empty_payload_changes_nothing_witness :
  let w := after [sample_tick 1 bid_fields] (fresh "BTCUSDT" (Some (fun _ => Ok tt))) in
  OrderBookStream._process_message
    (PyDict [("topic", PyStr "tickers.BTCUSDT"); ("data", PyDict []); ("ts", PyInt 2)]) w
  = (w, Ok tt).
Proof.
  intros w.
  apply (C10_empty_payload_changes_nothing w _ "tickers.BTCUSDT").
  - reflexivity.
  - reflexivity.
  - right. reflexivity.
Defined.



Lemma sample_tick_message (ts : Z) (fields : dict) :
  ticker_message (sample_tick ts fields) (("symbol", PyStr "BTCUSDT") :: fields) (PyInt ts).
Proof.
  exists [ ("topic", PyStr "tickers.BTCUSDT"); ("type", PyStr "delta");
           ("data", PyDict (("symbol", PyStr "BTCUSDT") :: fields)); ("ts", PyInt ts) ],
         "tickers.BTCUSDT".
  repeat split. discriminate.
Qed.


(** ** Parsing exchange records *)

Lemma bind_inv {A B : Type} (r : result A) (k : A -> result B) (b : B) :
  bind r k = Ok b -> exists a, r = Ok a /\ k a = Ok b.
Proof.
  destruct r as [a | e]; simpl; intros Hk; [exists a; split; [reflexivity | exact Hk] | discriminate].
Qed.

Ltac bind_inversion H :=
  let a := fresh "a" in
  let Ha := fresh "Ha" in
  apply bind_inv in H; destruct H as (a & Ha & H).

Lemma lookup_member_value {A : Type} (members : list A) (value : A -> string) (v : pyval)
    (m : A) :
  lookup_member members value v = Ok m -> v = PyStr (value m).
Proof.
  unfold lookup_member. destruct v as [| | | s | |]; try discriminate.
  destruct (find _ members) as [m' |] eqn:Hfind; [| discriminate].
  intros [= <-]. apply find_some in Hfind. destruct Hfind as [_ Heq].
  apply String.eqb_eq in Heq. now rewrite Heq.
Qed.

Lemma lookup_member_outside {A : Type} (members : list A) (value : A -> string) (v : pyval) :
  outside value v -> lookup_member members value v = Raise ValueError.
Proof.
  intros Hout. destruct (lookup_member members value v) as [m | e] eqn:Hm.
  - apply lookup_member_value in Hm. elim (Hout m Hm).
  - unfold lookup_member in Hm. destruct v; try (now inversion Hm).
    destruct (find _ members); now inversion Hm.
Qed.

Lemma PositionSide_new_value (side : PositionSide) :
  PositionSide_new (PyStr (PositionSide_value side)) = Ok side.
Proof. destruct side; reflexivity. Qed.

Lemma optional_decimal_inv (d : dict) (key : string) (p : option Decimal) :
  optional_decimal (PyDict d) key = Ok p ->
  (py_truthy (dict_get d key PyNone) = true
   /\ exists x, Decimal_new (dict_get d key (PyStr "0")) = Ok x /\ p = Some x)
  \/ (py_truthy (dict_get d key PyNone) = false /\ p = None).
Proof.
  unfold optional_decimal. simpl.
  destruct (py_truthy (dict_get d key PyNone)) eqn:Ht.
  - destruct (Decimal_new (dict_get d key (PyStr "0"))) as [x | e] eqn:Hx; simpl.
    + intros [= <-]. left. split; [reflexivity | exists x; split; reflexivity].
    + discriminate.
  - intros [= <-]. right. split; reflexivity.
Qed.

(** Once the size and the optional fields of a payload are read, the
    position is determined by the test on the size. *)
Lemma parse_position_steps (self : Portfolio.BybitPortfolioManager) (d : dict)
    (sz : Decimal) (e m u r l g : option Decimal) :
  Decimal_new (dict_get d "size" (PyStr "0")) = Ok sz ->
  optional_decimal (PyDict d) "avgPrice" = Ok e ->
  optional_decimal (PyDict d) "markPrice" = Ok m ->
  optional_decimal (PyDict d) "unrealisedPnl" = Ok u ->
  optional_decimal (PyDict d) "cumRealisedPnl" = Ok r ->
  optional_decimal (PyDict d) "leverage" = Ok l ->
  optional_decimal (PyDict d) "positionIM" = Ok g ->
  Portfolio._parse_position self (PyDict d)
  = (is_zero <- Decimal_eq sz Decimal_zero ;;
     side <- (if is_zero then Ok NONE
              else PositionSide_new (dict_get d "side" (PyStr "None"))) ;;
     Ok (mkPosition (dict_get d "symbol" (PyStr EmptyString)) side sz e m u r l g)).
Proof.
  intros Hsz He Hm Hu Hr Hl Hg.
  unfold Portfolio._parse_position. cbn [py_get bind]. rewrite Hsz. cbn [bind].
  destruct (Decimal_eq sz Decimal_zero) as [b | x]; cbn [bind]; [| reflexivity].
  destruct (if b then Ok NONE else PositionSide_new (dict_get d "side" (PyStr "None")))
    as [side | x]; cbn [bind]; [| reflexivity].
  rewrite He, Hm, Hu, Hr, Hl, Hg. reflexivity.
Qed.

(** What a parsed position says of the payload it came from. *)
Lemma parsed_position_side (self : Portfolio.BybitPortfolioManager) (d : dict)
    (p : Position) :
  Portfolio._parse_position self (PyDict d) = Ok p ->
  exists is_zero,
    Decimal_new (dict_get d "size" (PyStr "0")) = Ok (size p)
    /\ Decimal_eq (size p) Decimal_zero = Ok is_zero
    /\ (if is_zero then Ok NONE else PositionSide_new (dict_get d "side" (PyStr "None")))
       = Ok (position_side p).
Proof.
  unfold Portfolio._parse_position. cbn [py_get bind]. intros Hp.
  do 9 bind_inversion Hp. injection Hp as <-. cbn [size position_side].
  exists a0. repeat split; assumption.
Qed.

(** C8: when the size of a position payload parses to the zero decimal
    the parsed side is NONE whatever side string the payload reports;
    when it parses to a non-zero decimal the side is the member named by
    the reported string, and a string naming no member is refused. *)
Theorem C8_position_side (self : Portfolio.BybitPortfolioManager) (d : dict)
    (sz : Decimal) :
  Decimal_new (dict_get d "size" (PyStr "0")) = Ok sz ->
  (Decimal_eq sz Decimal_zero = Ok true ->
     (forall p, Portfolio._parse_position self (PyDict d) = Ok p -> position_side p = NONE)
     /\ (forall e m u r l g,
           optional_decimal (PyDict d) "avgPrice" = Ok e ->
           optional_decimal (PyDict d) "markPrice" = Ok m ->
           optional_decimal (PyDict d) "unrealisedPnl" = Ok u ->
           optional_decimal (PyDict d) "cumRealisedPnl" = Ok r ->
           optional_decimal (PyDict d) "leverage" = Ok l ->
           optional_decimal (PyDict d) "positionIM" = Ok g ->
           Portfolio._parse_position self (PyDict d)
           = Ok (mkPosition (dict_get d "symbol" (PyStr EmptyString)) NONE sz
                            e m u r l g)))
  /\ (Decimal_eq sz Decimal_zero = Ok false ->
      (forall p, Portfolio._parse_position self (PyDict d) = Ok p ->
                 dict_get d "side" (PyStr "None") = PyStr (PositionSide_value (position_side p)))
      /\ (forall side e m u r l g,
            dict_get d "side" (PyStr "None") = PyStr (PositionSide_value side) ->
            optional_decimal (PyDict d) "avgPrice" = Ok e ->
            optional_decimal (PyDict d) "markPrice" = Ok m ->
            optional_decimal (PyDict d) "unrealisedPnl" = Ok u ->
            optional_decimal (PyDict d) "cumRealisedPnl" = Ok r ->
            optional_decimal (PyDict d) "leverage" = Ok l ->
            optional_decimal (PyDict d) "positionIM" = Ok g ->
            Portfolio._parse_position self (PyDict d)
            = Ok (mkPosition (dict_get d "symbol" (PyStr EmptyString)) side sz
                             e m u r l g))
      /\ (outside PositionSide_value (dict_get d "side" (PyStr "None")) ->
          Portfolio._parse_position self (PyDict d) = Raise ValueError)).
Proof.
  intros Hsz. split.
  - intros Hzero. split.
    + intros p Hp. destruct (parsed_position_side self d p Hp) as (b & Hsize & Hb & Hside).
      rewrite Hsz in Hsize. injection Hsize as Hsize. rewrite <- Hsize, Hzero in Hb.
      injection Hb as <-. now injection Hside.
    + intros e m u r l g He Hm Hu Hr Hl Hg.
      rewrite (parse_position_steps self d sz e m u r l g Hsz He Hm Hu Hr Hl Hg).
      rewrite Hzero. reflexivity.
  - intros Hnz. split; [| split].
    + intros p Hp. destruct (parsed_position_side self d p Hp) as (b & Hsize & Hb & Hside).
      rewrite Hsz in Hsize. injection Hsize as Hsize. rewrite <- Hsize, Hnz in Hb.
      injection Hb as <-. apply (lookup_member_value _ _ _ _ Hside).
    + intros side e m u r l g Hside He Hm Hu Hr Hl Hg.
      rewrite (parse_position_steps self d sz e m u r l g Hsz He Hm Hu Hr Hl Hg).
      rewrite Hnz. cbn [bind]. rewrite Hside, PositionSide_new_value. reflexivity.
    + intros Hout. unfold Portfolio._parse_position. cbn [py_get bind].
      rewrite Hsz. cbn [bind]. rewrite Hnz. cbn [bind].
      unfold PositionSide_new. rewrite lookup_member_outside by exact Hout. reflexivity.
Qed.

Lemma C8_position_side_witness :
  Portfolio._parse_position sample_portfolio (sample_position "0.00" "Sell")
  = Ok (mkPosition (PyStr "BTCUSDT") NONE (DFinite false 0 (-2))
          (Some (DFinite false 30000 0)) (Some (DFinite false 300105 (-1)))
          None None None None)
  /\ Portfolio._parse_position sample_portfolio (sample_position "0.5" "Sell")
     = Ok (mkPosition (PyStr "BTCUSDT") SHORT (DFinite false 5 (-1))
             (Some (DFinite false 30000 0)) (Some (DFinite false 300105 (-1)))
             None None None None).
Proof.
  split.
  - refine (proj2 (proj1 (C8_position_side sample_portfolio
             [ ("symbol", PyStr "BTCUSDT"); ("side", PyStr "Sell"); ("size", PyStr "0.00");
               ("avgPrice", PyStr "30000"); ("markPrice", PyStr "30010.5") ]
             (DFinite false 0 (-2)) eq_refl) eq_refl)
             (Some (DFinite false 30000 0)) (Some (DFinite false 300105 (-1)))
             None None None None eq_refl eq_refl eq_refl eq_refl eq_refl eq_refl).
  - refine (proj1 (proj2 (proj2 (C8_position_side sample_portfolio
             [ ("symbol", PyStr "BTCUSDT"); ("side", PyStr "Sell"); ("size", PyStr "0.5");
               ("avgPrice", PyStr "30000"); ("markPrice", PyStr "30010.5") ]
             (DFinite false 5 (-1)) eq_refl) eq_refl))
             SHORT (Some (DFinite false 30000 0)) (Some (DFinite false 300105 (-1)))
             None None None None eq_refl eq_refl eq_refl eq_refl eq_refl eq_refl eq_refl).
Defined.

(** A position that was parsed has a size that compares with zero. *)
Lemma parsed_position_size (self : Portfolio.BybitPortfolioManager) (v : pyval)
    (p : Position) :
  Portfolio._parse_position self v = Ok p ->
  Decimal_ne (size p) Decimal_zero = Ok (Decimal_nonzero (size p)).
Proof.
  unfold Portfolio._parse_position. intros Hp.
  do 12 bind_inversion Hp. injection Hp as <-. cbn [size].
  unfold Decimal_nonzero, Decimal_ne. rewrite Ha2. reflexivity.
Qed.

(** The loop keeps, in order, the parsed positions whose size is not zero. *)
Lemma get_positions_loop_filter (self : Portfolio.BybitPortfolioManager)
    (records : list pyval) :
  forall (ps acc : list Position),
    mapM (Portfolio._parse_position self) records = Ok ps ->
    Portfolio.get_positions_loop self records acc
    = Ok (acc ++ filter (fun p => Decimal_nonzero (size p)) ps)%list.
Proof.
  induction records as [| v records IH]; intros ps acc Hps.
  - injection Hps as <-. simpl. now rewrite app_nil_r.
  - cbn [mapM] in Hps. bind_inversion Hps. bind_inversion Hps. injection Hps as <-.
    cbn [Portfolio.get_positions_loop]. rewrite Ha. cbn [bind].
    rewrite (parsed_position_size self v a Ha). cbn [bind filter].
    rewrite (IH a0 _ Ha0).
    destruct (Decimal_nonzero (size a)); [now rewrite <- app_assoc | reflexivity].
Qed.

(** Either every record parses, or some record of the list makes the
    parse raise. *)
Lemma mapM_cases {A B : Type} (f : A -> result B) (l : list A) :
  (exists ys, mapM f l = Ok ys) \/ (exists x e, In x l /\ f x = Raise e).
Proof.
  induction l as [| x l IH].
  - left. exists []. reflexivity.
  - cbn [mapM]. destruct (f x) as [y | e] eqn:Hx.
    + destruct IH as [[ys Hys] | (x' & e' & Hin & Hx')].
      * left. exists (y :: ys). rewrite Hys. reflexivity.
      * right. exists x', e'. split; [right; exact Hin | exact Hx'].
    + right. exists x, e. split; [left; reflexivity | exact Hx].
Qed.

Lemma get_positions_loop_raises (self : Portfolio.BybitPortfolioManager)
    (records : list pyval) (v : pyval) (e : exn) :
  In v records -> Portfolio._parse_position self v = Raise e ->
  forall acc, exists e', Portfolio.get_positions_loop self records acc = Raise e'.
Proof.
  intros Hin Hv. induction records as [| x records IH]; [contradiction |].
  intros acc. cbn [Portfolio.get_positions_loop].
  destruct Hin as [-> | Hin].
  - rewrite Hv. exists e. reflexivity.
  - destruct (Portfolio._parse_position self x) as [p | e1]; cbn [bind].
    + destruct (Decimal_ne (size p) Decimal_zero) as [keep | e2]; cbn [bind].
      * apply IH, Hin.
      * exists e2. reflexivity.
    + exists e1. reflexivity.
Qed.

(** C7, as stated, fails: in a success response whose first record
    parses to a short position of size 0.5 and whose second record has
    the side string Long, [get_positions] returns the empty list, not
    the parsed position whose size is not zero. *)
Lemma C7_counterexample :
  Portfolio._parse_position sample_portfolio (sample_position "0.5" "Sell")
  = Ok (mkPosition (PyStr "BTCUSDT") SHORT (DFinite false 5 (-1))
          (Some (DFinite false 30000 0)) (Some (DFinite false 300105 (-1)))
          None None None None)
  /\ Decimal_ne (DFinite false 5 (-1)) Decimal_zero = Ok true
  /\ Portfolio._parse_position sample_portfolio (sample_position "1" "Long")
     = Raise ValueError
  /\ py_get (list_response [sample_position "0.5" "Sell"; sample_position "1" "Long"])
       "retCode" PyNone = Ok (PyInt 0)
  /\ @Portfolio.get_positions sample_platform
       (sample_env (Ok (list_response [ sample_position "0.5" "Sell";
                                        sample_position "1" "Long" ])))
       sample_portfolio None
     = Ok [].
Proof. repeat split; reflexivity. Qed.

(** C7, amended: on a success response, when the position records all
    parse, [get_positions] returns exactly the parsed positions whose
    size is not the zero decimal, in the order of the input, and the
    empty list gives the empty list; when some record of the list makes
    the parse raise, [get_positions] returns the empty list, whatever
    the other records are.  One of the two cases always holds. *)
Theorem C7_get_positions_filters_zero `{Platform} (env : Env)
    (self : Portfolio.BybitPortfolioManager) (symbol : option string)
    (response ret_code result : pyval) (records : list pyval) :
  Portfolio._make_request env self "GET" "/v5/position/list"
    (Some (Portfolio.with_symbol [("category", PyStr "linear")] symbol)) = Ok response ->
  py_get response "retCode" PyNone = Ok ret_code ->
  py_eq_int ret_code 0 = true ->
  py_get response "result" (PyDict []) = Ok result ->
  py_get result "list" (PyList []) = Ok (PyList records) ->
  (forall ps, mapM (Portfolio._parse_position self) records = Ok ps ->
     Portfolio.get_positions env self symbol
     = Ok (filter (fun p => Decimal_nonzero (size p)) ps))
  /\ (forall v e, In v records -> Portfolio._parse_position self v = Raise e ->
     Portfolio.get_positions env self symbol = Ok [])
  /\ ((exists ps, mapM (Portfolio._parse_position self) records = Ok ps)
      \/ (exists v e, In v records /\ Portfolio._parse_position self v = Raise e))
  /\ (records = [] -> Portfolio.get_positions env self symbol = Ok []).
Proof.
  intros Hreq Hcode Hzero Hresult Hlist.
  assert (Hget : Portfolio.get_positions env self symbol
                 = try_except (Portfolio.get_positions_loop self records [])
                     (fun _ => Ok [])).
  { unfold Portfolio.get_positions. rewrite Hreq. cbn [bind].
    unfold Portfolio.get_positions_response.
    rewrite Hcode. cbn [bind]. rewrite Hzero, Hresult. cbn [bind].
    rewrite Hlist. cbn [bind py_iter]. reflexivity. }
  repeat split.
  - intros ps Hps. rewrite Hget.
    rewrite (get_positions_loop_filter self records ps [] Hps). reflexivity.
  - intros v e Hin Hv. rewrite Hget.
    destruct (get_positions_loop_raises self records v e Hin Hv []) as [e' ->].
    reflexivity.
  - apply mapM_cases.
  - intros ->. rewrite Hget. reflexivity.
Qed.

Lemma C7_get_positions_filters_zero_witness :
  @Portfolio.get_positions sample_platform
    (sample_env (Ok (list_response [ sample_position "0.5" "Sell";
                                     sample_position "0" "Buy";
                                     sample_position "2" "Buy" ])))
    sample_portfolio None
  = Ok [ mkPosition (PyStr "BTCUSDT") SHORT (DFinite false 5 (-1))
           (Some (DFinite false 30000 0)) (Some (DFinite false 300105 (-1)))
           None None None None;
         mkPosition (PyStr "BTCUSDT") LONG (DFinite false 2 0)
           (Some (DFinite false 30000 0)) (Some (DFinite false 300105 (-1)))
           None None None None ].
Proof.
  refine (proj1 (@C7_get_positions_filters_zero sample_platform
            (sample_env (Ok (list_response [ sample_position "0.5" "Sell";
                                             sample_position "0" "Buy";
                                             sample_position "2" "Buy" ])))
            sample_portfolio None
            (list_response [ sample_position "0.5" "Sell"; sample_position "0" "Buy";
                             sample_position "2" "Buy" ])
            (PyInt 0)
            (PyDict [("list", PyList [ sample_position "0.5" "Sell";
                                       sample_position "0" "Buy";
                                       sample_position "2" "Buy" ])])
            [ sample_position "0.5" "Sell"; sample_position "0" "Buy";
              sample_position "2" "Buy" ]
            _ _ _ _ _)
            [ mkPosition (PyStr "BTCUSDT") SHORT (DFinite false 5 (-1))
                (Some (DFinite false 30000 0)) (Some (DFinite false 300105 (-1)))
                None None None None;
              mkPosition (PyStr "BTCUSDT") NONE (DFinite false 0 0)
                (Some (DFinite false 30000 0)) (Some (DFinite false 300105 (-1)))
                None None None None;
              mkPosition (PyStr "BTCUSDT") LONG (DFinite false 2 0)
                (Some (DFinite false 30000 0)) (Some (DFinite false 300105 (-1)))
                None None None None ]
            _); reflexivity.
Defined.

(** ** Enumeration strings outside the fixed values *)

Lemma OrderSide_new_value (m : OrderSide) : OrderSide_new (PyStr (OrderSide_value m)) = Ok m.
Proof. destruct m; reflexivity. Qed.

Lemma OrderType_new_value (m : OrderType) : OrderType_new (PyStr (OrderType_value m)) = Ok m.
Proof. destruct m; reflexivity. Qed.

Lemma parse_position_bad_side (self : Portfolio.BybitPortfolioManager) (d : dict) :
  bad_position_side d -> Portfolio._parse_position self (PyDict d) = Raise ValueError.
Proof.
  intros [(sz & Hsz & Hnz) Hout].
  unfold Portfolio._parse_position. cbn [py_get bind].
  rewrite Hsz. cbn [bind]. rewrite Hnz. cbn [bind].
  unfold PositionSide_new. rewrite lookup_member_outside by exact Hout. reflexivity.
Qed.

Lemma parse_order_bad_enumeration `{Platform} (self : Portfolio.BybitPortfolioManager)
    (d : dict) :
  bad_order_enumeration d -> Portfolio._parse_order self (PyDict d) = Raise ValueError.
Proof.
  unfold Portfolio._parse_order. cbn [py_get bind].
  intros [Hside | [[[s Hs] Htype] | ([s Hs] & [t Ht] & [q Hq] & [p Hp] & Hstatus)]].
  - unfold OrderSide_new. rewrite lookup_member_outside by exact Hside. reflexivity.
  - rewrite Hs, OrderSide_new_value. cbn [bind].
    unfold OrderType_new. rewrite lookup_member_outside by exact Htype. reflexivity.
  - rewrite Hs, OrderSide_new_value. cbn [bind].
    rewrite Ht, OrderType_new_value. cbn [bind].
    rewrite Hq. cbn [bind]. rewrite Hp. cbn [bind].
    unfold OrderStatus_new. rewrite lookup_member_outside by exact Hstatus. reflexivity.
Qed.

Lemma portfolio_signature_ok (self : Portfolio.BybitPortfolioManager)
    (timestamp params : string) :
  exists signature, Portfolio._generate_signature self timestamp params = Ok signature.
Proof. eexists. reflexivity. Qed.

(** A GET of the portfolio manager returns what the exchange answers. *)
Lemma portfolio_request_get `{Platform} (env : Env) (self : Portfolio.BybitPortfolioManager)
    (endpoint : string) (params : option dict) (response : pyval) :
  (forall request, send env request = Ok response) ->
  Portfolio._make_request env self "GET" endpoint params = Ok response.
Proof.
  intros Hsend. unfold Portfolio._make_request, Portfolio._get_headers. cbv zeta.
  destruct (portfolio_signature_ok self (str_of_Z (time_ms env))
              (Portfolio._make_request_params_str "GET" params)) as [signature ->].
  cbn [bind]. change (String.eqb (upper "GET") "GET") with true. cbv iota. apply Hsend.
Qed.

Lemma get_orders_loop_raises `{Platform} (self : Portfolio.BybitPortfolioManager)
    (records : list pyval) (v : pyval) (e : exn) :
  In v records -> Portfolio._parse_order self v = Raise e ->
  forall acc, exists e', Portfolio.get_orders_loop self records acc = Raise e'.
Proof.
  intros Hin Hv. induction records as [| x records IH]; [contradiction |].
  intros acc. cbn [Portfolio.get_orders_loop].
  destruct Hin as [-> | Hin].
  - rewrite Hv. exists e. reflexivity.
  - destruct (Portfolio._parse_order self x) as [o | e1]; cbn [bind].
    + apply IH, Hin.
    + exists e1. reflexivity.
Qed.

Lemma get_orders_response_raises `{Platform} (self : Portfolio.BybitPortfolioManager)
    (response ret_code result : pyval) (records : list pyval) (v : pyval) (e : exn) :
  py_get response "retCode" PyNone = Ok ret_code ->
  py_eq_int ret_code 0 = true ->
  py_get response "result" (PyDict []) = Ok result ->
  py_get result "list" (PyList []) = Ok (PyList records) ->
  In v records -> Portfolio._parse_order self v = Raise e ->
  exists e', Portfolio.get_orders_response self response = Raise e'.
Proof.
  intros Hcode Hzero Hresult Hlist Hin Hv. unfold Portfolio.get_orders_response.
  rewrite Hcode. cbn [bind]. rewrite Hzero, Hresult. cbn [bind]. rewrite Hlist.
  cbn [bind py_iter]. apply (get_orders_loop_raises self records v e Hin Hv).
Qed.

(** C6, as stated, fails: a position record with the side string Long
    makes the parse raise [ValueError], and [get_positions] returns the
    empty list instead of reporting the error. *)
Lemma C6_counterexample :
  Portfolio._parse_position sample_portfolio (sample_position "1" "Long") = Raise ValueError
  /\ @Portfolio.get_positions sample_platform
       (sample_env (Ok (list_response [sample_position "1" "Long"]))) sample_portfolio None
     = Ok []
  /\ @Portfolio.get_positions sample_platform
       (sample_env (Ok (list_response [sample_position "1" "Long"]))) sample_portfolio None
     <> Raise ValueError.
Proof. repeat split; try reflexivity. discriminate. Qed.

(** C6, amended: an enumeration string outside the fixed values makes
    the parse of the record raise [ValueError] (for a position side, when
    the size is not zero; for an order, the side, type or status that the
    parse reaches), and the portfolio operation that parsed the record
    catches the error and returns the empty list. *)
Theorem C6_invalid_enumeration_is_caught `{Platform} (env : Env)
    (self : Portfolio.BybitPortfolioManager) (symbol order_status : option string)
    (limit : Z) (response ret_code result : pyval) (records : list pyval) (d : dict) :
  (forall request, send env request = Ok response) ->
  py_get response "retCode" PyNone = Ok ret_code ->
  py_eq_int ret_code 0 = true ->
  py_get response "result" (PyDict []) = Ok result ->
  py_get result "list" (PyList []) = Ok (PyList records) ->
  In (PyDict d) records ->
  (bad_position_side d ->
     Portfolio._parse_position self (PyDict d) = Raise ValueError
     /\ Portfolio.get_positions env self symbol = Ok [])
  /\ (bad_order_enumeration d ->
     Portfolio._parse_order self (PyDict d) = Raise ValueError
     /\ Portfolio.get_orders env self symbol order_status limit = Ok []
     /\ Portfolio.get_order_history env self symbol limit = Ok []).
Proof.
  intros Hsend Hcode Hzero Hresult Hlist Hin. split.
  - intros Hbad. pose proof (parse_position_bad_side self d Hbad) as Hparse.
    split; [exact Hparse |].
    unfold Portfolio.get_positions.
    rewrite (portfolio_request_get env self _ _ response Hsend). cbn [bind].
    unfold Portfolio.get_positions_response.
    rewrite Hcode. cbn [bind]. rewrite Hzero, Hresult. cbn [bind]. rewrite Hlist.
    cbn [bind py_iter].
    destruct (get_positions_loop_raises self records _ _ Hin Hparse []) as [e' ->].
    reflexivity.
  - intros Hbad. pose proof (parse_order_bad_enumeration self d Hbad) as Hparse.
    destruct (get_orders_response_raises self response ret_code result records _ _
                Hcode Hzero Hresult Hlist Hin Hparse) as [e' Hraise].
    split; [exact Hparse | split].
    + unfold Portfolio.get_orders.
      rewrite (portfolio_request_get env self _ _ response Hsend). cbn [bind].
      rewrite Hraise. reflexivity.
    + unfold Portfolio.get_order_history.
      rewrite (portfolio_request_get env self _ _ response Hsend). cbn [bind].
      rewrite Hraise. reflexivity.
Qed.

Lemma sample_bad_side : outside PositionSide_value (PyStr "Long").
Proof. intros m Hm. destruct m; discriminate Hm. Qed.

Lemma C6_invalid_enumeration_is_caught_witness :
  Portfolio._parse_position sample_portfolio (sample_position "1" "Long") = Raise ValueError
  /\ @Portfolio.get_positions sample_platform
       (sample_env (Ok (list_response [sample_position "1" "Long"]))) sample_portfolio None
     = Ok [].
Proof.
  refine (proj1 (@C6_invalid_enumeration_is_caught sample_platform
            (sample_env (Ok (list_response [sample_position "1" "Long"])))
            sample_portfolio None None 50
            (list_response [sample_position "1" "Long"]) (PyInt 0)
            (PyDict [("list", PyList [sample_position "1" "Long"])])
            [sample_position "1" "Long"]
            [ ("symbol", PyStr "BTCUSDT"); ("side", PyStr "Long"); ("size", PyStr "1");
              ("avgPrice", PyStr "30000"); ("markPrice", PyStr "30010.5") ]
            (fun _ => eq_refl) eq_refl eq_refl eq_refl eq_refl (or_introl eq_refl)) _).
  split.
  - exists (DFinite false 1 0). split; reflexivity.
  - exact sample_bad_side.
Defined.

(** ** Order records *)

Lemma truthy_lookup (d : dict) (key : string) (v default : pyval) :
  dict_lookup d key = Some v -> dict_get d key default = v.
Proof. unfold dict_get. now intros ->. Qed.

(** C9: both managers parse an order payload by the same function of the
    payload alone, so parsing it again, in either manager, gives the same
    record field for field; in the record the price and the average
    price are present exactly when the source value is truthy: the text
    0 gives the decimal 0, the empty text gives no price. *)
Theorem C9_parse_order `{Platform} (om : OrderManager.BybitOrderManager)
    (pm : Portfolio.BybitPortfolioManager) (d : dict) (o : Order) :
  Portfolio._parse_order pm (PyDict d) = Ok o ->
  (forall om' pm' v,
      OrderManager._parse_order om' v = Portfolio._parse_order pm' v
      /\ OrderManager._parse_order om' v = OrderManager._parse_order om v
      /\ Portfolio._parse_order pm' v = Portfolio._parse_order pm v)
  /\ OrderManager._parse_order om (PyDict d) = Ok o
  /\ (price o <> None <-> py_truthy (dict_get d "price" PyNone) = true)
  /\ (average_price o <> None <-> py_truthy (dict_get d "avgPrice" PyNone) = true)
  /\ (dict_lookup d "price" = Some (PyStr "0") -> price o = Some Decimal_zero)
  /\ (dict_lookup d "price" = Some (PyStr EmptyString) -> price o = None).
Proof.
  intros Hparse.
  split; [intros om' pm' v; repeat split |].
  split; [exact Hparse |].
  unfold Portfolio._parse_order in Hparse. cbn [py_get bind] in Hparse.
  do 11 bind_inversion Hparse. injection Hparse as <-. cbn [price average_price].
  match goal with
  | Hp : optional_decimal _ "price" = Ok _,
    Ha : optional_decimal _ "avgPrice" = Ok _ |- _ =>
      apply optional_decimal_inv in Hp; apply optional_decimal_inv in Ha;
      rename Hp into Hprice; rename Ha into Havg
  end.
  repeat split.
  - intros Hsome. destruct Hprice as [[Ht _] | [_ ->]]; [exact Ht | congruence].
  - intros Ht. destruct Hprice as [(_ & x & _ & ->) | [Hf _]]; congruence.
  - intros Hsome. destruct Havg as [[Ht _] | [_ ->]]; [exact Ht | congruence].
  - intros Ht. destruct Havg as [(_ & x & _ & ->) | [Hf _]]; congruence.
  - intros Hlook. destruct Hprice as [(_ & x & Hx & ->) | [Hf _]].
    + rewrite (truthy_lookup d "price" _ _ Hlook) in Hx. injection Hx as <-. reflexivity.
    + rewrite (truthy_lookup d "price" _ _ Hlook) in Hf. discriminate Hf.
  - intros Hlook. destruct Hprice as [(Ht & _) | [_ ->]]; [| reflexivity].
    rewrite (truthy_lookup d "price" _ _ Hlook) in Ht. discriminate Ht.
Qed.

Lemma C9_parse_order_witness :
  @price sample_platform
    (@mkOrder sample_platform (PyStr "abc-123") (PyStr "BTCUSDT") BUY LIMIT
       (DFinite false 1 (-3)) (Some Decimal_zero) NEW Decimal_zero None
       1700000000000 1700000000500 (PyStr "GTC")) = Some Decimal_zero
  /\ @OrderManager._parse_order sample_platform sample_order_manager (sample_order "0")
     = Ok (@mkOrder sample_platform (PyStr "abc-123") (PyStr "BTCUSDT") BUY LIMIT
             (DFinite false 1 (-3)) (Some Decimal_zero) NEW Decimal_zero None
             1700000000000 1700000000500 (PyStr "GTC")).
Proof.
  pose proof (@C9_parse_order sample_platform sample_order_manager sample_portfolio
                [ ("orderId", PyStr "abc-123"); ("symbol", PyStr "BTCUSDT");
                  ("side", PyStr "Buy"); ("orderType", PyStr "Limit");
                  ("qty", PyStr "0.001"); ("price", PyStr "0");
                  ("orderStatus", PyStr "New"); ("cumExecQty", PyStr "0");
                  ("avgPrice", PyStr EmptyString);
                  ("createdTime", PyStr "1700000000000");
                  ("updatedTime", PyStr "1700000000500");
                  ("timeInForce", PyStr "GTC") ]
                (@mkOrder sample_platform (PyStr "abc-123") (PyStr "BTCUSDT") BUY LIMIT
                   (DFinite false 1 (-3)) (Some Decimal_zero) NEW Decimal_zero None
                   1700000000000 1700000000500 (PyStr "GTC"))
                eq_refl) as (_ & Hom & _ & _ & Hzero & _).
  split; [exact (Hzero eq_refl) | exact Hom].
Defined.

Example parse_order_empty_price :
  @Portfolio._parse_order sample_platform sample_portfolio (sample_order EmptyString)
  = Ok (@mkOrder sample_platform (PyStr "abc-123") (PyStr "BTCUSDT") BUY LIMIT
          (DFinite false 1 (-3)) None NEW Decimal_zero None
          1700000000000 1700000000500 (PyStr "GTC")).
Proof. reflexivity. Qed.

(** * Further properties of the code *)

(** ** Enumerations *)

Lemma OrderStatus_new_value (m : OrderStatus) :
  OrderStatus_new (PyStr (OrderStatus_value m)) = Ok m.
Proof. destruct m; reflexivity. Qed.

(** X1: for each of the four enumerations, a wire value is read as a
    member exactly when it is the string value of that member; the side
    strings of orders are also the strings of the long and short position
    sides. *)
Theorem X1_enumeration_round_trip (v : pyval) :
  (forall m, OrderSide_new v = Ok m <-> v = PyStr (OrderSide_value m))
  /\ (forall m, OrderType_new v = Ok m <-> v = PyStr (OrderType_value m))
  /\ (forall m, OrderStatus_new v = Ok m <-> v = PyStr (OrderStatus_value m))
  /\ (forall m, PositionSide_new v = Ok m <-> v = PyStr (PositionSide_value m))
  /\ PositionSide_new (PyStr (OrderSide_value BUY)) = Ok LONG
  /\ PositionSide_new (PyStr (OrderSide_value SELL)) = Ok SHORT.
Proof.
  repeat split; try reflexivity.
  - apply lookup_member_value.
  - intros ->. apply OrderSide_new_value.
  - apply lookup_member_value.
  - intros ->. apply OrderType_new_value.
  - apply lookup_member_value.
  - intros ->. apply OrderStatus_new_value.
  - apply lookup_member_value.
  - intros ->. apply PositionSide_new_value.
Qed.

(** ** The order manager, further *)

(** X2: no operation of the order manager reaches the exchange.  Building
    the headers raises [TypeError] for every parameter string, so
    [_make_request] raises it for every method (an unsupported one
    included), endpoint and parameters, and the four public operations
    return an absent result or false whatever the exchange would answer. *)
Theorem X2_order_manager_never_sends `{Platform} (env : Env)
    (self : OrderManager.BybitOrderManager) (method endpoint params_str : string)
    (params : option dict) (symbol order_id time_in_force : string) (side : OrderSide)
    (quantity price : Decimal) (reduce_only : bool) :
  OrderManager._get_headers env self params_str = Raise TypeError
  /\ OrderManager._make_request env self method endpoint params = Raise TypeError
  /\ OrderManager.place_market_order env self symbol side quantity reduce_only = Ok None
  /\ OrderManager.place_limit_order env self symbol side quantity price time_in_force
       reduce_only = Ok None
  /\ OrderManager.cancel_order env self symbol order_id = Ok false
  /\ OrderManager.get_order_status env self symbol order_id = Ok None.
Proof. repeat split. Qed.

(** X3: the statements of [place_limit_order] after the request, on a
    success response whose result is an object, build a limit order with
    the requested price and time in force, status NEW, nothing filled, and
    the order id of the response (the empty text when it has none). *)
Theorem X3_limit_order_from_success_response `{Platform} (env : Env) (symbol : string)
    (side : OrderSide) (quantity price : Decimal) (time_in_force : string)
    (response result : dict) :
  py_eq_int (dict_get response "retCode" PyNone) 0 = true ->
  dict_get response "result" (PyDict []) = PyDict result ->
  OrderManager.place_limit_order_response env symbol side quantity price time_in_force
    (PyDict response)
  = Ok (Some (mkOrder (dict_get result "orderId" (PyStr EmptyString)) (PyStr symbol) side
                      LIMIT quantity (Some price) NEW Decimal_zero None
                      (now_created env) (now_updated env) (PyStr time_in_force))).
Proof.
  intros Hcode Hresult. unfold OrderManager.place_limit_order_response. simpl.
  rewrite Hcode, Hresult. reflexivity.
Qed.

Lemma X3_limit_order_from_success_response_witness :
  @OrderManager.place_limit_order_response sample_platform
    (sample_env (Ok created_response)) "BTCUSDT" BUY (DFinite false 1 (-3))
    (DFinite false 30000 0) "IOC" created_response
  = Ok (Some (@mkOrder sample_platform (PyStr "abc-123") (PyStr "BTCUSDT") BUY LIMIT
                (DFinite false 1 (-3)) (Some (DFinite false 30000 0)) NEW Decimal_zero
                None 1700000000001 1700000000002 (PyStr "IOC"))).
Proof.
  exact (@X3_limit_order_from_success_response sample_platform
           (sample_env (Ok created_response)) "BTCUSDT" BUY (DFinite false 1 (-3))
           (DFinite false 30000 0) "IOC"
           [ ("retCode", PyInt 0); ("retMsg", PyStr "OK");
             ("result", PyDict [("orderId", PyStr "abc-123")]) ]
           [("orderId", PyStr "abc-123")] eq_refl eq_refl).
Defined.

(** X4: the statements of [cancel_order] after the request, on the
    values of the wire model (null, booleans, integers, strings, lists
    and objects).  On a response object they always answer, and answer
    true exactly when [retCode] is the int 0 or the boolean false; so a
    missing code, a null, the boolean true, another integer, a string, a
    list or an object answer false.  Every response that is not an
    object raises [AttributeError]. *)
Theorem X4_cancel_answers_true_on_zero (response : dict) (v : pyval) :
  (OrderManager.cancel_order_response (PyDict response) = Ok true
   <-> dict_lookup response "retCode" = Some (PyInt 0)
       \/ dict_lookup response "retCode" = Some (PyBool false))
  /\ OrderManager.cancel_order_response (PyDict response)
     = Ok (match dict_lookup response "retCode" with
           | Some (PyInt n) => n =? 0
           | Some (PyBool b) => negb b
           | _ => false
           end)
  /\ match v with
     | PyDict _ => True
     | _ => OrderManager.cancel_order_response v = Raise AttributeError
     end.
Proof.
  unfold OrderManager.cancel_order_response.
  split; [| split].
  - cbn [py_get bind]. unfold dict_get. split.
    + destruct (dict_lookup response "retCode") as [[| [|] | n | s | l | d] |];
        cbn; try discriminate.
      * intros _. right. reflexivity.
      * destruct (n =? 0) eqn:Hn; [| discriminate].
        apply Z.eqb_eq in Hn. subst n. intros _. left. reflexivity.
    + intros [-> | ->]; reflexivity.
  - cbn [py_get bind]. unfold dict_get.
    destruct (dict_lookup response "retCode") as [[| [|] | n | s | l | d] |];
      cbn; reflexivity || (destruct (n =? 0); reflexivity).
  - destruct v; first [exact I | reflexivity].
Qed.

(** X5: the statements of [get_order_status] after the request parse the
    first record of the list and nothing else: the outcome is the parsed
    first record, or the exception its parse raises, whatever follows it;
    an empty list gives an absent result. *)
Theorem X5_order_status_reads_first_record `{Platform}
    (self : OrderManager.BybitOrderManager) (response ret_code result : pyval)
    (records : list pyval) :
  py_get response "retCode" PyNone = Ok ret_code ->
  py_eq_int ret_code 0 = true ->
  py_get response "result" (PyDict []) = Ok result ->
  py_get result "list" (PyList []) = Ok (PyList records) ->
  OrderManager.get_order_status_response self response
  = match records with
    | [] => Ok None
    | first :: _ => order <- OrderManager._parse_order self first ;; Ok (Some order)
    end.
Proof.
  intros Hcode Hzero Hresult Hlist. unfold OrderManager.get_order_status_response.
  rewrite Hcode. cbn [bind]. rewrite Hzero, Hresult. cbn [bind]. rewrite Hlist.
  cbn [bind]. destruct records; reflexivity.
Qed.

Lemma X5_order_status_reads_first_record_witness :
  @OrderManager.get_order_status_response sample_platform sample_order_manager
    (list_response [sample_order "30000"; PyStr "not an order"])
  = Ok (Some (@mkOrder sample_platform (PyStr "abc-123") (PyStr "BTCUSDT") BUY LIMIT
                (DFinite false 1 (-3)) (Some (DFinite false 30000 0)) NEW Decimal_zero
                None 1700000000000 1700000000500 (PyStr "GTC"))).
Proof.
  exact (@X5_order_status_reads_first_record sample_platform sample_order_manager
           (list_response [sample_order "30000"; PyStr "not an order"]) (PyInt 0)
           (PyDict [("list", PyList [sample_order "30000"; PyStr "not an order"])])
           [sample_order "30000"; PyStr "not an order"]
           eq_refl eq_refl eq_refl eq_refl).
Defined.

Lemma lacks_default (d : dict) (key : string) (default : pyval) :
  lacks d key -> dict_get d key default = default.
Proof. unfold lacks, dict_get. now intros ->. Qed.

Lemma empty_names_no_member :
  (forall m, PyStr EmptyString <> PyStr (OrderSide_value m))
  /\ (forall m, PyStr EmptyString <> PyStr (OrderType_value m))
  /\ (forall m, PyStr EmptyString <> PyStr (OrderStatus_value m)).
Proof. repeat split; intros m; destruct m; discriminate. Qed.

(** X6: an order record that lacks the side, the order type or the order
    status is never parsed, in either manager; without a side the parse
    raises [ValueError], the missing value being read as the empty text,
    which names no member. *)
Theorem X6_order_needs_its_enumerations `{Platform} (om : OrderManager.BybitOrderManager)
    (pm : Portfolio.BybitPortfolioManager) (d : dict) :
  lacks d "side" \/ lacks d "orderType" \/ lacks d "orderStatus" ->
  (lacks d "side" ->
     OrderManager._parse_order om (PyDict d) = Raise ValueError
     /\ Portfolio._parse_order pm (PyDict d) = Raise ValueError)
  /\ (forall o, OrderManager._parse_order om (PyDict d) <> Ok o)
  /\ (forall o, Portfolio._parse_order pm (PyDict d) <> Ok o).
Proof.
  intros Hlacks.
  destruct empty_names_no_member as (Hside & Htype & Hstatus).
  assert (Hnever : forall o, Portfolio._parse_order pm (PyDict d) <> Ok o).
  { intros o Hparse. unfold Portfolio._parse_order in Hparse.
    cbn [py_get bind] in Hparse. do 11 bind_inversion Hparse.
    destruct Hlacks as [Hl | [Hl | Hl]].
    - rewrite (lacks_default d _ _ Hl) in Ha. apply lookup_member_value in Ha.
      exact (Hside _ Ha).
    - rewrite (lacks_default d _ _ Hl) in Ha0. apply lookup_member_value in Ha0.
      exact (Htype _ Ha0).
    - rewrite (lacks_default d _ _ Hl) in Ha3. apply lookup_member_value in Ha3.
      exact (Hstatus _ Ha3). }
  split; [| split; [exact Hnever | exact Hnever]].
  intros Hl.
  assert (Hpm : Portfolio._parse_order pm (PyDict d) = Raise ValueError).
  { apply parse_order_bad_enumeration. left.
    rewrite (lacks_default d _ _ Hl). exact Hside. }
  split; exact Hpm.
Qed.

Lemma X6_order_needs_its_enumerations_witness :
  @Portfolio._parse_order sample_platform sample_portfolio
    (PyDict [("orderId", PyStr "abc-123"); ("qty", PyStr "1")]) = Raise ValueError.
Proof.
  exact (proj2 (proj1 (@X6_order_needs_its_enumerations sample_platform
                         sample_order_manager sample_portfolio
                         [("orderId", PyStr "abc-123"); ("qty", PyStr "1")]
                         (or_introl eq_refl)) eq_refl)).
Defined.

(** X7: what a parsed order holds for the fields its record lacks: the
    empty text for the order id and the symbol, the decimal zero for the
    quantity and the filled quantity, no price and no average price, GTC
    for the time in force, and the local time of the epoch for the
    creation and update times. *)
Theorem X7_order_defaults `{Platform} (pm : Portfolio.BybitPortfolioManager) (d : dict)
    (o : Order) :
  Portfolio._parse_order pm (PyDict d) = Ok o ->
  (lacks d "orderId" -> order_id o = PyStr EmptyString)
  /\ (lacks d "symbol" -> order_symbol o = PyStr EmptyString)
  /\ (lacks d "qty" -> quantity o = Decimal_zero)
  /\ (lacks d "cumExecQty" -> filled_quantity o = Decimal_zero)
  /\ (lacks d "price" -> price o = None)
  /\ (lacks d "avgPrice" -> average_price o = None)
  /\ (lacks d "timeInForce" -> time_in_force o = PyStr "GTC")
  /\ (lacks d "createdTime" -> fromtimestamp_ms 0 = Ok (created_time o))
  /\ (lacks d "updatedTime" -> fromtimestamp_ms 0 = Ok (updated_time o)).
Proof.
  intros Hparse. unfold Portfolio._parse_order in Hparse.
  cbn [py_get bind] in Hparse. do 11 bind_inversion Hparse. injection Hparse as <-.
  cbn [order_id order_symbol quantity filled_quantity price average_price time_in_force
       created_time updated_time].
  repeat split; intros Hl.
  - apply lacks_default, Hl.
  - apply lacks_default, Hl.
  - rewrite (lacks_default d _ _ Hl) in Ha1. now injection Ha1.
  - rewrite (lacks_default d _ _ Hl) in Ha4. now injection Ha4.
  - apply optional_decimal_inv in Ha2. destruct Ha2 as [[Ht _] | [_ ->]]; [| reflexivity].
    rewrite (lacks_default d _ _ Hl) in Ht. discriminate Ht.
  - apply optional_decimal_inv in Ha5. destruct Ha5 as [[Ht _] | [_ ->]]; [| reflexivity].
    rewrite (lacks_default d _ _ Hl) in Ht. discriminate Ht.
  - apply lacks_default, Hl.
  - rewrite (lacks_default d _ _ Hl) in Ha6. injection Ha6 as <-. exact Ha7.
  - rewrite (lacks_default d _ _ Hl) in Ha8. injection Ha8 as <-. exact Ha9.
Qed.

Lemma X7_order_defaults_witness :
  @Portfolio._parse_order sample_platform sample_portfolio
    (PyDict [("side", PyStr "Sell"); ("orderType", PyStr "Market");
             ("orderStatus", PyStr "Filled")])
  = Ok (@mkOrder sample_platform (PyStr EmptyString) (PyStr EmptyString) SELL MARKET
          Decimal_zero None FILLED Decimal_zero None 0 0 (PyStr "GTC"))
  /\ @quantity sample_platform
       (@mkOrder sample_platform (PyStr EmptyString) (PyStr EmptyString) SELL MARKET
          Decimal_zero None FILLED Decimal_zero None 0 0 (PyStr "GTC")) = Decimal_zero.
Proof.
  split; [reflexivity |].
  exact (proj1 (proj2 (proj2 (@X7_order_defaults sample_platform sample_portfolio
           [("side", PyStr "Sell"); ("orderType", PyStr "Market");
            ("orderStatus", PyStr "Filled")]
           (@mkOrder sample_platform (PyStr EmptyString) (PyStr EmptyString) SELL MARKET
              Decimal_zero None FILLED Decimal_zero None 0 0 (PyStr "GTC"))
           eq_refl))) eq_refl).
Defined.

(** ** The portfolio manager, further *)


(** X9: a GET or POST of the portfolio manager hands exactly one request
    to the session: to the base URL followed by the endpoint, with the
    parameters as given, under the API key, with the time stamp and
    receive window that were signed, and with the signature of the
    parameter string of that method. *)
Theorem X9_request_carries_what_was_signed `{Platform} (env : Env)
    (self : Portfolio.BybitPortfolioManager) (method endpoint : string)
    (params : option dict) :
  upper method = "GET" \/ upper method = "POST" ->
  exists request timestamp signature,
    Portfolio._make_request env self method endpoint params = send env request
    /\ req_method request = (if String.eqb (upper method) "GET" then GET else POST)
    /\ req_url request = Portfolio.base_url self ++ endpoint
    /\ req_params request = params
    /\ header "X-BAPI-API-KEY" (req_headers request) = Some (Portfolio.api_key self)
    /\ header "X-BAPI-TIMESTAMP" (req_headers request) = Some timestamp
    /\ timestamp = str_of_Z (time_ms env)
    /\ header "X-BAPI-RECV-WINDOW" (req_headers request)
       = Some (str_of_Z (Portfolio.recv_window self))
    /\ header "X-BAPI-SIGN" (req_headers request) = Some signature
    /\ Portfolio._generate_signature self timestamp
         (Portfolio._make_request_params_str method params) = Ok signature.
Proof.
  intros Hmethod.
  destruct (portfolio_signature_ok self (str_of_Z (time_ms env))
              (Portfolio._make_request_params_str method params)) as [signature Hsig].
  unfold Portfolio._make_request, Portfolio._get_headers. cbv zeta.
  rewrite Hsig. cbn [bind].
  destruct Hmethod as [Hm | Hm]; rewrite Hm.
  - change (String.eqb "GET" "GET") with true. cbv iota.
    eexists. exists (str_of_Z (time_ms env)), signature.
    split; [reflexivity |]. cbn [req_method req_url req_params req_headers].
    repeat split. exact Hsig.
  - change (String.eqb "POST" "GET") with false.
    change (String.eqb "POST" "POST") with true. cbv iota.
    eexists. exists (str_of_Z (time_ms env)), signature.
    split; [reflexivity |]. cbn [req_method req_url req_params req_headers].
    repeat split. exact Hsig.
Qed.

Lemma X9_request_carries_what_was_signed_witness :
  exists request timestamp signature,
    @Portfolio._make_request sample_platform (sample_env (Ok failure_response))
      sample_portfolio "get" "/v5/position/list" (Some [("category", PyStr "linear")])
    = @send sample_platform (sample_env (Ok failure_response)) request
    /\ req_method request = GET
    /\ req_url request = "https://api-testnet.bybit.com/v5/position/list"
    /\ header "X-BAPI-TIMESTAMP" (req_headers request) = Some timestamp
    /\ timestamp = "1700000000000"
    /\ header "X-BAPI-SIGN" (req_headers request) = Some signature
    /\ Portfolio._generate_signature sample_portfolio timestamp "category=linear"
       = Ok signature.
Proof.
  destruct (@X9_request_carries_what_was_signed sample_platform
              (sample_env (Ok failure_response)) sample_portfolio "get"
              "/v5/position/list" (Some [("category", PyStr "linear")])
              (or_introl eq_refl))
    as (request & timestamp & signature & Hreq & Hm & Hurl & _ & _ & Hts & Hval & _
        & Hsign & Hsig).
  exists request, timestamp, signature.
  repeat split; assumption.
Defined.

(** X10: a method that is neither GET nor POST, in any letter case, makes
    the portfolio manager's [_make_request] raise [ValueError], whatever
    the exchange would answer. *)
Theorem X10_unsupported_method `{Platform} (env : Env)
    (self : Portfolio.BybitPortfolioManager) (method endpoint : string)
    (params : option dict) :
  upper method <> "GET" -> upper method <> "POST" ->
  Portfolio._make_request env self method endpoint params = Raise ValueError.
Proof.
  intros Hget Hpost.
  destruct (portfolio_signature_ok self (str_of_Z (time_ms env))
              (Portfolio._make_request_params_str method params)) as [signature Hsig].
  unfold Portfolio._make_request, Portfolio._get_headers. cbv zeta.
  rewrite Hsig. cbn [bind].
  apply String.eqb_neq in Hget, Hpost. rewrite Hget, Hpost. reflexivity.
Qed.

Lemma X10_unsupported_method_witness :
  @Portfolio._make_request sample_platform (sample_env (Ok created_response))
    sample_portfolio "delete" "/v5/order/cancel" None = Raise ValueError.
Proof.
  apply (@X10_unsupported_method sample_platform); discriminate.
Defined.

Lemma failed_try {A : Type} (outcome : result pyval) (k : pyval -> result A)
    (a : A) :
  failed outcome ->
  (forall response ret_code,
      py_get response "retCode" PyNone = Ok ret_code -> py_eq_int ret_code 0 = false ->
      k response = Ok a) ->
  (forall response e, py_get response "retCode" PyNone = Raise e ->
                      exists e', k response = Raise e') ->
  try_except (response <- outcome ;; k response) (fun _ => Ok a) = Ok a.
Proof.
  intros Hfailed Hcode Hraise. destruct outcome as [response | e]; cbn; [| reflexivity].
  cbn in Hfailed.
  destruct (py_get response "retCode" PyNone) as [ret_code | e] eqn:Hget.
  - rewrite (Hcode response ret_code Hget Hfailed). reflexivity.
  - destruct (Hraise response e Hget) as [e' ->]. reflexivity.
Qed.

(** X11: each of the three listing operations of the portfolio manager
    returns the empty list when its request fails: when the request
    raises, when the response is not an object, and when its [retCode]
    is not 0. *)
Theorem X11_listings_report_failure_as_empty `{Platform} (env : Env)
    (self : Portfolio.BybitPortfolioManager) (symbol order_status : option string)
    (limit : Z) :
  (forall request, failed (send env request)) ->
  Portfolio.get_positions env self symbol = Ok []
  /\ Portfolio.get_orders env self symbol order_status limit = Ok []
  /\ Portfolio.get_order_history env self symbol limit = Ok [].
Proof.
  intros Hfailed.
  assert (Hreq : forall endpoint params,
             failed (Portfolio._make_request env self "GET" endpoint params)).
  { intros endpoint params.
    destruct (portfolio_signature_ok self (str_of_Z (time_ms env))
                (Portfolio._make_request_params_str "GET" params)) as [signature Hsig].
    unfold Portfolio._make_request, Portfolio._get_headers. cbv zeta.
    rewrite Hsig. cbn [bind]. change (String.eqb (upper "GET") "GET") with true.
    cbv iota. apply Hfailed. }
  repeat split.
  - unfold Portfolio.get_positions. apply failed_try; [apply Hreq | |].
    + intros response ret_code Hget Hcode. unfold Portfolio.get_positions_response.
      rewrite Hget. cbn [bind]. rewrite Hcode. reflexivity.
    + intros response e Hget. unfold Portfolio.get_positions_response.
      rewrite Hget. exists e. reflexivity.
  - unfold Portfolio.get_orders. apply failed_try; [apply Hreq | |].
    + intros response ret_code Hget Hcode. unfold Portfolio.get_orders_response.
      rewrite Hget. cbn [bind]. rewrite Hcode. reflexivity.
    + intros response e Hget. unfold Portfolio.get_orders_response.
      rewrite Hget. exists e. reflexivity.
  - unfold Portfolio.get_order_history. apply failed_try; [apply Hreq | |].
    + intros response ret_code Hget Hcode. unfold Portfolio.get_orders_response.
      rewrite Hget. cbn [bind]. rewrite Hcode. reflexivity.
    + intros response e Hget. unfold Portfolio.get_orders_response.
      rewrite Hget. exists e. reflexivity.
Qed.

Lemma X11_listings_report_failure_as_empty_witness :
  @Portfolio.get_positions sample_platform (sample_env (Raise RequestException))
    sample_portfolio (Some "BTCUSDT") = Ok []
  /\ @Portfolio.get_orders sample_platform (sample_env (Ok failure_response))
       sample_portfolio None (Some "New") 50 = Ok [].
Proof.
  split.
  - exact (proj1 (@X11_listings_report_failure_as_empty sample_platform
                    (sample_env (Raise RequestException)) sample_portfolio
                    (Some "BTCUSDT") None 50 (fun _ => I))).
  - exact (proj1 (proj2 (@X11_listings_report_failure_as_empty sample_platform
                    (sample_env (Ok failure_response)) sample_portfolio
                    None (Some "New") 50 (fun _ => eq_refl)))).
Defined.

Lemma try_except_cases {A : Type} (body : result A) (a : A) :
  exists x, try_except body (fun _ => Ok a) = Ok x /\ (x = a \/ body = Ok x).
Proof.
  destruct body as [x | e]; cbn.
  - exists x. split; [reflexivity | right; reflexivity].
  - exists a. split; [reflexivity | left; reflexivity].
Qed.

Lemma get_positions_loop_nonzero (self : Portfolio.BybitPortfolioManager)
    (items : list pyval) :
  forall acc ps,
    Portfolio.get_positions_loop self items acc = Ok ps ->
    Forall (fun p => Decimal_nonzero (size p) = true) acc ->
    Forall (fun p => Decimal_nonzero (size p) = true) ps.
Proof.
  induction items as [| v items IH]; intros acc ps Hloop Hacc.
  - injection Hloop as <-. exact Hacc.
  - cbn [Portfolio.get_positions_loop] in Hloop.
    bind_inversion Hloop. bind_inversion Hloop.
    apply (IH _ _ Hloop). destruct a0; [| exact Hacc].
    apply Forall_app. split; [exact Hacc |].
    constructor; [| constructor]. unfold Decimal_nonzero. now rewrite Ha0.
Qed.

Lemma get_positions_response_nonzero (self : Portfolio.BybitPortfolioManager)
    (response : pyval) (ps : list Position) :
  Portfolio.get_positions_response self response = Ok ps ->
  Forall (fun p => Decimal_nonzero (size p) = true) ps.
Proof.
  unfold Portfolio.get_positions_response. intros Hr. bind_inversion Hr.
  destruct (py_eq_int a 0).
  - do 3 bind_inversion Hr. apply (get_positions_loop_nonzero self _ _ _ Hr). constructor.
  - injection Hr as <-. constructor.
Qed.

(** X12: [get_positions] always returns a list, never an exception, and
    no position of the list has a size equal to the zero decimal,
    whatever the exchange answers. *)
Theorem X12_positions_are_never_flat `{Platform} (env : Env)
    (self : Portfolio.BybitPortfolioManager) (symbol : option string) :
  exists ps,
    Portfolio.get_positions env self symbol = Ok ps
    /\ Forall (fun p => Decimal_ne (size p) Decimal_zero = Ok true) ps.
Proof.
  unfold Portfolio.get_positions.
  match goal with
  | |- context [try_except ?body _] =>
      destruct (try_except_cases body (@nil Position)) as (ps & Hps & Hcase)
  end.
  exists ps. split; [exact Hps |].
  destruct Hcase as [-> | Hbody]; [constructor |].
  bind_inversion Hbody. apply get_positions_response_nonzero in Hbody.
  apply Forall_forall. intros p Hin.
  pose proof (proj1 (Forall_forall _ _) Hbody p Hin) as Hp. cbn beta in Hp.
  unfold Decimal_nonzero in Hp.
  destruct (Decimal_ne (size p) Decimal_zero) as [[|] | e]; [reflexivity | discriminate..].
Qed.

Lemma get_orders_loop_all `{Platform} (self : Portfolio.BybitPortfolioManager)
    (records : list pyval) :
  forall orders acc,
    mapM (Portfolio._parse_order self) records = Ok orders ->
    Portfolio.get_orders_loop self records acc = Ok (acc ++ orders)%list.
Proof.
  induction records as [| v records IH]; intros orders acc Hall.
  - injection Hall as <-. cbn. now rewrite app_nil_r.
  - cbn [mapM] in Hall. bind_inversion Hall. bind_inversion Hall. injection Hall as <-.
    cbn [Portfolio.get_orders_loop]. rewrite Ha. cbn [bind].
    rewrite (IH a0 _ Ha0). now rewrite <- app_assoc.
Qed.

Lemma mapM_length {A B : Type} (f : A -> result B) (l : list A) :
  forall l', mapM f l = Ok l' -> List.length l' = List.length l.
Proof.
  induction l as [| x l IH]; intros l' Hl.
  - injection Hl as <-. reflexivity.
  - cbn [mapM] in Hl. bind_inversion Hl. bind_inversion Hl. injection Hl as <-.
    cbn. f_equal. apply IH, Ha0.
Qed.

(** X14: when the exchange answers a success response whose order
    records all parse, [get_orders] and [get_order_history] return the
    parsed orders, one for each record, in the order of the response. *)
Theorem X14_orders_are_all_returned `{Platform} (env : Env)
    (self : Portfolio.BybitPortfolioManager) (symbol order_status : option string)
    (limit : Z) (response ret_code result : pyval) (records : list pyval)
    (orders : list Order) :
  (forall request, send env request = Ok response) ->
  py_get response "retCode" PyNone = Ok ret_code ->
  py_eq_int ret_code 0 = true ->
  py_get response "result" (PyDict []) = Ok result ->
  py_get result "list" (PyList []) = Ok (PyList records) ->
  mapM (Portfolio._parse_order self) records = Ok orders ->
  Portfolio.get_orders env self symbol order_status limit = Ok orders
  /\ Portfolio.get_order_history env self symbol limit = Ok orders
  /\ List.length orders = List.length records.
Proof.
  intros Hsend Hcode Hzero Hresult Hlist Hall.
  assert (Hresp : Portfolio.get_orders_response self response = Ok orders).
  { unfold Portfolio.get_orders_response. rewrite Hcode. cbn [bind].
    rewrite Hzero, Hresult. cbn [bind]. rewrite Hlist. cbn [bind py_iter].
    apply (get_orders_loop_all self records orders [] Hall). }
  repeat split.
  - unfold Portfolio.get_orders.
    rewrite (portfolio_request_get env self _ _ response Hsend). cbn [bind].
    rewrite Hresp. reflexivity.
  - unfold Portfolio.get_order_history.
    rewrite (portfolio_request_get env self _ _ response Hsend). cbn [bind].
    rewrite Hresp. reflexivity.
  - apply (mapM_length _ _ _ Hall).
Qed.

Lemma X14_orders_are_all_returned_witness :
  @Portfolio.get_orders sample_platform
    (sample_env (Ok (list_response [sample_order "30000"; sample_order EmptyString])))
    sample_portfolio None None 50
  = Ok [ @mkOrder sample_platform (PyStr "abc-123") (PyStr "BTCUSDT") BUY LIMIT
           (DFinite false 1 (-3)) (Some (DFinite false 30000 0)) NEW Decimal_zero None
           1700000000000 1700000000500 (PyStr "GTC");
         @mkOrder sample_platform (PyStr "abc-123") (PyStr "BTCUSDT") BUY LIMIT
           (DFinite false 1 (-3)) None NEW Decimal_zero None
           1700000000000 1700000000500 (PyStr "GTC") ].
Proof.
  exact (proj1 (@X14_orders_are_all_returned sample_platform
           (sample_env (Ok (list_response [sample_order "30000"; sample_order EmptyString])))
           sample_portfolio None None 50
           (list_response [sample_order "30000"; sample_order EmptyString]) (PyInt 0)
           (PyDict [("list", PyList [sample_order "30000"; sample_order EmptyString])])
           [sample_order "30000"; sample_order EmptyString] _
           (fun _ => eq_refl) eq_refl eq_refl eq_refl eq_refl eq_refl)).
Defined.

(** X15: a position record without a size is read as flat: whenever it
    parses, its size is the decimal zero and its side is NONE, whatever
    side string the record carries, so [get_positions] leaves it out. *)
Theorem X15_position_without_size_is_flat (self : Portfolio.BybitPortfolioManager)
    (d : dict) (p : Position) :
  lacks d "size" ->
  Portfolio._parse_position self (PyDict d) = Ok p ->
  size p = Decimal_zero /\ position_side p = NONE
  /\ forall acc, Portfolio.get_positions_loop self [PyDict d] acc = Ok acc.
Proof.
  intros Hl Hp.
  destruct (parsed_position_side self d p Hp) as (b & Hsize & Hb & Hside).
  rewrite (lacks_default d _ _ Hl) in Hsize. injection Hsize as Hsize.
  rewrite <- Hsize in Hb. injection Hb as <-. injection Hside as Hside.
  repeat split; [now symmetry | now symmetry |].
  intros acc. cbn [Portfolio.get_positions_loop]. rewrite Hp. cbn [bind].
  rewrite <- Hsize. reflexivity.
Qed.

Lemma X15_position_without_size_is_flat_witness :
  Portfolio._parse_position sample_portfolio
    (PyDict [("symbol", PyStr "ETHUSDT"); ("side", PyStr "Buy")])
  = Ok (mkPosition (PyStr "ETHUSDT") NONE Decimal_zero None None None None None None)
  /\ position_side
       (mkPosition (PyStr "ETHUSDT") NONE Decimal_zero None None None None None None)
     = NONE.
Proof.
  split; [reflexivity |].
  exact (proj1 (proj2 (X15_position_without_size_is_flat sample_portfolio
           [("symbol", PyStr "ETHUSDT"); ("side", PyStr "Buy")]
           (mkPosition (PyStr "ETHUSDT") NONE Decimal_zero None None None None None None)
           eq_refl eq_refl))).
Defined.

(** X13: in a parsed position each optional amount (entry price, mark
    price, unrealized and realized profit, leverage, margin) is present
    exactly when the record's value for it is truthy: a missing or empty
    value gives none, the text 0 gives the decimal zero. *)
Theorem X13_position_amounts_follow_truthiness (self : Portfolio.BybitPortfolioManager)
    (d : dict) (p : Position) :
  Portfolio._parse_position self (PyDict d) = Ok p ->
  (entry_price p <> None <-> py_truthy (dict_get d "avgPrice" PyNone) = true)
  /\ (mark_price p <> None <-> py_truthy (dict_get d "markPrice" PyNone) = true)
  /\ (unrealized_pnl p <> None <-> py_truthy (dict_get d "unrealisedPnl" PyNone) = true)
  /\ (realized_pnl p <> None <-> py_truthy (dict_get d "cumRealisedPnl" PyNone) = true)
  /\ (leverage p <> None <-> py_truthy (dict_get d "leverage" PyNone) = true)
  /\ (margin p <> None <-> py_truthy (dict_get d "positionIM" PyNone) = true)
  /\ (dict_lookup d "avgPrice" = Some (PyStr "0") -> entry_price p = Some Decimal_zero)
  /\ (lacks d "leverage" -> leverage p = None).
Proof.
  unfold Portfolio._parse_position. cbn [py_get bind]. intros Hp.
  do 9 bind_inversion Hp. injection Hp as <-.
  cbn [entry_price mark_price unrealized_pnl realized_pnl leverage margin].
  assert (Hiff : forall key x, optional_decimal (PyDict d) key = Ok x ->
                   (x <> None <-> py_truthy (dict_get d key PyNone) = true)).
  { intros key x Hx. apply optional_decimal_inv in Hx.
    destruct Hx as [(Ht & y & _ & ->) | [Hf ->]]; split; congruence. }
  repeat split; try (apply Hiff; assumption); try (apply Hiff; assumption).
  - intros Hlook. apply optional_decimal_inv in Ha2.
    destruct Ha2 as [(_ & x & Hx & ->) | [Hf _]].
    + rewrite (truthy_lookup d _ _ _ Hlook) in Hx. now injection Hx as <-.
    + rewrite (truthy_lookup d _ _ _ Hlook) in Hf. discriminate Hf.
  - intros Hl. apply optional_decimal_inv in Ha6.
    destruct Ha6 as [(Ht & _) | [_ ->]]; [| reflexivity].
    rewrite (lacks_default d _ _ Hl) in Ht. discriminate Ht.
Qed.

Lemma X13_position_amounts_follow_truthiness_witness :
  entry_price
    (mkPosition (PyStr "BTCUSDT") SHORT (DFinite false 5 (-1)) (Some Decimal_zero)
       None None None None None) = Some Decimal_zero.
Proof.
  exact (proj1 (proj2 (proj2 (proj2 (proj2 (proj2 (proj2
           (X13_position_amounts_follow_truthiness sample_portfolio
              [ ("symbol", PyStr "BTCUSDT"); ("side", PyStr "Sell"); ("size", PyStr "0.5");
                ("avgPrice", PyStr "0"); ("markPrice", PyStr EmptyString) ]
              (mkPosition (PyStr "BTCUSDT") SHORT (DFinite false 5 (-1))
                 (Some Decimal_zero) None None None None None)
              eq_refl))))))) eq_refl).
Defined.

(** ** The account snapshot *)

Lemma get_positions_failed `{Platform} (env : Env) (self : Portfolio.BybitPortfolioManager)
    (symbol : option string) :
  failed (Portfolio._make_request env self "GET" "/v5/position/list"
            (Some (Portfolio.with_symbol [("category", PyStr "linear")] symbol))) ->
  Portfolio.get_positions env self symbol = Ok [].
Proof.
  intros Hfailed. unfold Portfolio.get_positions. apply failed_try; [exact Hfailed | |].
  - intros response ret_code Hget Hcode. unfold Portfolio.get_positions_response.
    rewrite Hget. cbn [bind]. rewrite Hcode. reflexivity.
  - intros response e Hget. unfold Portfolio.get_positions_response.
    rewrite Hget. exists e. reflexivity.
Qed.

Lemma get_positions_returns `{Platform} (env : Env) (self : Portfolio.BybitPortfolioManager)
    (symbol : option string) :
  exists ps, Portfolio.get_positions env self symbol = Ok ps.
Proof.
  unfold Portfolio.get_positions.
  match goal with
  | |- context [try_except ?body _] =>
      destruct (try_except_cases body (@nil Position)) as (ps & Hps & _)
  end.
  exists ps. exact Hps.
Qed.

Lemma get_account_info_loop_all (coins : list pyval) :
  forall balances acc,
    mapM balance_of coins = Ok balances ->
    Portfolio.get_account_info_loop coins acc = Ok (acc ++ balances)%list.
Proof.
  induction coins as [| c coins IH]; intros balances acc Hall.
  - injection Hall as <-. cbn. now rewrite app_nil_r.
  - cbn [mapM] in Hall. bind_inversion Hall. bind_inversion Hall. injection Hall as <-.
    unfold balance_of in Ha. do 7 bind_inversion Ha. injection Ha as <-.
    cbn [Portfolio.get_account_info_loop].
    rewrite Ha1. cbn [bind]. rewrite Ha2. cbn [bind]. rewrite Ha3. cbn [bind].
    rewrite Ha4. cbn [bind]. rewrite Ha5. cbn [bind]. rewrite Ha6. cbn [bind].
    rewrite Ha7. cbn [bind].
    rewrite (IH a0 _ Ha0). now rewrite <- app_assoc.
Qed.

Lemma account_info_response_reads `{Platform} (later : Env)
    (self : Portfolio.BybitPortfolioManager) (response : pyval)
    (balances : list Balance) (total pnl : Decimal) (ps : list Position) :
  wallet_reads response balances total pnl ->
  Portfolio.get_positions later self None = Ok ps ->
  Portfolio.get_account_info_response later self response
  = Ok (Some (mkAccountInfo balances ps total pnl)).
Proof.
  intros (ret_code & result & rest & wallet & coins & Hcode & Hzero & Hresult & Hlist
          & Hcoin & Hall & Htotal & Hpnl) Hps.
  unfold Portfolio.get_account_info_response.
  rewrite Hcode. cbn [bind]. rewrite Hzero, Hresult. cbn [bind]. rewrite Hlist.
  cbn [bind py_truthy py_first py_get]. rewrite Hcoin. cbn [bind py_iter].
  rewrite (get_account_info_loop_all coins balances [] Hall). cbn [bind app].
  rewrite Hps. cbn [bind]. rewrite Htotal. cbn [bind]. rewrite Hpnl. reflexivity.
Qed.

(** X16: [get_account_info] returns an absent result when the
    wallet-balance request fails (it raises, the response is not an
    object, or [retCode] is not 0) and when the response lists no
    account. *)
Theorem X16_account_info_absent `{Platform} (env later : Env)
    (self : Portfolio.BybitPortfolioManager) :
  failed (Portfolio._make_request env self "GET" "/v5/account/wallet-balance"
            (Some [("accountType", PyStr "UNIFIED")]))
  \/ (exists response ret_code result,
        Portfolio._make_request env self "GET" "/v5/account/wallet-balance"
          (Some [("accountType", PyStr "UNIFIED")]) = Ok response
        /\ py_get response "retCode" PyNone = Ok ret_code
        /\ py_get response "result" (PyDict []) = Ok result
        /\ py_get result "list" (PyList []) = Ok (PyList [])) ->
  Portfolio.get_account_info env later self = Ok None.
Proof.
  intros [Hfailed | (response & ret_code & result & Hreq & Hcode & Hresult & Hlist)];
    unfold Portfolio.get_account_info.
  - apply failed_try; [exact Hfailed | |].
    + intros response ret_code Hget Hcode. unfold Portfolio.get_account_info_response.
      rewrite Hget. cbn [bind]. rewrite Hcode. reflexivity.
    + intros response e Hget. unfold Portfolio.get_account_info_response.
      rewrite Hget. exists e. reflexivity.
  - rewrite Hreq. cbn [bind]. unfold Portfolio.get_account_info_response.
    rewrite Hcode. cbn [bind]. destruct (py_eq_int ret_code 0); [| reflexivity].
    rewrite Hresult. cbn [bind]. rewrite Hlist. reflexivity.
Qed.

Lemma X16_account_info_absent_witness :
  @Portfolio.get_account_info sample_platform (sample_env (Ok failure_response))
    (sample_env (Ok (list_response []))) sample_portfolio = Ok None
  /\ @Portfolio.get_account_info sample_platform (sample_env (Ok (list_response [])))
       (sample_env (Ok (list_response []))) sample_portfolio = Ok None.
Proof.
  split.
  - apply (@X16_account_info_absent sample_platform). left. reflexivity.
  - apply (@X16_account_info_absent sample_platform). right.
    exists (list_response []), (PyInt 0), (PyDict [("list", PyList [])]).
    repeat split.
Defined.

(** X17: on a success response to the wallet-balance request,
    [get_account_info] returns one balance for each coin entry of the
    first account, in order, the two totals of that account, and as
    positions the list that [get_positions] returns without a symbol for
    the request that follows. *)
Theorem X17_account_info_combines_two_requests `{Platform} (env later : Env)
    (self : Portfolio.BybitPortfolioManager) (response : pyval)
    (balances : list Balance) (total pnl : Decimal) :
  Portfolio._make_request env self "GET" "/v5/account/wallet-balance"
    (Some [("accountType", PyStr "UNIFIED")]) = Ok response ->
  wallet_reads response balances total pnl ->
  exists ps,
    Portfolio.get_positions later self None = Ok ps
    /\ Portfolio.get_account_info env later self
       = Ok (Some (mkAccountInfo balances ps total pnl)).
Proof.
  intros Hreq Hreads. destruct (get_positions_returns later self None) as [ps Hps].
  exists ps. split; [exact Hps |].
  unfold Portfolio.get_account_info. rewrite Hreq. cbn [bind].
  rewrite (account_info_response_reads later self response balances total pnl ps Hreads Hps).
  reflexivity.
Qed.

Lemma sample_wallet_reads :
  wallet_reads wallet_response
    [ mkBalance (PyStr "USDT") (DFinite false 1000 0) (DFinite false 900 0) Decimal_zero;
      mkBalance (PyStr "BTC") (DFinite false 1 (-3)) Decimal_zero Decimal_zero ]
    (DFinite false 10505 (-1)) (DFinite true 325 (-2)).
Proof.
  unfold wallet_reads, wallet_response.
  do 5 eexists. repeat split.
Qed.

Lemma X17_account_info_combines_two_requests_witness :
  exists ps,
    @Portfolio.get_positions sample_platform
      (sample_env (Ok (list_response [sample_position "2" "Buy"])))
      sample_portfolio None = Ok ps
    /\ @Portfolio.get_account_info sample_platform (sample_env (Ok wallet_response))
         (sample_env (Ok (list_response [sample_position "2" "Buy"])))
         sample_portfolio
       = Ok (Some (mkAccountInfo
               [ mkBalance (PyStr "USDT") (DFinite false 1000 0) (DFinite false 900 0)
                   Decimal_zero;
                 mkBalance (PyStr "BTC") (DFinite false 1 (-3)) Decimal_zero Decimal_zero ]
               ps (DFinite false 10505 (-1)) (DFinite true 325 (-2)))).
Proof.
  apply (@X17_account_info_combines_two_requests sample_platform
           (sample_env (Ok wallet_response))
           (sample_env (Ok (list_response [sample_position "2" "Buy"])))
           sample_portfolio wallet_response).
  - reflexivity.
  - exact sample_wallet_reads.
Defined.

(** X18: when the wallet-balance request succeeds and the position
    request fails, [get_account_info] does not report the failure: it
    returns the account with its balances and totals and an empty list
    of positions. *)
Theorem X18_account_info_hides_position_failure `{Platform} (env later : Env)
    (self : Portfolio.BybitPortfolioManager) (response : pyval)
    (balances : list Balance) (total pnl : Decimal) :
  Portfolio._make_request env self "GET" "/v5/account/wallet-balance"
    (Some [("accountType", PyStr "UNIFIED")]) = Ok response ->
  wallet_reads response balances total pnl ->
  failed (Portfolio._make_request later self "GET" "/v5/position/list"
            (Some [("category", PyStr "linear")])) ->
  Portfolio.get_account_info env later self
  = Ok (Some (mkAccountInfo balances [] total pnl)).
Proof.
  intros Hreq Hreads Hfailed.
  pose proof (get_positions_failed later self None Hfailed) as Hps.
  unfold Portfolio.get_account_info. rewrite Hreq. cbn [bind].
  rewrite (account_info_response_reads later self response balances total pnl [] Hreads Hps).
  reflexivity.
Qed.

Lemma X18_account_info_hides_position_failure_witness :
  @Portfolio.get_account_info sample_platform (sample_env (Ok wallet_response))
    (sample_env (Raise RequestException)) sample_portfolio
  = Ok (Some (mkAccountInfo
          [ mkBalance (PyStr "USDT") (DFinite false 1000 0) (DFinite false 900 0)
              Decimal_zero;
            mkBalance (PyStr "BTC") (DFinite false 1 (-3)) Decimal_zero Decimal_zero ]
          [] (DFinite false 10505 (-1)) (DFinite true 325 (-2)))).
Proof.
  apply (@X18_account_info_hides_position_failure sample_platform
           (sample_env (Ok wallet_response)) (sample_env (Raise RequestException))
           sample_portfolio wallet_response).
  - reflexivity.
  - exact sample_wallet_reads.
  - exact I.
Defined.

(** ** The ticker stream, further *)

(** X19: a message whose topic is missing or does not start with tickers
    (a subscription acknowledgement, a pong) is ignored: nothing of the
    stream changes, nothing is handed to the observer, and the call
    returns normally. *)
Theorem X19_other_topics_are_ignored (w : OrderBookStream.World) (md : dict)
    (topic : string) :
  dict_get md "topic" (PyStr EmptyString) = PyStr topic ->
  starts_with "tickers" topic = false ->
  OrderBookStream._process_message (PyDict md) w = (w, Ok tt).
Proof.
  intros Htopic Hstart.
  unfold OrderBookStream._process_message. stream_step.
  rewrite Htopic. stream_step. rewrite Hstart. reflexivity.
Qed.

Lemma X19_other_topics_are_ignored_witness :
  let w := after [sample_tick 1 bid_fields] (fresh "BTCUSDT" (Some (fun _ => Ok tt))) in
  OrderBookStream._process_message
    (PyDict [("success", PyBool true); ("op", PyStr "subscribe");
             ("data", PyDict bid_fields)]) w
  = (w, Ok tt).
Proof.
  intros w.
  apply (X19_other_topics_are_ignored w _ EmptyString); reflexivity.
Defined.

(** X20: an exception raised while a message is handled ends the receive
    loop: the stream stays as that message left it, the messages after it
    are not handled, and [listen] returns normally. *)
Theorem X20_exception_ends_the_loop (m : pyval) (rest : list pyval)
    (w : OrderBookStream.World) (e : exn) :
  snd (OrderBookStream._process_message m w) = Raise e ->
  OrderBookStream.listen (m :: rest) w
  = (fst (OrderBookStream._process_message m w), Ok tt).
Proof.
  intros Hraise. unfold OrderBookStream.listen. cbn [OrderBookStream.listen_loop].
  unfold OrderBookStream.bindM.
  destruct (OrderBookStream._process_message m w) as [w' r]. cbn [fst snd] in *.
  rewrite Hraise. reflexivity.
Qed.

Lemma X20_exception_ends_the_loop_witness :
  OrderBookStream.listen
    [PyList [PyStr "not an object"]; sample_tick 1 bid_fields; sample_tick 2 ask_fields]
    (fresh "BTCUSDT" None)
  = (fresh "BTCUSDT" None, Ok tt).
Proof.
  exact (X20_exception_ends_the_loop (PyList [PyStr "not an object"])
           [sample_tick 1 bid_fields; sample_tick 2 ask_fields]
           (fresh "BTCUSDT" None) AttributeError eq_refl).
Defined.

Lemma preserves_bind {A B : Type} (P : OrderBookStream.BybitOrderBookStream -> Prop)
    (m : OrderBookStream.M A) (k : A -> OrderBookStream.M B) :
  preserves P m -> (forall a, preserves P (k a)) -> preserves P (OrderBookStream.bindM m k).
Proof.
  intros Hm Hk w Hw. unfold OrderBookStream.bindM.
  specialize (Hm w Hw). destruct (m w) as [w' [a | e]]; cbn [fst] in *.
  - apply Hk, Hm.
  - exact Hm.
Qed.

Lemma preserves_lift {A : Type} (P : OrderBookStream.BybitOrderBookStream -> Prop)
    (r : result A) : preserves P (OrderBookStream.lift r).
Proof. intros w Hw. exact Hw. Qed.

Lemma preserves_ret {A : Type} (P : OrderBookStream.BybitOrderBookStream -> Prop)
    (a : A) : preserves P (OrderBookStream.ret a).
Proof. intros w Hw. exact Hw. Qed.

Lemma preserves_self (P : OrderBookStream.BybitOrderBookStream -> Prop) :
  preserves P OrderBookStream.self_.
Proof. intros w Hw. exact Hw. Qed.

Lemma preserves_assign (P : OrderBookStream.BybitOrderBookStream -> Prop)
    (f : OrderBookStream.BybitOrderBookStream -> OrderBookStream.BybitOrderBookStream) :
  (forall s, P s -> P (f s)) -> preserves P (OrderBookStream.assign f).
Proof. intros Hf w Hw. apply Hf, Hw. Qed.

Lemma preserves_call (P : OrderBookStream.BybitOrderBookStream -> Prop)
    (cb : OrderBookStream.Callback) (ob : OrderBook) :
  preserves P (OrderBookStream.call_callback cb ob).
Proof. intros w Hw. exact Hw. Qed.

Ltac preserve_step :=
  first
    [ apply preserves_bind; [| intros ?]
    | apply preserves_lift
    | apply preserves_ret
    | apply preserves_self
    | apply preserves_call
    | apply preserves_assign; solve [auto]
    | match goal with
      | |- preserves _ (if ?b then _ else _) => destruct b
      | |- preserves _ (match ?x with Some _ => _ | None => _ end) => destruct x
      end ].

Lemma process_message_preserves (P : OrderBookStream.BybitOrderBookStream -> Prop)
    (m : pyval) :
  kept_by_assignments P -> preserves P (OrderBookStream._process_message m).
Proof.
  intros (Hbp & Hbs & Hap & Has & Hob).
  unfold OrderBookStream._process_message. repeat preserve_step.
Qed.

Lemma listen_preserves (P : OrderBookStream.BybitOrderBookStream -> Prop)
    (messages : list pyval) (w : OrderBookStream.World) :
  kept_by_assignments P ->
  P (OrderBookStream.stream w) ->
  P (OrderBookStream.stream (fst (OrderBookStream.listen messages w))).
Proof.
  intros HP Hw.
  assert (Hloop : preserves P (OrderBookStream.listen_loop messages)).
  { induction messages as [| m rest IH]; cbn [OrderBookStream.listen_loop].
    - apply preserves_ret.
    - apply preserves_bind; [apply process_message_preserves, HP | intros _; exact IH]. }
  unfold OrderBookStream.listen. specialize (Hloop w Hw).
  destruct (OrderBookStream.listen_loop messages w) as [w' r]. exact Hloop.
Qed.

(** X21: whatever messages arrive, well formed or not, the receive loop
    never changes the symbol, the URL, the connection handle or the
    observer of the stream, and never forgets a tracked price or size or
    the stored snapshot: what is known before the loop is known after
    it. *)
Theorem X21_listen_keeps_what_is_known (messages : list pyval)
    (w : OrderBookStream.World) :
  let s := OrderBookStream.stream w in
  let s' := OrderBookStream.stream (fst (OrderBookStream.listen messages w)) in
  OrderBookStream.symbol s' = OrderBookStream.symbol s
  /\ OrderBookStream.ws_url s' = OrderBookStream.ws_url s
  /\ OrderBookStream.websocket s' = OrderBookStream.websocket s
  /\ OrderBookStream.callback s' = OrderBookStream.callback s
  /\ (OrderBookStream.best_bid_price s <> None -> OrderBookStream.best_bid_price s' <> None)
  /\ (OrderBookStream.best_bid_size s <> None -> OrderBookStream.best_bid_size s' <> None)
  /\ (OrderBookStream.best_ask_price s <> None -> OrderBookStream.best_ask_price s' <> None)
  /\ (OrderBookStream.best_ask_size s <> None -> OrderBookStream.best_ask_size s' <> None)
  /\ (OrderBookStream.orderbook s <> None -> OrderBookStream.orderbook s' <> None).
Proof.
  intros s s'. subst s'.
  repeat split.
  - apply (listen_preserves
             (fun x => OrderBookStream.symbol x = OrderBookStream.symbol s));
      [repeat split; auto | reflexivity].
  - apply (listen_preserves
             (fun x => OrderBookStream.ws_url x = OrderBookStream.ws_url s));
      [repeat split; auto | reflexivity].
  - apply (listen_preserves
             (fun x => OrderBookStream.websocket x = OrderBookStream.websocket s));
      [repeat split; auto | reflexivity].
  - apply (listen_preserves
             (fun x => OrderBookStream.callback x = OrderBookStream.callback s));
      [repeat split; auto | reflexivity].
  - apply (listen_preserves (fun x => OrderBookStream.best_bid_price x <> None)).
    repeat split; cbn; auto; discriminate.
  - apply (listen_preserves (fun x => OrderBookStream.best_bid_size x <> None)).
    repeat split; cbn; auto; discriminate.
  - apply (listen_preserves (fun x => OrderBookStream.best_ask_price x <> None)).
    repeat split; cbn; auto; discriminate.
  - apply (listen_preserves (fun x => OrderBookStream.best_ask_size x <> None)).
    repeat split; cbn; auto; discriminate.
  - apply (listen_preserves (fun x => OrderBookStream.orderbook x <> None)).
    repeat split; cbn; auto; discriminate.
Qed.

Lemma level_of_length (p q : option Decimal) :
  (List.length (OrderBookStream.level_of p q) <= 1)%nat.
Proof. destruct p, q; cbn; lia. Qed.

Lemma top_of_book_only_kept : kept_by_assignments top_of_book_only.
Proof.
  unfold kept_by_assignments, top_of_book_only.
  split; [| split; [| split; [| split]]].
  - intros d s Hs ob Hob. apply Hs. exact Hob.
  - intros d s Hs ob Hob. apply Hs. exact Hob.
  - intros d s Hs ob Hob. apply Hs. exact Hob.
  - intros d s Hs ob Hob. apply Hs. exact Hob.
  - intros sym p q p' q' ts s _ ob Hob. cbn in Hob. injection Hob as <-.
    cbn [bids asks]. split; apply level_of_length.
Qed.

(** X22: on a stream that starts without a snapshot, whatever messages
    arrive, the stored snapshot never has more than one bid level and one
    ask level. *)
Theorem X22_snapshot_is_top_of_book (sym : string) (cb : option OrderBookStream.Callback)
    (messages : list pyval) (ob : OrderBook) :
  snapshot (fst (OrderBookStream.listen messages (fresh sym cb))) = Some ob ->
  (List.length (bids ob) <= 1)%nat /\ (List.length (asks ob) <= 1)%nat.
Proof.
  intros Hob.
  apply (listen_preserves top_of_book_only messages (fresh sym cb) top_of_book_only_kept);
    [| exact Hob].
  intros ob0 Hnone. destruct cb; discriminate Hnone.
Qed.

Lemma X22_snapshot_is_top_of_book_witness :
  (List.length [mkOrderBookLevel (DFinite false 300005 (-1)) (DFinite false 12 (-1))] <= 1)%nat
  /\ (List.length [mkOrderBookLevel (DFinite false 30001 0) (DFinite false 7 (-1))] <= 1)%nat.
Proof.
  exact (X22_snapshot_is_top_of_book "BTCUSDT" None
           [sample_tick 1 bid_fields; sample_tick 2 ask_fields]
           (mkOrderBook (PyStr "BTCUSDT")
              [mkOrderBookLevel (DFinite false 300005 (-1)) (DFinite false 12 (-1))]
              [mkOrderBookLevel (DFinite false 30001 0) (DFinite false 7 (-1))]
              (PyInt 2))
           eq_refl).
Defined.

Lemma apply_sides_keep (bid ask : option (Decimal * Decimal))
    (s : OrderBookStream.BybitOrderBookStream) :
  let s2 := apply_side OrderBookStream.set_best_ask_price OrderBookStream.set_best_ask_size
              ask (apply_side OrderBookStream.set_best_bid_price
                     OrderBookStream.set_best_bid_size bid s) in
  OrderBookStream.callback s2 = OrderBookStream.callback s
  /\ OrderBookStream.symbol s2 = OrderBookStream.symbol s
  /\ (bid = None ->
      OrderBookStream.best_bid_price s2 = OrderBookStream.best_bid_price s
      /\ OrderBookStream.best_bid_size s2 = OrderBookStream.best_bid_size s).
Proof.
  destruct bid as [[bp bs] |], ask as [[ap az] |]; cbn; repeat split; discriminate.
Qed.

(** X23: when an observer is registered, a ticker message hands it one
    snapshot, after the snapshot has been stored: the snapshot handed over
    is the one [get_latest_orderbook] returns, and the outcome of the
    message is the outcome of the observer. *)
Theorem X23_observer_receives_the_stored_snapshot (m : pyval) (d : dict) (ts : pyval)
    (w : OrderBookStream.World) (bid ask : option (Decimal * Decimal))
    (cb : OrderBookStream.Callback) :
  ticker_message m d ts ->
  tick_side d "bid1Price" "bid1Size" bid ->
  tick_side d "ask1Price" "ask1Size" ask ->
  OrderBookStream.callback (OrderBookStream.stream w) = Some cb ->
  exists ob,
    snapshot (fst (OrderBookStream._process_message m w)) = Some ob
    /\ OrderBookStream.delivered (fst (OrderBookStream._process_message m w))
       = (OrderBookStream.delivered w ++ [ob])%list
    /\ snd (OrderBookStream._process_message m w) = cb ob.
Proof.
  intros Hm Hbid Hask Hcb.
  rewrite (process_ticker m d ts w bid ask Hm Hbid Hask). cbv zeta.
  destruct (apply_sides_keep bid ask (OrderBookStream.stream w)) as (Hkeep & _ & _).
  cbv zeta in Hkeep. rewrite Hkeep, Hcb.
  eexists. repeat split.
Qed.

Lemma X23_observer_receives_the_stored_snapshot_witness :
  exists ob,
    snapshot (fst (OrderBookStream._process_message (sample_tick 1 bid_fields)
                     (fresh "BTCUSDT" (Some (fun _ => Raise ValueError))))) = Some ob
    /\ OrderBookStream.delivered
         (fst (OrderBookStream._process_message (sample_tick 1 bid_fields)
                 (fresh "BTCUSDT" (Some (fun _ => Raise ValueError)))))
       = [ob]
    /\ snd (OrderBookStream._process_message (sample_tick 1 bid_fields)
              (fresh "BTCUSDT" (Some (fun _ => Raise ValueError)))) = Raise ValueError.
Proof.
  apply (X23_observer_receives_the_stored_snapshot (sample_tick 1 bid_fields)
           (("symbol", PyStr "BTCUSDT") :: bid_fields) (PyInt 1)
           (fresh "BTCUSDT" (Some (fun _ => Raise ValueError)))
           (Some (DFinite false 300005 (-1), DFinite false 12 (-1))) None
           (fun _ => Raise ValueError)).
  - apply sample_tick_message.
  - split; [exists (PyStr "30000.5") | exists (PyStr "1.2")]; repeat split.
  - reflexivity.
  - reflexivity.
Defined.

(** X24: a ticker message whose bid price reads as a decimal and whose
    bid size is a truthy value that [Decimal] refuses leaves the stream
    half updated: the tracked bid price is the new one, the tracked bid
    size and the stored snapshot are the old ones, nothing is handed to
    the observer, and the exception of [Decimal] is raised. *)
Theorem X24_bid_is_half_updated (m : pyval) (d : dict) (ts : pyval)
    (w : OrderBookStream.World) (p : Decimal) (e : exn) :
  ticker_message m d ts ->
  carries d "bid1Price" p ->
  refused d "bid1Size" e ->
  OrderBookStream._process_message m w
  = (OrderBookStream.mkWorld
       (OrderBookStream.set_best_bid_price p (OrderBookStream.stream w))
       (OrderBookStream.delivered w), Raise e).
Proof.
  intros (md & topic & -> & Htopic & Hstart & Hdata & Hne & Hts)
         (pv & Hpv & Hpt & Hpd) (sv & Hsv & Hst & Hsd).
  unfold OrderBookStream._process_message. stream_step.
  rewrite Htopic. stream_step. rewrite Hstart. stream_step. rewrite Hdata. stream_step.
  rewrite (truthy_nonempty d Hne). stream_step. rewrite Hts.
  destruct w as [s0 calls]. stream_step.
  unfold OrderBookStream.both_truthy at 1. cbn [py_get bind]. unfold dict_get at 1 2.
  rewrite Hpv, Hpt, Hsv, Hst. cbn [bind].
  cbn [OrderBookStream.py_item]. rewrite Hpv, Hsv. stream_step. rewrite Hpd, Hsd.
  reflexivity.
Qed.

Lemma X24_bid_is_half_updated_witness :
  OrderBookStream._process_message
    (sample_tick 2 [("bid1Price", PyStr "30002"); ("bid1Size", PyStr "n/a")])
    (after [sample_tick 1 bid_fields] (fresh "BTCUSDT" None))
  = (OrderBookStream.mkWorld
       (OrderBookStream.set_best_bid_price (DFinite false 30002 0)
          (OrderBookStream.stream (after [sample_tick 1 bid_fields] (fresh "BTCUSDT" None))))
       [], Raise InvalidOperation).
Proof.
  apply (X24_bid_is_half_updated _
           [("symbol", PyStr "BTCUSDT"); ("bid1Price", PyStr "30002");
            ("bid1Size", PyStr "n/a")] (PyInt 2)).
  - apply sample_tick_message.
  - exists (PyStr "30002"). repeat split.
  - exists (PyStr "n/a"). repeat split.
Defined.

(** X25: the snapshot of a ticker message takes its symbol from the
    payload and its time stamp from the message; a payload without a
    symbol gives the symbol the stream was built for, a message without a
    time stamp gives 0. *)
Theorem X25_snapshot_symbol_and_time (m : pyval) (d : dict) (ts : pyval)
    (w : OrderBookStream.World) (bid ask : option (Decimal * Decimal)) :
  ticker_message m d ts ->
  tick_side d "bid1Price" "bid1Size" bid ->
  tick_side d "ask1Price" "ask1Size" ask ->
  exists ob,
    snapshot (fst (OrderBookStream._process_message m w)) = Some ob
    /\ timestamp ob = ts
    /\ (forall md, m = PyDict md -> lacks md "ts" -> timestamp ob = PyInt 0)
    /\ (forall v, dict_lookup d "symbol" = Some v -> book_symbol ob = v)
    /\ (lacks d "symbol" ->
        book_symbol ob = PyStr (OrderBookStream.symbol (OrderBookStream.stream w))).
Proof.
  intros Hm Hbid Hask.
  unfold snapshot, OrderBookStream.get_latest_orderbook.
  rewrite (stream_after_ticker m d ts w bid ask Hm Hbid Hask). cbv zeta.
  destruct (apply_sides_keep bid ask (OrderBookStream.stream w)) as (_ & Hsym & _).
  cbv zeta in Hsym. rewrite Hsym.
  eexists. split; [reflexivity |]. cbn [timestamp book_symbol]. repeat split.
  - intros md -> Hl. destruct Hm as (md' & topic & Heq & _ & _ & _ & _ & Hts).
    injection Heq as <-. rewrite <- Hts. apply lacks_default, Hl.
  - intros v Hv. apply truthy_lookup, Hv.
  - intros Hl. apply lacks_default, Hl.
Qed.

Lemma X25_snapshot_symbol_and_time_witness :
  exists ob,
    snapshot (fst (OrderBookStream._process_message
                     (PyDict [("topic", PyStr "tickers.ETHUSDT");
                              ("data", PyDict ask_fields)])
                     (fresh "ETHUSDT" None))) = Some ob
    /\ timestamp ob = PyInt 0
    /\ book_symbol ob = PyStr "ETHUSDT".
Proof.
  destruct (X25_snapshot_symbol_and_time
              (PyDict [("topic", PyStr "tickers.ETHUSDT"); ("data", PyDict ask_fields)])
              ask_fields (PyInt 0) (fresh "ETHUSDT" None) None
              (Some (DFinite false 30001 0, DFinite false 7 (-1))))
    as (ob & Hob & Hts & _ & _ & Hsym).
  - exists [("topic", PyStr "tickers.ETHUSDT"); ("data", PyDict ask_fields)],
           "tickers.ETHUSDT".
    repeat split. discriminate.
  - reflexivity.
  - split; [exists (PyStr "30001") | exists (PyStr "0.7")]; repeat split.
  - exists ob. repeat split; [exact Hob | exact Hts | exact (Hsym eq_refl)].
Defined.

(** X26: a price without a size changes nothing on that side: when the
    payload of a ticker message carries a bid price but its bid size is
    missing or falsy (empty, 0, null), the tracked bid price and size
    stay what they were. *)
Theorem X26_price_without_size_is_dropped (m : pyval) (d : dict) (ts : pyval)
    (w : OrderBookStream.World) (p : Decimal) (ask : option (Decimal * Decimal)) :
  ticker_message m d ts ->
  carries d "bid1Price" p ->
  py_truthy (dict_get d "bid1Size" PyNone) = false ->
  tick_side d "ask1Price" "ask1Size" ask ->
  let s' := OrderBookStream.stream (fst (OrderBookStream._process_message m w)) in
  OrderBookStream.best_bid_price s' = OrderBookStream.best_bid_price (OrderBookStream.stream w)
  /\ OrderBookStream.best_bid_size s' = OrderBookStream.best_bid_size (OrderBookStream.stream w).
Proof.
  intros Hm (pv & Hpv & Hpt & _) Hsize Hask s'. subst s'.
  assert (Hbid : tick_side d "bid1Price" "bid1Size" None).
  { cbn [tick_side]. unfold OrderBookStream.both_truthy. cbn [py_get bind].
    unfold dict_get at 1. rewrite Hpv, Hpt, Hsize. reflexivity. }
  rewrite (stream_after_ticker m d ts w None ask Hm Hbid Hask). cbv zeta.
  destruct (apply_sides_keep None ask (OrderBookStream.stream w)) as (_ & _ & Hkeep).
  cbv zeta in Hkeep. destruct (Hkeep eq_refl) as [Hp Hs].
  split; [exact Hp | exact Hs].
Qed.

Lemma X26_price_without_size_is_dropped_witness :
  OrderBookStream.best_bid_price
    (OrderBookStream.stream
       (fst (OrderBookStream._process_message
               (sample_tick 2 [("bid1Price", PyStr "31000"); ("bid1Size", PyStr EmptyString)])
               (after [sample_tick 1 bid_fields] (fresh "BTCUSDT" None)))))
  = Some (DFinite false 300005 (-1)).
Proof.
  exact (proj1 (X26_price_without_size_is_dropped
           (sample_tick 2 [("bid1Price", PyStr "31000"); ("bid1Size", PyStr EmptyString)])
           [("symbol", PyStr "BTCUSDT"); ("bid1Price", PyStr "31000");
            ("bid1Size", PyStr EmptyString)]
           (PyInt 2) (after [sample_tick 1 bid_fields] (fresh "BTCUSDT" None))
           (DFinite false 31000 0) None
           (sample_tick_message 2 _)
           (ex_intro _ (PyStr "31000") (conj eq_refl (conj eq_refl eq_refl)))
           eq_refl eq_refl)).
Defined.

(** ** Connecting and disconnecting *)

Lemma string_app_assoc (a b c : string) : (a ++ b) ++ c = a ++ (b ++ c).
Proof. induction a as [| x a IH]; cbn; [reflexivity | now rewrite IH]. Qed.

(** The text of the subscribe frame. *)
Lemma subscribe_frame (s : OrderBookStream.BybitOrderBookStream) :
  json_dumps (OrderBookStream.subscribe_msg s)
  = "{" ++ dquote ++ "op" ++ dquote ++ ": " ++ dquote ++ "subscribe" ++ dquote ++ ", "
        ++ dquote ++ "args" ++ dquote ++ ": [" ++ dquote ++ "tickers."
        ++ json_escape (OrderBookStream.symbol s) ++ dquote ++ "]}".
Proof.
  unfold OrderBookStream.subscribe_msg. cbn.
  rewrite !string_app_assoc. reflexivity.
Qed.

(** X27: [disconnect] on a stream that never connected calls nothing and
    returns normally.  When the connection opens, [connect] makes two
    calls, the opening of the public linear endpoint and the sending of
    one subscribe frame for the topic tickers.SYMBOL, a topic the message
    handler accepts; from then on a handle is held, and since
    [disconnect] keeps it, each [disconnect] closes the connection once
    more. *)
Theorem X27_connect_then_disconnect (net : OrderBookStream.Network) (sym : string) :
  net_connect_ok net ->
  let s0 := OrderBookStream.__init__ sym in
  let s1 := fst (fst (OrderBookStream.connect net s0)) in
  OrderBookStream.disconnect net s0 = (s0, [], Ok tt)
  /\ OrderBookStream.websocket s1 = true
  /\ snd (fst (OrderBookStream.connect net s0))
     = [ OrderBookStream.Connect "wss://stream.bybit.com/v5/public/linear";
         OrderBookStream.Send
           ("{" ++ dquote ++ "op" ++ dquote ++ ": " ++ dquote ++ "subscribe" ++ dquote
                ++ ", " ++ dquote ++ "args" ++ dquote ++ ": [" ++ dquote ++ "tickers."
                ++ json_escape sym ++ dquote ++ "]}") ]
  /\ starts_with "tickers" ("tickers." ++ sym) = true
  /\ OrderBookStream.disconnect net s1
     = (s1, [OrderBookStream.Close], OrderBookStream.net_close net)
  /\ OrderBookStream.disconnect net (fst (fst (OrderBookStream.disconnect net s1)))
     = (s1, [OrderBookStream.Close], OrderBookStream.net_close net).
Proof.
  intros Hopen s0 s1. subst s0 s1. unfold OrderBookStream.connect.
  cbn [OrderBookStream.ws_url OrderBookStream.__init__].
  rewrite (Hopen "wss://stream.bybit.com/v5/public/linear").
  cbn [fst snd].
  split; [reflexivity | split; [reflexivity | split; [| repeat split]]].
  rewrite subscribe_frame. reflexivity.
Qed.

Lemma X27_connect_then_disconnect_witness :
  OrderBookStream.disconnect (sample_network (Ok tt) (Raise OSError))
    (OrderBookStream.__init__ "BTCUSDT")
  = (OrderBookStream.__init__ "BTCUSDT", [], Ok tt)
  /\ OrderBookStream.websocket
       (fst (fst (OrderBookStream.connect (sample_network (Ok tt) (Raise OSError))
                    (OrderBookStream.__init__ "BTCUSDT")))) = true.
Proof.
  destruct (X27_connect_then_disconnect (sample_network (Ok tt) (Raise OSError)) "BTCUSDT"
              (fun _ => eq_refl)) as (Hnever & Hheld & _).
  split; [exact Hnever | exact Hheld].
Defined.

(** X28: when no handle is held and the connection cannot be opened,
    [listen] does not swallow the exception as it does for the messages:
    the exception of [connect] leaves [listen], no message is handled,
    nothing is sent, and the stream is as before, without a handle. *)
Theorem X28_listen_raises_when_it_cannot_connect (net : OrderBookStream.Network)
    (messages : list pyval) (w : OrderBookStream.World) (e : exn) :
  OrderBookStream.websocket (OrderBookStream.stream w) = false ->
  OrderBookStream.net_connect net (OrderBookStream.ws_url (OrderBookStream.stream w))
  = Raise e ->
  OrderBookStream.listen_from_start net messages w
  = (w, [OrderBookStream.Connect (OrderBookStream.ws_url (OrderBookStream.stream w))],
     Raise e).
Proof.
  intros Hnone Hopen. unfold OrderBookStream.listen_from_start, OrderBookStream.connect.
  rewrite Hnone, Hopen. destruct w. reflexivity.
Qed.

Lemma X28_listen_raises_when_it_cannot_connect_witness :
  OrderBookStream.listen_from_start (sample_network (Raise OSError) (Ok tt))
    [sample_tick 1 bid_fields] (fresh "BTCUSDT" None)
  = (fresh "BTCUSDT" None,
     [OrderBookStream.Connect "wss://stream.bybit.com/v5/public/linear"], Raise OSError).
Proof.
  exact (X28_listen_raises_when_it_cannot_connect (sample_network (Raise OSError) (Ok tt))
           [sample_tick 1 bid_fields] (fresh "BTCUSDT" None) OSError eq_refl eq_refl).
Defined.

(** X29: when the connection opens but the subscribe frame cannot be
    sent, [listen] raises with the handle already stored; a later
    [listen] on the same stream finds the handle, so it neither connects
    nor subscribes again: it makes no call and goes straight to the
    receive loop. *)
Theorem X29_failed_subscription_is_not_retried (net : OrderBookStream.Network)
    (messages later : list pyval) (w : OrderBookStream.World) (e : exn) :
  OrderBookStream.websocket (OrderBookStream.stream w) = false ->
  net_connect_ok net ->
  OrderBookStream.net_send net
    (json_dumps (OrderBookStream.subscribe_msg (OrderBookStream.stream w))) = Raise e ->
  let w1 := OrderBookStream.mkWorld
              (OrderBookStream.set_websocket true (OrderBookStream.stream w))
              (OrderBookStream.delivered w) in
  OrderBookStream.listen_from_start net messages w
  = (w1, [ OrderBookStream.Connect (OrderBookStream.ws_url (OrderBookStream.stream w));
           OrderBookStream.Send
             (json_dumps (OrderBookStream.subscribe_msg (OrderBookStream.stream w))) ],
     Raise e)
  /\ OrderBookStream.listen_from_start net later w1
     = (fst (OrderBookStream.listen later w1), [], Ok tt).
Proof.
  intros Hnone Hopen Hsend w1. subst w1. split.
  - unfold OrderBookStream.listen_from_start, OrderBookStream.connect.
    rewrite Hnone, (Hopen _), Hsend. reflexivity.
  - unfold OrderBookStream.listen_from_start.
    cbn [OrderBookStream.stream OrderBookStream.websocket OrderBookStream.set_websocket].
    unfold OrderBookStream.listen.
    destruct (OrderBookStream.listen_loop later _) as [w' r]. reflexivity.
Qed.

Lemma X29_failed_subscription_is_not_retried_witness :
  OrderBookStream.listen_from_start (sample_network (Ok tt) (Raise OSError))
    [sample_tick 1 bid_fields] (fresh "BTCUSDT" None)
  = (OrderBookStream.mkWorld
       (OrderBookStream.set_websocket true (OrderBookStream.__init__ "BTCUSDT")) [],
     [ OrderBookStream.Connect "wss://stream.bybit.com/v5/public/linear";
       OrderBookStream.Send
         (json_dumps (OrderBookStream.subscribe_msg (OrderBookStream.__init__ "BTCUSDT"))) ],
     Raise OSError).
Proof.
  exact (proj1 (X29_failed_subscription_is_not_retried
                  (sample_network (Ok tt) (Raise OSError))
                  [sample_tick 1 bid_fields] [] (fresh "BTCUSDT" None) OSError
                  eq_refl (fun _ => eq_refl) eq_refl)).
Defined.
